(** * KrakenWebhook: the alert validation and order-translation pipeline

    A shallow embedding of the TradingView-to-Kraken webhook relay:
    - [src/utils/models.py]: the alert schema, its validators, and the
      translation of an alert into a Kraken order request;
    - [src/processor/payload_processor.py]: signature verification and
      request processing;
    - [src/webhook/receiver.py] and [src/main.py]: the two webhook endpoints
      and the application-wide exception handler.

    Conventions.  A Python [str] is the Rocq [string] of its bytes (UTF-8),
    so a [str] is ASCII exactly when every byte is below 128; a lone
    surrogate, which a JSON escape can put into a [str], is written as its
    three bytes, first byte 237 and second byte 160 or above, and is what
    makes a [str] impossible to encode.  A Python
    [float] is an IEEE 754 value of the Standard Library's [spec_float].
    A [dict] is a [gmap].  Raising is explicit: a function that can raise
    returns a [result].  What the service takes from its libraries (the
    Unicode case tables, [repr] of floats, SHA-256, the JSON decoder, the
    type layer of pydantic and the messages of its errors and of an
    encoding error) is the interface [PyLib]. *)

From Stdlib Require Import ZArith NArith Bool List String Ascii SpecFloat.
From Stdlib Require Import Strings.Byte.
From Stdlib Require Import DecimalString.
From stdpp Require Import base option list strings finite gmap.

Set Warnings "-register-all,-clear-no-such-hyp".

Local Open Scope string_scope.
Local Open Scope Z_scope.

(** ** Python values *)

Definition float := spec_float.

(** [v <= 0] and [0 < v] on a float; the int [0] compares as [0.0], and
    every comparison with NaN is false. *)
Definition float_le_zero (v : float) : bool := SFleb v (S754_zero false).
Definition float_gt_zero (v : float) : bool := SFltb (S754_zero false) v.

(** [math.isfinite]. *)
Definition float_is_finite (v : float) : bool :=
  match v with
  | S754_zero _ | S754_finite _ _ _ => true
  | S754_infinity _ | S754_nan => false
  end.

(** A decoded JSON document, also the content of a JSON response. *)
Inductive json :=
| JNull
| JBool (b : bool)
| JInt (n : Z)
| JFloat (f : float)
| JStr (s : string)
| JList (l : list json)
| JDict (kvs : list (string * json)).

(** [str(n)] for an int. *)
Definition int_str (n : Z) : string := NilZero.string_of_int (Z.to_int n).

(** [str.isascii]. *)
Definition isascii (s : string) : bool :=
  forallb (fun c => (N_of_ascii c <? 128)%N) (list_ascii_of_string s).

(** Well-formed UTF-8: no surrogate, no overlong form, nothing above
    U+10FFFF. *)
Definition utf8_tail (b : N) : bool := ((128 <=? b) && (b <=? 191))%N.

Fixpoint utf8_well_formed (l : list N) : bool :=
  match l with
  | [] => true
  | b0 :: l1 =>
      if (b0 <? 128)%N then utf8_well_formed l1
      else
        match l1 with
        | [] => false
        | b1 :: l2 =>
            if ((194 <=? b0) && (b0 <=? 223))%N
            then utf8_tail b1 && utf8_well_formed l2
            else
              match l2 with
              | [] => false
              | b2 :: l3 =>
                  if ((224 <=? b0) && (b0 <=? 239))%N
                  then (if (b0 =? 224)%N then (160 <=? b1)%N else true)
                       && (if (b0 =? 237)%N then (b1 <=? 159)%N else true)
                       && utf8_tail b1 && utf8_tail b2 && utf8_well_formed l3
                  else
                    match l3 with
                    | [] => false
                    | b3 :: l4 =>
                        ((240 <=? b0) && (b0 <=? 244))%N
                        && (if (b0 =? 240)%N then (144 <=? b1)%N else true)
                        && (if (b0 =? 244)%N then (b1 <=? 143)%N else true)
                        && utf8_tail b1 && utf8_tail b2 && utf8_tail b3
                        && utf8_well_formed l4
                    end
              end
        end
  end.

(** [s.encode("utf-8")] returns: the [str] holds no lone surrogate. *)
Definition utf8_encodable (s : string) : bool :=
  utf8_well_formed (map N_of_ascii (list_ascii_of_string s)).

(** Truthiness of an optional string: [None] and [''] are falsy. *)
Definition truthy (s : option string) : bool :=
  match s with
  | Some (String _ _) => true
  | _ => false
  end.

(** ** Exceptions *)

(** One entry of a pydantic [ValidationError]: what went wrong at a field. *)
Inductive error_kind :=
| missing                       (* a required field was not supplied *)
| type_error                    (* the value does not parse at the field's type *)
| value_error (msg : string).   (* a validator raised ValueError(msg) *)

Inductive exn :=
| HTTPException (status_code : Z) (detail : string)
| ValidationError (errors : list (string * error_kind))
| JSONDecodeError (msg : string)
| KeyError (key : string)
| TypeError (msg : string)
| ValueError (msg : string)
| AttributeError (msg : string)
| UnicodeDecodeError (msg : string)
| UnicodeEncodeError (msg : string).

Inductive result (A : Type) :=
| Ok (a : A)
| Raise (e : exn).
Arguments Ok {A} a.
Arguments Raise {A} e.

#[export] Instance result_ret : MRet result := fun _ a => Ok a.
#[export] Instance result_bind : MBind result := fun _ _ f m =>
  match m with
  | Ok a => f a
  | Raise e => Raise e
  end.

Definition is_ok {A} (r : result A) : bool :=
  match r with
  | Ok _ => true
  | Raise _ => false
  end.

(** [status] constants of FastAPI. *)
Definition HTTP_200_OK : Z := 200.
Definition HTTP_400_BAD_REQUEST : Z := 400.
Definition HTTP_401_UNAUTHORIZED : Z := 401.
Definition HTTP_500_INTERNAL_SERVER_ERROR : Z := 500.

(** ** models.py: enums *)

Inductive OrderType :=
| MARKET
| LIMIT
| STOP_LOSS
| TAKE_PROFIT
| STOP_LOSS_LIMIT
| TAKE_PROFIT_LIMIT.

Inductive OrderSide :=
| BUY
| SELL.

#[export] Instance OrderType_eq_dec : EqDecision OrderType.
Proof. solve_decision. Defined.

#[export] Instance OrderSide_eq_dec : EqDecision OrderSide.
Proof. solve_decision. Defined.

#[export] Program Instance OrderType_finite : Finite OrderType :=
  {| enum := [MARKET; LIMIT; STOP_LOSS; TAKE_PROFIT; STOP_LOSS_LIMIT; TAKE_PROFIT_LIMIT] |}.
Next Obligation. by apply (bool_decide_unpack _). Qed.
Next Obligation. by intros []; apply (bool_decide_unpack _). Qed.

(** The [value] of an enum member. *)
Definition OrderType_value (t : OrderType) : string :=
  match t with
  | MARKET => "market"
  | LIMIT => "limit"
  | STOP_LOSS => "stop-loss"
  | TAKE_PROFIT => "take-profit"
  | STOP_LOSS_LIMIT => "stop-loss-limit"
  | TAKE_PROFIT_LIMIT => "take-profit-limit"
  end.

Definition OrderSide_value (s : OrderSide) : string :=
  match s with
  | BUY => "buy"
  | SELL => "sell"
  end.

(** [OrderSide(s)]: the member whose value is [s], if any. *)
Definition OrderSide_of_value (s : string) : option OrderSide :=
  if String.eqb s "buy" then Some BUY
  else if String.eqb s "sell" then Some SELL
  else None.

(** ** What the service takes from its libraries *)

(** The keyword arguments with which the model [TradingViewAlert] is
    constructed from the decoded body, field by field, as the type layer
    of pydantic reads them before any validator of the model runs: the key
    is not in the body ([Absent]), its value does not parse at the
    annotated type ([Malformed]), or it parses ([Given]).  For an
    [Optional] field [Given None] is an explicit [null]. *)
Inductive field_input (A : Type) :=
| Absent
| Malformed
| Given (a : A).
Arguments Absent {A}.
Arguments Malformed {A}.
Arguments Given {A} a.

Record alert_input := {
  in_symbol : field_input string;
  in_side : field_input OrderSide;
  in_order_type : field_input OrderType;
  in_volume : field_input (option float);
  in_price : field_input (option float);
  in_leverage : field_input (option Z);
  in_stop_price : field_input (option float);
  in_strategy_name : field_input (option string);
  in_alert_message : field_input (option string);
  in_custom_fields : field_input (option (list (string * json)));
}.

(** What [await request.json()] returns for a body that decodes: a JSON
    object, read as the keyword arguments of the model, or another JSON
    value. *)
Inductive payload :=
| Mapping (kw : alert_input)
| PList (l : list json)
| PStr (s : string)
| PInt (n : Z)
| PFloat (f : float)
| PBool (b : bool)
| PNull.

(** The two major versions of pydantic call a validator differently, see
    [validator_kwargs]. *)
Inductive pydantic_version :=
| PydanticV1
| PydanticV2.

Class PyLib := {
  (** the installed pydantic *)
  pydantic : pydantic_version;
  (** [s.upper()] *)
  str_upper : string -> string;
  (** [str(x)] for a float [x] *)
  float_str : float -> string;
  (** [hmac.new(key, msg, hashlib.sha256).digest()] *)
  hmac_sha256 : list byte -> list byte -> list byte;
  (** [json.loads(body)], with the fields of an object read by pydantic *)
  json_loads : list byte -> result payload;
  (** [str(e)] for a pydantic [ValidationError] *)
  validation_error_str : list (string * error_kind) -> string;
  (** [str(e)] for the [UnicodeEncodeError] of encoding the rendering of
      a content that holds a lone surrogate; it names the character and
      its position in the rendering *)
  encode_error_str : list (string * json) -> string;
}.

(** [str.upper] restricted to ASCII strings. *)
Definition ascii_upper_char (c : ascii) : ascii :=
  let n := N_of_ascii c in
  if ((97 <=? n) && (n <=? 122))%N then ascii_of_N (n - 32) else c.

Fixpoint ascii_upper (s : string) : string :=
  match s with
  | EmptyString => EmptyString
  | String c s' => String (ascii_upper_char c) (ascii_upper s')
  end.

(** The facts about the libraries that the proofs rely on: [str.upper]
    maps ASCII letters as [ascii_upper] does and is idempotent, and a
    SHA-256 digest has 32 bytes. *)
Class PyLibLaws (lib : PyLib) : Prop := {
  str_upper_ascii : forall s, isascii s = true -> str_upper s = ascii_upper s;
  str_upper_idempotent : forall s, str_upper (str_upper s) = str_upper s;
  hmac_sha256_length : forall key msg, length (hmac_sha256 key msg) = 32%nat;
}.

(** [str(e)] *)
Definition exn_str `{lib : PyLib} (e : exn) : string :=
  match e with
  | HTTPException status_code detail => int_str status_code ++ ": " ++ detail
  | ValidationError errors => validation_error_str errors
  | KeyError key => "'" ++ key ++ "'"
  | JSONDecodeError msg | TypeError msg | ValueError msg
  | AttributeError msg | UnicodeDecodeError msg | UnicodeEncodeError msg => msg
  end.

(** ** models.py: TradingViewAlert *)

Module TradingViewAlert.
Record t := {
  symbol : string;
  side : OrderSide;
  order_type : OrderType;
  volume : option float;
  price : option float;
  leverage : option Z;
  stop_price : option float;
  strategy_name : option string;
  alert_message : option string;
  custom_fields : option (list (string * json));
}.
End TradingViewAlert.

(** An object that pydantic hands to a validator, in [values] or under a
    keyword. *)
Inductive pyobj :=
| PyNone
| PyStr (s : string)
| PyInt (n : Z)
| PyFloat (f : float)
| PySide (s : OrderSide)
| PyType (t : OrderType)
| PyJson (j : json)
| PyModelField (name : string)   (* the object describing a field of the model *)
| PyConfig.                      (* the configuration class of the model *)

Definition py_option {A} (f : A -> pyobj) (o : option A) : pyobj :=
  match o with
  | Some a => f a
  | None => PyNone
  end.

(** [o == s] for a string literal [s]: an object that is not a string is
    not equal to one. *)
Definition py_eq_str (o : pyobj) (s : string) : bool :=
  match o with
  | PyStr s' => String.eqb s' s
  | _ => false
  end.

(** [o in l] for a list [l] of order types. *)
Definition py_in (o : option pyobj) (l : list OrderType) : bool :=
  match o with
  | Some (PyType t) => bool_decide (t ∈ l)
  | _ => false
  end.

(** How an f-string renders an object. *)
Definition py_format (o : option pyobj) : string :=
  match o with
  | Some (PyStr s) => s
  | Some (PyType t) => OrderType_value t
  | Some (PySide s) => OrderSide_value s
  | Some (PyInt n) => int_str n
  | Some (PyModelField name) => "ModelField(name='" ++ name ++ "')"
  | _ => "None"
  end.

(** What a validator does with a value: [return] or [raise ValueError]. *)
Inductive validated (A : Type) :=
| Accept (a : A)
| Reject (msg : string).
Arguments Accept {A} a.
Arguments Reject {A} msg.

Section Schema.
Context `{lib : PyLib}.

Definition symbol_mappings : gmap string string :=
  {[ "BTCUSD" := "XBTUSD";
     "BTC/USD" := "XBTUSD";
     "ETHUSD" := "ETHUSD";
     "ETH/USD" := "ETHUSD" ]}.

(** [@validator('symbol')] *)
Definition validate_symbol (v : string) : string :=
  let v := str_upper v in
  default v (symbol_mappings !! v).

Definition price_required_for : list OrderType :=
  [LIMIT; STOP_LOSS_LIMIT; TAKE_PROFIT_LIMIT].

Definition stop_price_required_for : list OrderType :=
  [STOP_LOSS; STOP_LOSS_LIMIT; TAKE_PROFIT; TAKE_PROFIT_LIMIT].

(** [@validator('price', 'stop_price')], declared
    [(cls, v, values, **kwargs)]: [values] holds the fields validated so
    far, [kwargs] whatever else pydantic passes by keyword. *)
Definition validate_prices (v : option float) (values kwargs : gmap string pyobj)
  : validated (option float) :=
  match v with
  | None =>
      let field_name := default (PyStr "") (kwargs !! "field") in
      let order_type := values !! "order_type" in
      if (py_eq_str field_name "price" && py_in order_type price_required_for)
         || (py_eq_str field_name "stop_price" && py_in order_type stop_price_required_for)
      then Reject (py_format (Some field_name) ++ " is required for "
                     ++ py_format order_type ++ " orders")
      else Accept v
  | Some _ => Accept v
  end.

(** [@validator('volume')] *)
Definition validate_volume (v : option float) : validated (option float) :=
  match v with
  | Some x => if float_le_zero x then Reject "Volume must be positive" else Accept v
  | None => Accept v
  end.

(** The keyword arguments, besides [values], of a call to a validator of
    field [name] that takes [**kwargs]: pydantic 1 passes the field
    object and the configuration class, pydantic 2 passes nothing. *)
Definition validator_kwargs (name : string) : gmap string pyobj :=
  match pydantic with
  | PydanticV1 => {[ "field" := PyModelField name; "config" := PyConfig ]}
  | PydanticV2 => ∅
  end.

(** The fields validated so far and the errors so far. *)
Definition validation_state : Type :=
  gmap string pyobj * list (string * error_kind).

(** One step of pydantic's model validation.  A field that is not
    supplied takes its default and its validators do not run (none is
    declared with [always=True]); a required field that is not supplied
    is an error.  A supplied value goes through the type layer and then
    through the validators of the field.  A field that fails is left out
    of [values]. *)
Definition validate_field {A} (name : string) (to_py : A -> pyobj)
    (default : option A) (validator : A -> gmap string pyobj -> validated A)
    (inp : field_input A) (st : validation_state) : option A * validation_state :=
  let '(values, errors) := st in
  match inp with
  | Absent =>
      match default with
      | Some d => (Some d, (<[name := to_py d]> values, errors))
      | None => (None, (values, (errors ++ [(name, missing)])%list))
      end
  | Malformed => (None, (values, (errors ++ [(name, type_error)])%list))
  | Given a =>
      match validator a values with
      | Accept a' => (Some a', (<[name := to_py a']> values, errors))
      | Reject msg => (None, (values, (errors ++ [(name, value_error msg)])%list))
      end
  end.

Definition no_validator {A} (a : A) (_ : gmap string pyobj) : validated A :=
  Accept a.

(** [TradingViewAlert(...)]: the fields in the order of their
    declaration; every error is collected, and a model is returned only
    when there is none. *)
Definition TradingViewAlert_init (kw : alert_input) : result TradingViewAlert.t :=
  let st : validation_state := (∅, []) in
  let '(symbol, st) :=
    validate_field "symbol" PyStr None
      (fun v _ => Accept (validate_symbol v)) (in_symbol kw) st in
  let '(side, st) :=
    validate_field "side" PySide None no_validator (in_side kw) st in
  let '(order_type, st) :=
    validate_field "order_type" PyType (Some MARKET) no_validator
      (in_order_type kw) st in
  let '(volume, st) :=
    validate_field "volume" (py_option PyFloat) (Some None)
      (fun v _ => validate_volume v) (in_volume kw) st in
  let '(price, st) :=
    validate_field "price" (py_option PyFloat) (Some None)
      (fun v values => validate_prices v values (validator_kwargs "price"))
      (in_price kw) st in
  let '(leverage, st) :=
    validate_field "leverage" (py_option PyInt) (Some None) no_validator
      (in_leverage kw) st in
  let '(stop_price, st) :=
    validate_field "stop_price" (py_option PyFloat) (Some None)
      (fun v values => validate_prices v values (validator_kwargs "stop_price"))
      (in_stop_price kw) st in
  let '(strategy_name, st) :=
    validate_field "strategy_name" (py_option PyStr) (Some None) no_validator
      (in_strategy_name kw) st in
  let '(alert_message, st) :=
    validate_field "alert_message" (py_option PyStr) (Some None) no_validator
      (in_alert_message kw) st in
  let '(custom_fields, st) :=
    validate_field "custom_fields" (py_option (fun d => PyJson (JDict d)))
      (Some (Some [])) no_validator (in_custom_fields kw) st in
  let model :=
    symbol ← symbol; side ← side; order_type ← order_type;
    volume ← volume; price ← price; leverage ← leverage;
    stop_price ← stop_price; strategy_name ← strategy_name;
    alert_message ← alert_message; custom_fields ← custom_fields;
    Some {| TradingViewAlert.symbol := symbol;
            TradingViewAlert.side := side;
            TradingViewAlert.order_type := order_type;
            TradingViewAlert.volume := volume;
            TradingViewAlert.price := price;
            TradingViewAlert.leverage := leverage;
            TradingViewAlert.stop_price := stop_price;
            TradingViewAlert.strategy_name := strategy_name;
            TradingViewAlert.alert_message := alert_message;
            TradingViewAlert.custom_fields := custom_fields |} in
  match snd st, model with
  | [], Some alert => Ok alert
  | errors, _ => Raise (ValidationError errors)
  end.
End Schema.

(** ** models.py: TradeRequest *)

Module TradeRequest.
Record t := {
  pair : string;
  type : OrderSide;
  ordertype : string;
  volume : option string;
  price : option string;
  price2 : option string;
  leverage : option string;
  starttm : option string;
  expiretm : option string;
  validate : option bool;
  oflags : option string;
  userref : option string;
}.
End TradeRequest.

(** How pydantic reads a string at type [bool]. *)
Definition bool_of_str (s : string) : option bool :=
  let u := ascii_upper s in
  if bool_decide (u ∈ ["1"; "ON"; "T"; "TRUE"; "Y"; "YES"]) then Some true
  else if bool_decide (u ∈ ["0"; "OFF"; "F"; "FALSE"; "N"; "NO"]) then Some false
  else None.

(** A required field of a model built from string-valued keywords. *)
Definition required_field {A} (name : string) (parse : string -> option A)
    (kw : gmap string string) : option A * list (string * error_kind) :=
  match kw !! name with
  | None => (None, [(name, missing)])
  | Some s =>
      match parse s with
      | Some a => (Some a, [])
      | None => (None, [(name, type_error)])
      end
  end.

(** An [Optional] field with default [None]. *)
Definition optional_field {A} (name : string) (parse : string -> option A)
    (kw : gmap string string) : option (option A) * list (string * error_kind) :=
  match kw !! name with
  | None => (Some None, [])
  | Some s =>
      match parse s with
      | Some a => (Some (Some a), [])
      | None => (None, [(name, type_error)])
      end
  end.

(** [TradeRequest(...)] on string-valued keywords: [pair], [type] and
    [ordertype] are required, [type] must be the value of an [OrderSide]. *)
Definition TradeRequest_init (kw : gmap string string) : result TradeRequest.t :=
  let '(o_pair, e1) := required_field "pair" Some kw in
  let '(o_type, e2) := required_field "type" OrderSide_of_value kw in
  let '(o_ordertype, e3) := required_field "ordertype" Some kw in
  let '(o_validate, e4) := optional_field "validate" bool_of_str kw in
  let model :=
    pair ← o_pair; type ← o_type; ordertype ← o_ordertype; validate ← o_validate;
    Some {| TradeRequest.pair := pair;
            TradeRequest.type := type;
            TradeRequest.ordertype := ordertype;
            TradeRequest.volume := kw !! "volume";
            TradeRequest.price := kw !! "price";
            TradeRequest.price2 := kw !! "price2";
            TradeRequest.leverage := kw !! "leverage";
            TradeRequest.starttm := kw !! "starttm";
            TradeRequest.expiretm := kw !! "expiretm";
            TradeRequest.validate := validate;
            TradeRequest.oflags := kw !! "oflags";
            TradeRequest.userref := kw !! "userref" |} in
  match (e1 ++ e2 ++ e3 ++ e4)%list, model with
  | [], Some request => Ok request
  | errors, _ => Raise (ValidationError errors)
  end.

(** [d[k]] *)
Definition dict_getitem (d : gmap OrderType string) (k : OrderType) : result string :=
  match d !! k with
  | Some v => Ok v
  | None => Raise (KeyError (OrderType_value k))
  end.

Section Translation.
Context `{lib : PyLib}.

Definition ordertype_mapping : gmap OrderType string :=
  {[ MARKET := "market";
     LIMIT := "limit";
     STOP_LOSS := "stop-loss";
     TAKE_PROFIT := "take-profit";
     STOP_LOSS_LIMIT := "stop-loss-limit";
     TAKE_PROFIT_LIMIT := "take-profit-limit" ]}.

(** [TradeRequest.from_tradingview_alert] *)
Definition from_tradingview_alert (alert : TradingViewAlert.t)
  : result TradeRequest.t :=
  ordertype ← dict_getitem ordertype_mapping (TradingViewAlert.order_type alert);
  let request : gmap string string :=
    {[ "pair" := TradingViewAlert.symbol alert;
       "type" := OrderSide_value (TradingViewAlert.side alert);
       "ordertype" := ordertype ]} in
  let request :=
    match TradingViewAlert.volume alert with
    | Some volume => <["volume" := float_str volume]> request
    | None => request
    end in
  let request :=
    match TradingViewAlert.price alert with
    | Some price => <["price" := float_str price]> request
    | None => request
    end in
  let request :=
    match TradingViewAlert.stop_price alert with
    | Some stop_price =>
        if bool_decide (TradingViewAlert.order_type alert
                          ∈ [STOP_LOSS_LIMIT; TAKE_PROFIT_LIMIT])
        then <["price2" := float_str stop_price]> request
        else <["price" := float_str stop_price]> request
    | None => request
    end in
  let request :=
    match TradingViewAlert.leverage alert with
    | Some leverage => <["leverage" := int_str leverage]> request
    | None => request
    end in
  TradeRequest_init request.
End Translation.

(** ** models.py: TradeResponse *)

Module TradeResponse.
Record t := {
  success : bool;
  order_id : option string;
  error : option string;
  details : option (list (string * json));
}.

Definition success_response (order_id : string)
    (details : option (list (string * json))) : t :=
  {| success := true; order_id := Some order_id; error := None; details := details |}.

Definition error_response (error : string)
    (details : option (list (string * json))) : t :=
  {| success := false; order_id := None; error := Some error; details := details |}.
End TradeResponse.

(** ** config.py and secrets.py *)

Inductive Environment :=
| DEVELOPMENT
| STAGING
| PRODUCTION.

#[export] Instance Environment_eq_dec : EqDecision Environment.
Proof. solve_decision. Defined.

Module Config.
Record t := {
  environment : Environment;
  kraken_api_key : option string;
  kraken_api_secret : option string;
  webhook_secret : option string;
  gcp_project_id : option string;
}.

Definition is_production (self : t) : bool :=
  bool_decide (environment self = PRODUCTION).

Definition is_development (self : t) : bool :=
  bool_decide (environment self = DEVELOPMENT).

(** [_validate_config] *)
Definition _validate_config (self : t) : result unit :=
  if bool_decide (environment self = PRODUCTION) then
    let missing_vars :=
      ((if truthy (kraken_api_key self) then [] else ["KRAKEN_API_KEY"])
       ++ (if truthy (kraken_api_secret self) then [] else ["KRAKEN_API_SECRET"])
       ++ (if truthy (webhook_secret self) then [] else ["WEBHOOK_SECRET"]))%list in
    match missing_vars with
    | [] => Ok tt
    | _ :: _ =>
        Raise (ValueError ("Missing required environment variables: "
                             ++ String.concat ", " missing_vars))
    end
  else Ok tt.
End Config.

(** [SecretManager.get_secret]: the environment variable when it is set
    and not empty, else what Secret Manager holds ([None] when there is no
    client or the lookup fails), else the default. *)
Definition get_secret (getenv cloud : string -> option string)
    (secret_name : string) (default : option string) : option string :=
  let env_value := getenv secret_name in
  if truthy env_value then env_value
  else match cloud secret_name with
       | Some secret_value => Some secret_value
       | None => default
       end.

Definition get_webhook_secret (getenv cloud : string -> option string) : option string :=
  get_secret getenv cloud "WEBHOOK_SECRET" None.

(** ** payload_processor.py *)

Record Request := {
  headers : list (string * string);
  body : list byte;
}.

(** [request.headers.get(name)]: names compare without regard to case,
    the first matching line wins. *)
Definition headers_get (h : list (string * string)) (name : string) : option string :=
  snd <$> List.find (fun kv => String.eqb (ascii_upper (fst kv)) (ascii_upper name)) h.

Definition hex_digit (n : N) : ascii :=
  match String.get (N.to_nat n) "0123456789abcdef" with
  | Some c => c
  | None => "0"%char
  end.

(** [digest.hex()] *)
Fixpoint hexdigest (digest : list byte) : string :=
  match digest with
  | [] => EmptyString
  | b :: digest' =>
      let n := Byte.to_N b in
      String (hex_digit (n / 16)) (String (hex_digit (n mod 16)) (hexdigest digest'))
  end.

(** [hmac.compare_digest] on two [str]: defined on ASCII strings only. *)
Definition compare_digest (a b : string) : result bool :=
  if isascii a && isascii b then Ok (String.eqb a b)
  else Raise (TypeError "comparing strings with non-ASCII characters is not supported").

Module PayloadProcessor.
Record t := {
  _webhook_secret : option string;
}.

(** [__init__] *)
Definition init : t := {| _webhook_secret := None |}.
End PayloadProcessor.

Definition sensitive_fields : list string :=
  ["api_key"; "api_secret"; "key"; "secret"; "password"; "token"].

Definition json_is_str (s : string) (j : json) : bool :=
  match j with
  | JStr s' => String.eqb s' s
  | _ => false
  end.

(** [type(payload).__name__] *)
Definition payload_type_name (payload_ : payload) : string :=
  match payload_ with
  | Mapping _ => "dict"
  | PList _ => "list"
  | PStr _ => "str"
  | PInt _ => "int"
  | PFloat _ => "float"
  | PBool _ => "bool"
  | PNull => "NoneType"
  end.

(** [_log_payload]: the masked copy only feeds the logger; what remains
    is whether copying and masking raise.  Only a dict and a list have
    [copy], and a list cannot be indexed by the name of a field. *)
Definition _log_payload (payload_ : payload) : result unit :=
  match payload_ with
  | Mapping _ => Ok tt
  | PList l =>
      if existsb (fun field => existsb (json_is_str field) l) sensitive_fields
      then Raise (TypeError "list indices must be integers or slices, not str")
      else Ok tt
  | PStr _ | PInt _ | PFloat _ | PBool _ | PNull =>
      Raise (AttributeError ("'" ++ payload_type_name payload_
                               ++ "' object has no attribute 'copy'"))
  end.

Section Processor.
Context `{lib : PyLib}.
(** The environment variables and the secrets held by Secret Manager. *)
Variables getenv cloud : string -> option string.

Definition _get_webhook_secret (self : PayloadProcessor.t)
  : option string * PayloadProcessor.t :=
  let self :=
    match PayloadProcessor._webhook_secret self with
    | None =>
        {| PayloadProcessor._webhook_secret := get_webhook_secret getenv cloud |}
    | Some _ => self
    end in
  (PayloadProcessor._webhook_secret self, self).

Definition _validate_signature (self : PayloadProcessor.t) (request : Request)
  : result unit * PayloadProcessor.t :=
  let '(webhook_secret, self) := _get_webhook_secret self in
  match webhook_secret with
  | None | Some EmptyString => (Ok tt, self)
  | Some webhook_secret =>
      match headers_get (headers request) "X-Signature" with
      | None | Some EmptyString =>
          (Raise (HTTPException HTTP_401_UNAUTHORIZED "Missing signature header"), self)
      | Some signature =>
          let body := body request in
          let expected_signature :=
            hexdigest (hmac_sha256 (list_byte_of_string webhook_secret) body) in
          (same ← compare_digest signature expected_signature;
           if negb same
           then Raise (HTTPException HTTP_401_UNAUTHORIZED "Invalid signature")
           else Ok tt,
           self)
      end
  end.

(** The model built from the decoded body; only a mapping can be
    unpacked into keyword arguments. *)
Definition TradingViewAlert_of_payload (body : payload) : result TradingViewAlert.t :=
  match body with
  | Mapping kw => TradingViewAlert_init kw
  | PList _ | PStr _ | PInt _ | PFloat _ | PBool _ | PNull =>
      Raise (TypeError ("src.utils.models.TradingViewAlert() argument after ** "
                          ++ "must be a mapping, not " ++ payload_type_name body))
  end.

Definition process_request (self : PayloadProcessor.t) (request : Request)
  : result (TradingViewAlert.t * TradeRequest.t) * PayloadProcessor.t :=
  let '(checked, self) := _validate_signature self request in
  (_ ← checked;
   body ← match json_loads (body request) with
          | Raise (JSONDecodeError _) =>
              Raise (HTTPException HTTP_400_BAD_REQUEST "Invalid JSON payload")
          | r => r
          end;
   _ ← _log_payload body;
   alert ← match TradingViewAlert_of_payload body with
           | Raise (ValidationError errors) =>
               Raise (HTTPException HTTP_400_BAD_REQUEST
                        ("Invalid payload format: " ++ exn_str (ValidationError errors)))
           | r => r
           end;
   trade_request ← from_tradingview_alert alert;
   Ok (alert, trade_request),
   self).
End Processor.

(** ** receiver.py *)

(** The calls of the endpoints on the exchange gateway [kraken_executor]. *)
Inductive gateway_call :=
| execute_trade (trade_request : TradeRequest.t)
| validate_trade (trade_request : TradeRequest.t).

(** An endpoint as the tree of its interactions with the gateway: it
    returns, or it calls the gateway and goes on with the answer. *)
Inductive handler (A : Type) :=
| Return (a : A)
| Call (c : gateway_call) (k : TradeResponse.t -> handler A).
Arguments Return {A} a.
Arguments Call {A} c k.

(** An endpoint run against a gateway: its result and the calls made, in
    order. *)
Fixpoint run {A} (gateway : gateway_call -> TradeResponse.t) (h : handler A)
  : A * list gateway_call :=
  match h with
  | Return a => (a, [])
  | Call c k => let '(a, calls) := run gateway (k (gateway c)) in (a, c :: calls)
  end.

Module JSONResponse.
Record t := {
  content : list (string * json);
  status_code : Z;
}.
End JSONResponse.

(** [json.dumps(..., allow_nan=False)] accepts a document. *)
Fixpoint json_compliant (j : json) : bool :=
  match j with
  | JFloat f => float_is_finite f
  | JList l => forallb json_compliant l
  | JDict kvs => forallb (fun kv => match kv with (_, v) => json_compliant v end) kvs
  | _ => true
  end.

(** The rendering of a document, made with [ensure_ascii=False], can be
    encoded: no key and no string of it holds a lone surrogate. *)
Fixpoint json_encodable (j : json) : bool :=
  match j with
  | JStr s => utf8_encodable s
  | JList l => forallb json_encodable l
  | JDict kvs =>
      forallb (fun kv => match kv with
                         | (k, v) => utf8_encodable k && json_encodable v
                         end) kvs
  | _ => true
  end.

(** [JSONResponse(content=..., status_code=...)]: the content is rendered
    on construction, with
    [json.dumps(content, ensure_ascii=False, allow_nan=False, ...).encode("utf-8")];
    [dumps] refuses a float that is not finite, and the rendering of a
    content with a lone surrogate cannot be encoded. *)
Definition JSONResponse_init `{lib : PyLib} (content : list (string * json))
    (status_code : Z) : result JSONResponse.t :=
  if negb (json_compliant (JDict content))
  then Raise (ValueError "Out of range float values are not JSON compliant")
  else if negb (json_encodable (JDict content))
  then Raise (UnicodeEncodeError (encode_error_str content))
  else Ok {| JSONResponse.content := content; JSONResponse.status_code := status_code |}.

Definition json_option {A} (f : A -> json) (o : option A) : json :=
  match o with
  | Some a => f a
  | None => JNull
  end.

Section Receiver.
Context `{lib : PyLib}.
Variables getenv cloud : string -> option string.

Definition trade_details (alert : TradingViewAlert.t) : json :=
  JDict [("symbol", JStr (TradingViewAlert.symbol alert));
         ("side", JStr (OrderSide_value (TradingViewAlert.side alert)));
         ("order_type", JStr (OrderType_value (TradingViewAlert.order_type alert)));
         ("volume", json_option JFloat (TradingViewAlert.volume alert));
         ("price", json_option JFloat (TradingViewAlert.price alert))].

(** The two [except] clauses of an endpoint: an [HTTPException] is raised
    again, any other exception becomes a 500 response carrying
    [str(e)]. *)
Definition except_clauses (r : result JSONResponse.t) : result JSONResponse.t :=
  match r with
  | Ok response => Ok response
  | Raise (HTTPException status_code detail) =>
      Raise (HTTPException status_code detail)
  | Raise e =>
      JSONResponse_init
        [("success", JBool false);
         ("message", JStr "Internal server error");
         ("error", JStr (exn_str e))]
        HTTP_500_INTERNAL_SERVER_ERROR
  end.

Definition status_of (trade_response : TradeResponse.t) : Z :=
  if TradeResponse.success trade_response then HTTP_200_OK else HTTP_400_BAD_REQUEST.

(** [POST /webhook/tradingview] *)
Definition tradingview_webhook (self : PayloadProcessor.t) (request : Request)
  : handler (result JSONResponse.t * PayloadProcessor.t) :=
  let '(processed, self) :=
    process_request getenv cloud self request in
  match processed with
  | Ok (alert, trade_request) =>
      Call (execute_trade trade_request) (fun trade_response =>
        let response_data :=
          [("success", JBool (TradeResponse.success trade_response));
           ("message", JStr ("Order " ++
              if TradeResponse.success trade_response then "executed" else "failed"));
           ("order_id", json_option JStr (TradeResponse.order_id trade_response));
           ("error", json_option JStr (TradeResponse.error trade_response));
           ("trade_details", trade_details alert)] in
        Return (except_clauses
                  (JSONResponse_init response_data (status_of trade_response)),
                self))
  | Raise e => Return (except_clauses (Raise e), self)
  end.

(** [POST /webhook/tradingview/validate] *)
Definition validate_tradingview_webhook (self : PayloadProcessor.t) (request : Request)
  : handler (result JSONResponse.t * PayloadProcessor.t) :=
  let '(processed, self) :=
    process_request getenv cloud self request in
  match processed with
  | Ok (alert, trade_request) =>
      Call (validate_trade trade_request) (fun trade_response =>
        let response_data :=
          [("success", JBool (TradeResponse.success trade_response));
           ("message", JStr ("Validation " ++
              if TradeResponse.success trade_response then "successful" else "failed"));
           ("error", json_option JStr (TradeResponse.error trade_response));
           ("trade_details", trade_details alert)] in
        Return (except_clauses
                  (JSONResponse_init response_data (status_of trade_response)),
                self))
  | Raise e => Return (except_clauses (Raise e), self)
  end.

(** [GET /webhook/health] *)
Definition health_check : list (string * json) :=
  [("status", JStr "ok"); ("service", JStr "tradingview-kraken-webhook")].

(** ** main.py *)

Variable config : Config.t.

(** [@app.exception_handler(Exception)] *)
Definition global_exception_handler (exc : exn) : JSONResponse.t :=
  {| JSONResponse.status_code := HTTP_500_INTERNAL_SERVER_ERROR;
     JSONResponse.content :=
       [("success", JBool false);
        ("message", JStr "Internal server error");
        ("error", JStr (if Config.is_development config then exn_str exc
                        else "An unexpected error occurred"))] |}.

(** What the application answers when a route returns or raises: an
    [HTTPException] is answered by FastAPI with its status and detail,
    any other exception goes to [global_exception_handler]. *)
Definition respond (r : result JSONResponse.t) : JSONResponse.t :=
  match r with
  | Ok response => response
  | Raise (HTTPException status_code detail) =>
      {| JSONResponse.status_code := status_code;
         JSONResponse.content := [("detail", JStr detail)] |}
  | Raise exc => global_exception_handler exc
  end.

(** The application on the two webhook routes. *)
Definition app_tradingview_webhook (self : PayloadProcessor.t) (request : Request)
    (gateway : gateway_call -> TradeResponse.t)
  : JSONResponse.t * list gateway_call :=
  let '((r, _), calls) := run gateway (tradingview_webhook self request) in
  (respond r, calls).

Definition app_validate_tradingview_webhook (self : PayloadProcessor.t)
    (request : Request) (gateway : gateway_call -> TradeResponse.t)
  : JSONResponse.t * list gateway_call :=
  let '((r, _), calls) := run gateway (validate_tradingview_webhook self request) in
  (respond r, calls).
End Receiver.

(** ** A reference instance of the library interface

    The examples below run the service against this instance.  Its
    [str_upper] is [str.upper] on ASCII text, its [float_str] prints the
    exact decimal expansion (what [repr] prints for the dyadic values the
    examples use), its digest is a keyed checksum of 32 bytes standing in
    for SHA-256, and its decoder knows the bodies of the examples. *)

Module Reference.
(** The digits of [r / d] after the point, without trailing zeros. *)
Fixpoint fraction_digits (fuel : nat) (r d : Z) : string :=
  match fuel with
  | O => EmptyString
  | S fuel' =>
      let r10 := r * 10 in
      String (hex_digit (Z.to_N (r10 / d)))
        (if r10 mod d =? 0 then EmptyString else fraction_digits fuel' (r10 mod d) d)
  end.

Definition exact_float_str (f : float) : string :=
  match f with
  | S754_zero s => if s then "-0.0" else "0.0"
  | S754_infinity s => if s then "-inf" else "inf"
  | S754_nan => "nan"
  | S754_finite s m e =>
      (if s then "-" else "") ++
      (if 0 <=? e then int_str (Z.pos m * 2 ^ e) ++ ".0"
       else let d := 10 ^ (- e) in
            let n := Z.pos m * 5 ^ (- e) in
            int_str (n / d) ++ "." ++ fraction_digits (Z.to_nat (- e)) (n mod d) d)
  end.

Definition byte_sum (l : list byte) : N :=
  fold_right (fun b acc => (Byte.to_N b + acc)%N) 0%N l.

Definition byte_of_N (n : N) : byte :=
  match Byte.of_N (n mod 256) with
  | Some b => b
  | None => x00
  end.

Definition keyed_checksum (key msg : list byte) : list byte :=
  map (fun i => byte_of_N (byte_sum key + (N.of_nat i + 1) * (byte_sum msg + 1))%N)
      (seq 0 32).

Definition error_kind_str (e : error_kind) : string :=
  match e with
  | missing => "field required"
  | type_error => "value is not valid"
  | value_error msg => msg
  end.

Fixpoint list_errors (errors : list (string * error_kind)) : string :=
  match errors with
  | [] => EmptyString
  | (loc, e) :: errors' =>
      loc ++ ": " ++ error_kind_str e ++ "; " ++ list_errors errors'
  end.

(** The fields of a body that has a side and nothing else. *)
Definition no_symbol : alert_input :=
  {| in_symbol := Absent; in_side := Given BUY; in_order_type := Absent;
     in_volume := Absent; in_price := Absent; in_leverage := Absent;
     in_stop_price := Absent; in_strategy_name := Absent;
     in_alert_message := Absent; in_custom_fields := Absent |}.

(** 0.5, 30000.0 and -1.0 as binary64 values. *)
Definition half : float := S754_finite false 4503599627370496 (-53).
Definition thirty_thousand : float := S754_finite false 8246337208320000 (-38).
Definition minus_one : float := S754_finite true 4503599627370496 (-52).

(** A buy order: symbol and order type are given, the numbers vary. *)
Definition order (symbol : string) (t : OrderType)
    (volume price stop_price : field_input (option float)) : alert_input :=
  {| in_symbol := Given symbol; in_side := Given BUY; in_order_type := Given t;
     in_volume := volume; in_price := price; in_leverage := Absent;
     in_stop_price := stop_price; in_strategy_name := Absent;
     in_alert_message := Absent; in_custom_fields := Absent |}.

(** The texts of the example bodies. *)
Definition quoted (s : string) : string :=
  let q := String (ascii_of_N 34) EmptyString in q ++ s ++ q.

Definition member (key value : string) : string := quoted key ++ ":" ++ value.

Definition market_order_text : string :=
  "{" ++ member "symbol" (quoted "XBTUSD") ++ "," ++ member "side" (quoted "buy")
      ++ "," ++ member "order_type" (quoted "market")
      ++ "," ++ member "volume" "0.5" ++ "}".

Definition limit_order_text : string :=
  "{" ++ member "symbol" (quoted "XBTUSD") ++ "," ++ member "side" (quoted "buy")
      ++ "," ++ member "order_type" (quoted "limit") ++ "}".

Definition no_symbol_text : string :=
  "{" ++ member "side" (quoted "buy") ++ "}".

Definition bogus_side_text : string :=
  "{" ++ member "symbol" (quoted "XBTUSD") ++ "," ++ member "side" (quoted "bogus")
      ++ "}".

(** The fields of a body whose side is not one. *)
Definition bogus_side : alert_input :=
  {| in_symbol := Given "XBTUSD"; in_side := Malformed; in_order_type := Absent;
     in_volume := Absent; in_price := Absent; in_leverage := Absent;
     in_stop_price := Absent; in_strategy_name := Absent;
     in_alert_message := Absent; in_custom_fields := Absent |}.

(** The decoder on the bodies of the examples: a market order, a limit
    order without a price, a body without a symbol, one with a side that
    is not one, and an empty array; any other text is taken not to be
    JSON. *)
Definition example_json_loads (body : list byte) : result payload :=
  let text := string_of_list_byte body in
  if String.eqb text market_order_text then
    Ok (Mapping (order "XBTUSD" MARKET (Given (Some half)) Absent Absent))
  else if String.eqb text limit_order_text then
    Ok (Mapping (order "XBTUSD" LIMIT Absent Absent Absent))
  else if String.eqb text no_symbol_text then
    Ok (Mapping no_symbol)
  else if String.eqb text bogus_side_text then
    Ok (Mapping bogus_side)
  else if String.eqb text "[]" then Ok (PList [])
  else Raise (JSONDecodeError "Expecting value: line 1 column 1 (char 0)").

(** 29000.0 as a binary64 value. *)
Definition twenty_nine_thousand : float := S754_finite false 7971459301376000 (-38).

(** A stop-loss-limit and a stop-loss alert with price 30000.0 and stop
    price 29000.0. *)
Definition stop_alert (t : OrderType) : TradingViewAlert.t :=
  {| TradingViewAlert.symbol := "XBTUSD";
     TradingViewAlert.side := SELL;
     TradingViewAlert.order_type := t;
     TradingViewAlert.volume := Some half;
     TradingViewAlert.price := Some thirty_thousand;
     TradingViewAlert.leverage := None;
     TradingViewAlert.stop_price := Some twenty_nine_thousand;
     TradingViewAlert.strategy_name := None;
     TradingViewAlert.alert_message := None;
     TradingViewAlert.custom_fields := Some [] |}.

(** Requests: a body and the value of its [X-Signature] header, if any. *)
Definition request (text : string) (signature : option string) : Request :=
  {| headers :=
       ("content-type", "application/json")
       :: match signature with
          | Some v => [("x-signature", v)]
          | None => []
          end;
     body := list_byte_of_string text |}.

Definition secret : string := "s3cret".

(** An environment with at most the webhook secret, and no Secret Manager. *)
Definition environ (webhook_secret : option string) (name : string) : option string :=
  if String.eqb name "WEBHOOK_SECRET" then webhook_secret else None.

Definition no_cloud (name : string) : option string := None.


(** A header value that is not ASCII: U+00E9 in UTF-8. *)
Definition garbled : string :=
  String (ascii_of_N 195) (String (ascii_of_N 169) EmptyString).

(** A production configuration with everything it requires. *)
Definition production : Config.t :=
  {| Config.environment := PRODUCTION;
     Config.kraken_api_key := Some "key";
     Config.kraken_api_secret := Some "c2VjcmV0";
     Config.webhook_secret := Some secret;
     Config.gcp_project_id := None |}.

(** A staging configuration without a webhook secret. *)
Definition staging : Config.t :=
  {| Config.environment := STAGING;
     Config.kraken_api_key := Some "key";
     Config.kraken_api_secret := Some "c2VjcmV0";
     Config.webhook_secret := None;
     Config.gcp_project_id := None |}.

(** The message of a [UnicodeEncodeError], at one character and one
    position. *)
Definition encode_error : string :=
  "'utf-8' codec can't encode character '\ud800' in position 96: "
  ++ "surrogates not allowed".

(** A gateway that accepts every order. *)
Definition gateway (c : gateway_call) : TradeResponse.t :=
  TradeResponse.success_response "OQCLML-BW3P3-BUCMWZ" None.

#[export] Instance lib : PyLib := {|
  pydantic := PydanticV2;
  str_upper := ascii_upper;
  float_str := exact_float_str;
  hmac_sha256 := keyed_checksum;
  json_loads := example_json_loads;
  validation_error_str := list_errors;
  encode_error_str := fun _ => encode_error;
|}.
End Reference.

(** ** secrets.py: SecretManager *)

Module SecretManager.
(** The client of Secret Manager, when there is one:
    [access_secret_version(name=path).payload.data.decode("UTF-8")], or
    the exception of the call. *)
Record t := {
  _client : option (string -> result string);
}.

(** [__init__]: a client is created only when the library is available
    and a project is configured, and only if its constructor returns. *)
Definition init (available : bool) (config : Config.t)
    (new_client : result (string -> result string)) : t :=
  if available && truthy (Config.gcp_project_id config) then
    match new_client with
    | Ok client => {| _client := Some client |}
    | Raise _ => {| _client := None |}
    end
  else {| _client := None |}.

Definition secret_path (project secret_name : string) : string :=
  "projects/" ++ project ++ "/secrets/" ++ secret_name ++ "/versions/latest".

(** [get_secret], with the environment, the configuration and the client
    it reads. *)
Definition get_secret (getenv : string -> option string) (config : Config.t)
    (self : t) (secret_name : string) (default : option string) : option string :=
  let env_value := getenv secret_name in
  if truthy env_value then env_value
  else
    match _client self, Config.gcp_project_id config with
    | Some client, Some (String c project) =>
        match client (secret_path (String c project) secret_name) with
        | Ok secret_value => Some secret_value
        | Raise _ => default
        end
    | _, _ => default
    end.

Definition get_kraken_credentials (getenv : string -> option string)
    (config : Config.t) (self : t) : option string * option string :=
  let api_key := get_secret getenv config self "KRAKEN_API_KEY" None in
  let api_secret := get_secret getenv config self "KRAKEN_API_SECRET" None in
  (api_key, api_secret).

(** What Secret Manager holds, as [get_secret] at the top of the file
    takes it: the secret under a name, [None] when there is no client, no
    project or the lookup raises. *)
Definition cloud (config : Config.t) (self : t) (secret_name : string)
  : option string :=
  match _client self, Config.gcp_project_id config with
  | Some client, Some (String c project) =>
      match client (secret_path (String c project) secret_name) with
      | Ok secret_value => Some secret_value
      | Raise _ => None
      end
  | _, _ => None
  end.
End SecretManager.

(** ** config.py: construction and display *)

(** [Environment(value)] *)
Definition Environment_of_value (value : string) : result Environment :=
  if String.eqb value "development" then Ok DEVELOPMENT
  else if String.eqb value "staging" then Ok STAGING
  else if String.eqb value "production" then Ok PRODUCTION
  else Raise (ValueError ("'" ++ value ++ "' is not a valid Environment")).

Definition Environment_value (e : Environment) : string :=
  match e with
  | DEVELOPMENT => "development"
  | STAGING => "staging"
  | PRODUCTION => "production"
  end.

Section ConfigInit.
Context `{lib : PyLib}.
(** [s.lower()] *)
Variable str_lower : string -> string.
Variable getenv : string -> option string.

(** [Config.__init__], but for the log level, which is [Config_log_level]. *)
Definition Config_init : result Config.t :=
  environment ← Environment_of_value
                  (str_lower (default "development" (getenv "ENVIRONMENT")));
  let self :=
    {| Config.environment := environment;
       Config.kraken_api_key := getenv "KRAKEN_API_KEY";
       Config.kraken_api_secret := getenv "KRAKEN_API_SECRET";
       Config.webhook_secret := getenv "WEBHOOK_SECRET";
       Config.gcp_project_id := getenv "GCP_PROJECT_ID" |} in
  _ ← Config._validate_config self;
  Ok self.

Definition Config_log_level : string :=
  str_upper (default "INFO" (getenv "LOG_LEVEL")).
End ConfigInit.

Definition mask (secret : option string) : json :=
  if truthy secret then JStr "***" else JNull.

(** [Config.as_dict], given the log level. *)
Definition as_dict (self : Config.t) (log_level : string) : list (string * json) :=
  [("environment", JStr (Environment_value (Config.environment self)));
   ("log_level", JStr log_level);
   ("kraken_api_key", mask (Config.kraken_api_key self));
   ("kraken_api_secret", mask (Config.kraken_api_secret self));
   ("webhook_secret", mask (Config.webhook_secret self));
   ("gcp_project_id", json_option JStr (Config.gcp_project_id self))].

(** ** payload_processor.py: the payload that is logged *)

(** The dictionary [masked_payload] that [_log_payload] hands to the
    logger for a payload that is a JSON object. *)
Definition masked_payload (payload_ : gmap string json) : gmap string json :=
  foldl (fun masked field =>
           if bool_decide (is_Some (masked !! field))
           then <[field := JStr "***"]> masked
           else masked)
        payload_ sensitive_fields.

(** ** kraken_executor.py *)

(** A value of [trade_request.dict()]. *)
Inductive param :=
| ParamStr (s : string)
| ParamSide (s : OrderSide)
| ParamBool (b : bool).

Definition set_param (name : string) (value : option param)
    (params : gmap string param) : gmap string param :=
  match value with
  | Some v => <[name := v]> params
  | None => params
  end.

(** [trade_request.dict(exclude_none=True)] *)
Definition dict_exclude_none (r : TradeRequest.t) : gmap string param :=
  set_param "volume" (ParamStr <$> TradeRequest.volume r)
    (set_param "price" (ParamStr <$> TradeRequest.price r)
    (set_param "price2" (ParamStr <$> TradeRequest.price2 r)
    (set_param "leverage" (ParamStr <$> TradeRequest.leverage r)
    (set_param "starttm" (ParamStr <$> TradeRequest.starttm r)
    (set_param "expiretm" (ParamStr <$> TradeRequest.expiretm r)
    (set_param "validate" (ParamBool <$> TradeRequest.validate r)
    (set_param "oflags" (ParamStr <$> TradeRequest.oflags r)
    (set_param "userref" (ParamStr <$> TradeRequest.userref r)
       {[ "pair" := ParamStr (TradeRequest.pair r);
          "type" := ParamSide (TradeRequest.type r);
          "ordertype" := ParamStr (TradeRequest.ordertype r) ]})))))))).

(** The request with [validate] set. *)
Definition set_validate (r : TradeRequest.t) (v : option bool) : TradeRequest.t :=
  {| TradeRequest.pair := TradeRequest.pair r;
     TradeRequest.type := TradeRequest.type r;
     TradeRequest.ordertype := TradeRequest.ordertype r;
     TradeRequest.volume := TradeRequest.volume r;
     TradeRequest.price := TradeRequest.price r;
     TradeRequest.price2 := TradeRequest.price2 r;
     TradeRequest.leverage := TradeRequest.leverage r;
     TradeRequest.starttm := TradeRequest.starttm r;
     TradeRequest.expiretm := TradeRequest.expiretm r;
     TradeRequest.validate := v;
     TradeRequest.oflags := TradeRequest.oflags r;
     TradeRequest.userref := TradeRequest.userref r |}.

(** A reply of the exchange, of the shape krakenex returns: a dictionary
    in which [error], when present, is a list of strings, and [result],
    when present, has the shape [R] of the call; [raw] is the reply as it
    came, [snd] of the result the result as it came. *)
Record reply (R : Type) := {
  error : option (list string);
  result_ : option (R * json);
  raw : json;
}.
Arguments error {R} _.
Arguments result_ {R} _.
Arguments raw {R} _.

(** The exchange client: the two constructors and the queries the
    executor makes.  The result of [AddOrder] is read at [txid], that of
    [OpenOrders] at [open], that of [Balance] is a dictionary of amounts
    as strings. *)
Record Kraken := {
  krakenex_API : string -> string -> result unit;
  KrakenAPI : result unit;
  query_public_Time : result (reply unit);
  query_private_AddOrder : gmap string param -> result (reply (option (list string)));
  query_private_Balance : result (reply (list (string * string)));
  query_private_OpenOrders
    : result (reply (option (list (string * gmap string json))));
}.

(** The queries made, in order. *)
Inductive kraken_call :=
| CallTime
| CallAddOrder (params : gmap string param)
| CallBalance
| CallOpenOrders.

(** [x - y] on floats. *)
Definition float_sub (x y : float) : float := SFsub 53 1024 x y.

(** [x < n] for a float [x] and an int [n]: the comparison is exact, and
    false for NaN. *)
Definition float_lt_int (x : float) (n : Z) : bool :=
  match x with
  | S754_nan => false
  | S754_infinity s => s
  | S754_zero _ => 0 <? n
  | S754_finite s m e =>
      let v := if s then Z.neg m else Z.pos m in
      if 0 <=? e then v * 2 ^ e <? n else v <? n * 2 ^ (- e)
  end.

(** ['error' in result and result['error']] *)
Definition has_error {R} (r : reply R) : bool :=
  match error r with
  | Some (_ :: _) => true
  | _ => false
  end.

Module KrakenExecutor.
(** [_api] and [_k] are recorded as set or not. *)
Record t := {
  _api : bool;
  _k : bool;
  _initialized : bool;
  _last_init_attempt : float;
  _init_cooldown : Z;
}.

(** [__init__] *)
Definition init : t :=
  {| _api := false; _k := false; _initialized := false;
     _last_init_attempt := S754_zero false; _init_cooldown := 60 |}.

Definition set_initialized (self : t) (b : bool) : t :=
  {| _api := _api self; _k := _k self; _initialized := b;
     _last_init_attempt := _last_init_attempt self;
     _init_cooldown := _init_cooldown self |}.

Definition set_last_init_attempt (self : t) (now : float) : t :=
  {| _api := _api self; _k := _k self; _initialized := _initialized self;
     _last_init_attempt := now; _init_cooldown := _init_cooldown self |}.

Definition set_k (self : t) : t :=
  {| _api := _api self; _k := true; _initialized := _initialized self;
     _last_init_attempt := _last_init_attempt self;
     _init_cooldown := _init_cooldown self |}.

Definition set_api (self : t) : t :=
  {| _api := true; _k := _k self; _initialized := _initialized self;
     _last_init_attempt := _last_init_attempt self;
     _init_cooldown := _init_cooldown self |}.

Section Methods.
Context `{lib : PyLib}.
(** The exchange, [time.time()] at the call,
    [secret_manager.get_kraken_credentials()], and [float(v)] on a
    string. *)
Variable kraken : Kraken.
Variable current_time : float.
Variable credentials : option string * option string.
Variable float_of_str : string -> result float.

(** [_initialize]: whether it succeeded, the executor after it, and the
    queries made. *)
Definition _initialize (self : t) : bool * t * list kraken_call :=
  if float_lt_int (float_sub current_time (_last_init_attempt self))
       (_init_cooldown self)
     && negb (_initialized self)
  then (false, self, [])
  else
    let self := set_last_init_attempt self current_time in
    match credentials with
    | (Some (String c1 k1), Some (String c2 k2)) =>
        match krakenex_API kraken (String c1 k1) (String c2 k2) with
        | Raise _ => (false, set_initialized self false, [])
        | Ok _ =>
            let self := set_k self in
            match KrakenAPI kraken with
            | Raise _ => (false, set_initialized self false, [])
            | Ok _ =>
                let self := set_api self in
                match query_public_Time kraken with
                | Raise _ => (false, set_initialized self false, [CallTime])
                | Ok server_time =>
                    if has_error server_time then (false, self, [CallTime])
                    else (true, set_initialized self true, [CallTime])
                end
            end
        end
    | _ => (false, self, [])
    end.

(** [if not self._initialized and not self._initialize()]: whether the
    executor is ready. *)
Definition ready (self : t) : bool * t * list kraken_call :=
  if _initialized self then (true, self, []) else _initialize self.

Definition no_query (method : string) : exn :=
  AttributeError ("'NoneType' object has no attribute '" ++ method ++ "'").

(** [execute_trade] *)
Definition execute_trade (self : t) (trade_request : TradeRequest.t)
  : TradeResponse.t * t * list kraken_call :=
  let '(ok, self, calls) := ready self in
  if negb ok then
    (TradeResponse.error_response "Failed to initialize Kraken API"
       (Some [("retry_after", JInt (_init_cooldown self))]), self, calls)
  else
    let params := dict_exclude_none trade_request in
    let '(outcome, made) :=
      if _k self then
        (query_private_AddOrder kraken params, [CallAddOrder params])
      else (Raise (no_query "query_private"), []) in
    (match outcome with
     | Raise e =>
         TradeResponse.error_response
           ("Exception during trade execution: " ++ exn_str e) None
     | Ok result =>
         if has_error result then
           TradeResponse.error_response
             ("Kraken API error: " ++ String.concat ", " (default [] (error result)))
             (Some [("kraken_response", raw result)])
         else
           match result_ result with
           | Some (Some (order_id :: _), result_json) =>
               TradeResponse.success_response order_id
                 (Some [("kraken_response", result_json)])
           | _ =>
               TradeResponse.error_response "Unexpected response from Kraken API"
                 (Some [("kraken_response", raw result)])
           end
     end, self, (calls ++ made)%list).

(** [validate_trade] *)
Definition validate_trade (self : t) (trade_request : TradeRequest.t)
  : TradeResponse.t * t * list kraken_call :=
  let validation_request := set_validate trade_request (Some true) in
  execute_trade self validation_request.

(** [{k: float(v) for k, v in items}], item by item. *)
Fixpoint parse_balance (items : list (string * string)) (balance : gmap string float)
  : result (gmap string float) :=
  match items with
  | [] => Ok balance
  | (k, v) :: items =>
      amount ← float_of_str v;
      parse_balance items (<[k := amount]> balance)
  end.

(** [get_account_balance] *)
Definition get_account_balance (self : t)
  : gmap string float * t * list kraken_call :=
  let '(ok, self, calls) := ready self in
  if negb ok then (∅, self, calls)
  else
    let '(outcome, made) :=
      if _k self then (query_private_Balance kraken, [CallBalance])
      else (Raise (no_query "query_private"), []) in
    (match outcome with
     | Raise _ => ∅
     | Ok result =>
         if has_error result then ∅
         else
           match result_ result with
           | Some (items, _) =>
               match parse_balance items ∅ with
               | Ok balance => balance
               | Raise _ => ∅
               end
           | None => ∅
           end
     end, self, (calls ++ made)%list).

(** [get_open_orders] *)
Definition get_open_orders (self : t)
  : list (gmap string json) * t * list kraken_call :=
  let '(ok, self, calls) := ready self in
  if negb ok then ([], self, calls)
  else
    let '(outcome, made) :=
      if _k self then (query_private_OpenOrders kraken, [CallOpenOrders])
      else (Raise (no_query "query_private"), []) in
    (match outcome with
     | Raise _ => []
     | Ok result =>
         if has_error result then []
         else
           match result_ result with
           | Some (Some open, _) =>
               map (fun '(order_id, order_data) =>
                      <["order_id" := JStr order_id]> order_data) open
           | _ => []
           end
     end, self, (calls ++ made)%list).
End Methods.
End KrakenExecutor.

(** ** The endpoints on the executor *)

Section Service.
Context `{lib : PyLib}.
Variable kraken : Kraken.
Variable current_time : float.
Variable credentials : option string * option string.

(** An endpoint run against [kraken_executor]: its result, the executor
    after it, and the queries made to the exchange. *)
Fixpoint run_executor {A} (executor : KrakenExecutor.t) (h : handler A)
  : A * KrakenExecutor.t * list kraken_call :=
  match h with
  | Return a => (a, executor, [])
  | Call c k =>
      let '(trade_response, executor, made) :=
        match c with
        | execute_trade trade_request =>
            KrakenExecutor.execute_trade kraken current_time credentials
              executor trade_request
        | validate_trade trade_request =>
            KrakenExecutor.validate_trade kraken current_time credentials
              executor trade_request
        end in
      let '(a, executor, calls) := run_executor executor (k trade_response) in
      (a, executor, (made ++ calls)%list)
  end.
End Service.

(** ** scripts/test_webhook.py *)

(** [s.endswith(suffix)] *)
Definition endswith (s suffix : string) : bool :=
  bool_decide (list_ascii_of_string suffix `suffix_of` list_ascii_of_string s).

Section Script.
Context `{lib : PyLib}.
(** [json.dumps(payload)] of the standard json module, with which
    requests serializes the body as well; and whether the installed
    requests does so with [allow_nan=True], as older versions do. *)
Variable json_dumps : json -> string.
Variable requests_allow_nan : bool.

(** [sign_payload] *)
Definition sign_payload (payload_ : json) (secret : string) : string :=
  let payload_bytes := list_byte_of_string (json_dumps payload_) in
  hexdigest (hmac_sha256 (list_byte_of_string secret) payload_bytes).

(** [send_webhook]: the URL and the request that [requests.post] sends,
    with the headers the script sets (requests adds its own, none of them
    [X-Signature]); [None] when requests refuses to serialize the payload
    and nothing is sent. *)
Definition send_webhook (url : string) (payload_ : json) (secret : option string)
    (validate_only : bool) : option (string * Request) :=
  let headers_ := [("Content-Type", "application/json")] in
  let headers_ :=
    match secret with
    | Some (String c s) =>
        (headers_ ++ [("X-Signature", sign_payload payload_ (String c s))])%list
    | _ => headers_
    end in
  let url :=
    if validate_only then
      if negb (endswith url "/validate") then url ++ "/validate" else url
    else url in
  if requests_allow_nan || json_compliant payload_ then
    Some (url, {| headers := headers_;
                  body := list_byte_of_string (json_dumps payload_) |})
  else None.
End Script.

(** ** Notions used in the statements on the rest of the code *)

(** The value of a field that is given, else a default. *)
Definition given {A} (d : A) (inp : field_input A) : A :=
  match inp with
  | Given a => a
  | _ => d
  end.

(** The error of a field by its input alone: a required field that is
    absent, or a value that does not parse. *)
Definition input_error {A} (required : bool) (inp : field_input A)
  : option error_kind :=
  match inp with
  | Absent => if required then Some missing else None
  | Malformed => Some type_error
  | Given _ => None
  end.

(** The names of the fields of [TradingViewAlert], as declared. *)
Definition field_names : list string :=
  ["symbol"; "side"; "order_type"; "volume"; "price"; "leverage"; "stop_price";
   "strategy_name"; "alert_message"; "custom_fields"].

(** The error, if any, that the rules of the schema give a field. *)
Definition field_error (kw : alert_input) (name : string) : option error_kind :=
  if String.eqb name "symbol" then input_error true (in_symbol kw)
  else if String.eqb name "side" then input_error true (in_side kw)
  else if String.eqb name "order_type" then input_error false (in_order_type kw)
  else if String.eqb name "volume" then
    match in_volume kw with
    | Given (Some v) =>
        if float_le_zero v then Some (value_error "Volume must be positive") else None
    | inp => input_error false inp
    end
  else if String.eqb name "price" then input_error false (in_price kw)
  else if String.eqb name "leverage" then input_error false (in_leverage kw)
  else if String.eqb name "stop_price" then input_error false (in_stop_price kw)
  else if String.eqb name "strategy_name" then input_error false (in_strategy_name kw)
  else if String.eqb name "alert_message" then input_error false (in_alert_message kw)
  else if String.eqb name "custom_fields" then input_error false (in_custom_fields kw)
  else None.

(** Whether the outcome of a field is a value. *)
Definition valid {A} (o : error_kind + A) : bool :=
  match o with
  | inr _ => true
  | inl _ => false
  end.

(** Whether a number of an alert, when there is one, is finite. *)
Definition finite_number (o : option float) : bool :=
  match o with
  | Some f => float_is_finite f
  | None => true
  end.

(** Whether a text, when there is one, can be encoded. *)
Definition text_encodable (o : option string) : bool :=
  match o with
  | Some s => utf8_encodable s
  | None => true
  end.

(** Whether what a response shows of an alert can be rendered: its
    volume and its price are finite and its symbol can be encoded. *)
Definition alert_renders (alert : TradingViewAlert.t) : bool :=
  finite_number (TradingViewAlert.volume alert)
  && finite_number (TradingViewAlert.price alert)
  && utf8_encodable (TradingViewAlert.symbol alert).

(** The [response_data] of the two endpoints. *)
Definition webhook_content (alert : TradingViewAlert.t)
    (trade_response : TradeResponse.t) : list (string * json) :=
  [("success", JBool (TradeResponse.success trade_response));
   ("message", JStr ("Order " ++
      if TradeResponse.success trade_response then "executed" else "failed"));
   ("order_id", json_option JStr (TradeResponse.order_id trade_response));
   ("error", json_option JStr (TradeResponse.error trade_response));
   ("trade_details", trade_details alert)].

Definition validation_content (alert : TradingViewAlert.t)
    (trade_response : TradeResponse.t) : list (string * json) :=
  [("success", JBool (TradeResponse.success trade_response));
   ("message", JStr ("Validation " ++
      if TradeResponse.success trade_response then "successful" else "failed"));
   ("error", json_option JStr (TradeResponse.error trade_response));
   ("trade_details", trade_details alert)].

(** What holds of the executor at all times: once initialized it has its
    client, and its cooldown is the one it was created with. *)
Definition executor_ok (self : KrakenExecutor.t) : Prop :=
  (KrakenExecutor._initialized self = true -> KrakenExecutor._k self = true)
  /\ KrakenExecutor._init_cooldown self = 60.

(** The answer of the executor when it is not ready. *)
Definition not_ready (self : KrakenExecutor.t) : TradeResponse.t :=
  TradeResponse.error_response "Failed to initialize Kraken API"
    (Some [("retry_after", JInt (KrakenExecutor._init_cooldown self))]).

(** Whether a time is within the cooldown of the last attempt. *)
Definition in_cooldown (self : KrakenExecutor.t) (now : float) : bool :=
  float_lt_int (float_sub now (KrakenExecutor._last_init_attempt self))
    (KrakenExecutor._init_cooldown self).

(** ** Sample data for the properties of the rest of the code *)

Module Samples.
(** A body without a symbol, with a side that is not one and a negative
    volume. *)
Definition broken : alert_input :=
  {| in_symbol := Absent; in_side := Malformed; in_order_type := Absent;
     in_volume := Given (Some Reference.minus_one); in_price := Absent;
     in_leverage := Absent; in_stop_price := Absent; in_strategy_name := Absent;
     in_alert_message := Absent; in_custom_fields := Absent |}.

(** A market order with leverage 3, and the alert it validates to. *)
Definition leveraged : alert_input :=
  {| in_symbol := Given "ethusd"; in_side := Given SELL; in_order_type := Absent;
     in_volume := Given (Some Reference.half); in_price := Absent;
     in_leverage := Given (Some 3); in_stop_price := Given None;
     in_strategy_name := Absent; in_alert_message := Absent;
     in_custom_fields := Absent |}.

Definition leveraged_alert : TradingViewAlert.t :=
  {| TradingViewAlert.symbol := "ETHUSD";
     TradingViewAlert.side := SELL;
     TradingViewAlert.order_type := MARKET;
     TradingViewAlert.volume := Some Reference.half;
     TradingViewAlert.price := None;
     TradingViewAlert.leverage := Some 3;
     TradingViewAlert.stop_price := None;
     TradingViewAlert.strategy_name := None;
     TradingViewAlert.alert_message := None;
     TradingViewAlert.custom_fields := Some [] |}.

(** A market order whose volume is [NaN]. *)
Definition nan_order_text : string :=
  "{" ++ Reference.member "symbol" (Reference.quoted "XBTUSD") ++ ","
      ++ Reference.member "side" (Reference.quoted "buy") ++ ","
      ++ Reference.member "volume" "NaN" ++ "}".

Definition nan_order : alert_input :=
  {| in_symbol := Given "XBTUSD"; in_side := Given BUY; in_order_type := Absent;
     in_volume := Given (Some S754_nan); in_price := Absent;
     in_leverage := Absent; in_stop_price := Absent; in_strategy_name := Absent;
     in_alert_message := Absent; in_custom_fields := Absent |}.

(** The reference instance with a decoder that also knows [nan_order_text]. *)
#[export] Instance lib_with_nan : PyLib := {|
  pydantic := PydanticV2;
  str_upper := ascii_upper;
  float_str := Reference.exact_float_str;
  hmac_sha256 := Reference.keyed_checksum;
  json_loads := fun body =>
    if String.eqb (string_of_list_byte body) nan_order_text
    then Ok (Mapping nan_order)
    else Reference.example_json_loads body;
  validation_error_str := Reference.list_errors;
  encode_error_str := fun _ => Reference.encode_error;
|}.

(** A text with a lone surrogate, U+D800, and a gateway whose error is
    that text. *)
Definition lone_surrogate : string :=
  String (ascii_of_N 237) (String (ascii_of_N 160) (String (ascii_of_N 128) EmptyString)).

Definition garbled_gateway (c : gateway_call) : TradeResponse.t :=
  TradeResponse.error_response lone_surrogate None.

(** [str.lower] on ASCII text. *)
Definition ascii_lower_char (c : ascii) : ascii :=
  let n := N_of_ascii c in
  if ((65 <=? n) && (n <=? 90))%N then ascii_of_N (n + 32) else c.

Fixpoint ascii_lower (s : string) : string :=
  match s with
  | EmptyString => EmptyString
  | String c s' => String (ascii_lower_char c) (ascii_lower s')
  end.

(** A production environment with its three secrets. *)
Definition production_environ (name : string) : option string :=
  if String.eqb name "ENVIRONMENT" then Some "Production"
  else if String.eqb name "KRAKEN_API_KEY" then Some "key"
  else if String.eqb name "KRAKEN_API_SECRET" then Some "c2VjcmV0"
  else if String.eqb name "WEBHOOK_SECRET" then Some Reference.secret
  else None.

(** The production configuration with other secrets. *)
Definition rotated : Config.t :=
  {| Config.environment := PRODUCTION;
     Config.kraken_api_key := Some "another key";
     Config.kraken_api_secret := Some "YW5vdGhlcg==";
     Config.webhook_secret := Some "hunter2";
     Config.gcp_project_id := None |}.

(** A staging configuration with a project, and a client of Secret
    Manager that holds the webhook secret and nothing else. *)
Definition with_project : Config.t :=
  {| Config.environment := STAGING;
     Config.kraken_api_key := None;
     Config.kraken_api_secret := None;
     Config.webhook_secret := None;
     Config.gcp_project_id := Some "my-project" |}.

Definition client (path : string) : result string :=
  if String.eqb path "projects/my-project/secrets/WEBHOOK_SECRET/versions/latest"
  then Ok "hunter2"
  else Raise (KeyError path).

(** 1700000000.0 and 1700000030.0, seconds since the epoch. *)
Definition now : float := S754_finite false 7130316800000000 (-22).
Definition later : float := S754_finite false 7130316925829120 (-22).

Definition empty_reply {R} : reply R :=
  {| error := Some []; result_ := None; raw := JDict [("error", JList [])] |}.

(** An exchange that answers every query, and places every order under
    one id. *)
Definition kraken : Kraken :=
  {| krakenex_API := fun _ _ => Ok tt;
     KrakenAPI := Ok tt;
     query_public_Time := Ok empty_reply;
     query_private_AddOrder := fun _ =>
       Ok {| error := Some [];
             result_ := Some (Some ["OQCLML-BW3P3-BUCMWZ"],
                              JDict [("txid", JList [JStr "OQCLML-BW3P3-BUCMWZ"])]);
             raw := JNull |};
     query_private_Balance :=
       Ok {| error := Some [];
             result_ := Some ([("XXBT", "0.5"); ("ZUSD", "30000.0")],
                              JDict [("XXBT", JStr "0.5"); ("ZUSD", JStr "30000.0")]);
             raw := JNull |};
     query_private_OpenOrders :=
       Ok {| error := Some [];
             result_ :=
               Some (Some [("OQCLML-BW3P3-BUCMWZ", {[ "status" := JStr "open" ]})],
                     JDict [("open",
                             JDict [("OQCLML-BW3P3-BUCMWZ",
                                     JDict [("status", JStr "open")])])]);
             raw := JNull |} |}.

(** An exchange that cannot be reached. *)
Definition unreachable : Kraken :=
  {| krakenex_API := fun _ _ => Ok tt;
     KrakenAPI := Ok tt;
     query_public_Time := Raise (ValueError "connection refused");
     query_private_AddOrder := fun _ => Raise (ValueError "connection refused");
     query_private_Balance := Raise (ValueError "connection refused");
     query_private_OpenOrders := Raise (ValueError "connection refused") |}.

Definition credentials : option string * option string :=
  (Some "key", Some "c2VjcmV0").

(** An executor whose last attempt to initialize, at [now], failed. *)
Definition failed_executor : KrakenExecutor.t :=
  {| KrakenExecutor._api := true; KrakenExecutor._k := true;
     KrakenExecutor._initialized := false;
     KrakenExecutor._last_init_attempt := now;
     KrakenExecutor._init_cooldown := 60 |}.

(** An executor that is initialized. *)
Definition running_executor : KrakenExecutor.t :=
  {| KrakenExecutor._api := true; KrakenExecutor._k := true;
     KrakenExecutor._initialized := true;
     KrakenExecutor._last_init_attempt := now;
     KrakenExecutor._init_cooldown := 60 |}.

(** [float] on the amounts of the samples. *)
Definition float_of_str (v : string) : result float :=
  if String.eqb v "0.5" then Ok Reference.half
  else if String.eqb v "30000.0" then Ok Reference.thirty_thousand
  else Raise (ValueError ("could not convert string to float: '" ++ v ++ "'")).

(** The request of a market order. *)
Definition trade_request : TradeRequest.t :=
  {| TradeRequest.pair := "XBTUSD";
     TradeRequest.type := BUY;
     TradeRequest.ordertype := "market";
     TradeRequest.volume := Some "0.5";
     TradeRequest.price := None;
     TradeRequest.price2 := None;
     TradeRequest.leverage := None;
     TradeRequest.starttm := None;
     TradeRequest.expiretm := None;
     TradeRequest.validate := None;
     TradeRequest.oflags := None;
     TradeRequest.userref := None |}.

(** [json.dumps] on the payloads of the samples: objects of strings and
    integers whose strings need no escaping. *)
Fixpoint dumps_members (dumps : json -> string) (kvs : list (string * json)) : string :=
  match kvs with
  | [] => EmptyString
  | [(k, v)] => Reference.quoted k ++ ": " ++ dumps v
  | (k, v) :: kvs' =>
      Reference.quoted k ++ ": " ++ dumps v ++ ", " ++ dumps_members dumps kvs'
  end.

Definition dumps_scalar (j : json) : string :=
  match j with
  | JStr s => Reference.quoted s
  | JInt n => int_str n
  | JBool b => if b then "true" else "false"
  | _ => "null"
  end.

Definition json_dumps (j : json) : string :=
  match j with
  | JDict kvs => "{" ++ dumps_members dumps_scalar kvs ++ "}"
  | _ => dumps_scalar j
  end.

Definition payload_ : json :=
  JDict [("symbol", JStr "XBTUSD"); ("side", JStr "buy"); ("leverage", JInt 2)].
End Samples.


(** ** The schema without its state

    [TradingViewAlert_init] threads [values] and the errors through the
    fields.  No validator of the model reads [values] to any effect, so the
    result of each field is a function of its input alone; the lemmas below
    establish that and are the basis of the theorems on the schema. *)

Definition outcome {A} (default : option A) (validator : A -> validated A)
    (inp : field_input A) : error_kind + A :=
  match inp with
  | Absent =>
      match default with
      | Some d => inr d
      | None => inl missing
      end
  | Malformed => inl type_error
  | Given a =>
      match validator a with
      | Accept a' => inr a'
      | Reject msg => inl (value_error msg)
      end
  end.

Definition outcome_value {A} (o : error_kind + A) : option A :=
  match o with
  | inr a => Some a
  | inl _ => None
  end.

Definition outcome_errors {A} (name : string) (o : error_kind + A)
  : list (string * error_kind) :=
  match o with
  | inl e => [(name, e)]
  | inr _ => []
  end.

Definition outcome_values {A} (name : string) (to_py : A -> pyobj)
    (o : error_kind + A) (values : gmap string pyobj) : gmap string pyobj :=
  match o with
  | inr a => <[name := to_py a]> values
  | inl _ => values
  end.

Section SchemaOutcomes.
Context `{lib : PyLib}.

Definition o_symbol (kw : alert_input) : error_kind + string :=
  outcome None (fun v => Accept (validate_symbol v)) (in_symbol kw).
Definition o_side (kw : alert_input) : error_kind + OrderSide :=
  outcome None Accept (in_side kw).
Definition o_order_type (kw : alert_input) : error_kind + OrderType :=
  outcome (Some MARKET) Accept (in_order_type kw).
Definition o_volume (kw : alert_input) : error_kind + option float :=
  outcome (Some None) validate_volume (in_volume kw).
Definition o_price (kw : alert_input) : error_kind + option float :=
  outcome (Some None) Accept (in_price kw).
Definition o_leverage (kw : alert_input) : error_kind + option Z :=
  outcome (Some None) Accept (in_leverage kw).
Definition o_stop_price (kw : alert_input) : error_kind + option float :=
  outcome (Some None) Accept (in_stop_price kw).
Definition o_strategy_name (kw : alert_input) : error_kind + option string :=
  outcome (Some None) Accept (in_strategy_name kw).
Definition o_alert_message (kw : alert_input) : error_kind + option string :=
  outcome (Some None) Accept (in_alert_message kw).
Definition o_custom_fields (kw : alert_input)
  : error_kind + option (list (string * json)) :=
  outcome (Some (Some [])) Accept (in_custom_fields kw).

Definition errors_of (kw : alert_input) : list (string * error_kind) :=
  (outcome_errors "symbol" (o_symbol kw)
   ++ outcome_errors "side" (o_side kw)
   ++ outcome_errors "order_type" (o_order_type kw)
   ++ outcome_errors "volume" (o_volume kw)
   ++ outcome_errors "price" (o_price kw)
   ++ outcome_errors "leverage" (o_leverage kw)
   ++ outcome_errors "stop_price" (o_stop_price kw)
   ++ outcome_errors "strategy_name" (o_strategy_name kw)
   ++ outcome_errors "alert_message" (o_alert_message kw)
   ++ outcome_errors "custom_fields" (o_custom_fields kw))%list.

Definition alert_of (kw : alert_input) : option TradingViewAlert.t :=
  symbol ← outcome_value (o_symbol kw);
  side ← outcome_value (o_side kw);
  order_type ← outcome_value (o_order_type kw);
  volume ← outcome_value (o_volume kw);
  price ← outcome_value (o_price kw);
  leverage ← outcome_value (o_leverage kw);
  stop_price ← outcome_value (o_stop_price kw);
  strategy_name ← outcome_value (o_strategy_name kw);
  alert_message ← outcome_value (o_alert_message kw);
  custom_fields ← outcome_value (o_custom_fields kw);
  Some {| TradingViewAlert.symbol := symbol;
          TradingViewAlert.side := side;
          TradingViewAlert.order_type := order_type;
          TradingViewAlert.volume := volume;
          TradingViewAlert.price := price;
          TradingViewAlert.leverage := leverage;
          TradingViewAlert.stop_price := stop_price;
          TradingViewAlert.strategy_name := strategy_name;
          TradingViewAlert.alert_message := alert_message;
          TradingViewAlert.custom_fields := custom_fields |}.
End SchemaOutcomes.

(** ** Notions used in the statements *)

(** The order types whose stop price goes to the secondary price slot. *)
Definition is_limit_stop (t : OrderType) : bool :=
  bool_decide (t ∈ [STOP_LOSS_LIMIT; TAKE_PROFIT_LIMIT]).

(** An alert with its price removed. *)
Definition without_price (alert : TradingViewAlert.t) : TradingViewAlert.t :=
  {| TradingViewAlert.symbol := TradingViewAlert.symbol alert;
     TradingViewAlert.side := TradingViewAlert.side alert;
     TradingViewAlert.order_type := TradingViewAlert.order_type alert;
     TradingViewAlert.volume := TradingViewAlert.volume alert;
     TradingViewAlert.price := None;
     TradingViewAlert.leverage := TradingViewAlert.leverage alert;
     TradingViewAlert.stop_price := TradingViewAlert.stop_price alert;
     TradingViewAlert.strategy_name := TradingViewAlert.strategy_name alert;
     TradingViewAlert.alert_message := TradingViewAlert.alert_message alert;
     TradingViewAlert.custom_fields := TradingViewAlert.custom_fields alert |}.

(** The signature that [_validate_signature] expects for a request. *)
Definition expected_signature `{lib : PyLib} (webhook_secret : string) (request : Request)
  : string :=
  hexdigest (hmac_sha256 (list_byte_of_string webhook_secret) (body request)).

(** The rules of the schema other than the one on the volume permit a
    body: symbol and side are given and parse, and no other field but
    the volume holds a value that does not parse. *)
Definition other_rules_permit (kw : alert_input) : Prop :=
  (exists symbol, in_symbol kw = Given symbol)
  /\ (exists side, in_side kw = Given side)
  /\ in_order_type kw <> Malformed
  /\ in_price kw <> Malformed
  /\ in_leverage kw <> Malformed
  /\ in_stop_price kw <> Malformed
  /\ in_strategy_name kw <> Malformed
  /\ in_alert_message kw <> Malformed
  /\ in_custom_fields kw <> Malformed.

(** What an endpoint returns or raises is a rejection of the request: a
    401 or a 400 raised as [HTTPException], or a 500 response. *)
Definition rejection (r : result JSONResponse.t) : bool :=
  match r with
  | Ok response => JSONResponse.status_code response =? 500
  | Raise (HTTPException status_code _) => (status_code =? 401) || (status_code =? 400)
  | Raise _ => false
  end.

(** * Theorems *)

(** ** The validators of the schema *)

Section SchemaFacts.
Context `{lib : PyLib}.

(** Whatever pydantic passes under the keyword [field], it is not the
    name of the field as a string: [validate_prices] returns its
    argument. *)
Lemma validate_prices_accepts name v values :
  validate_prices v values (validator_kwargs name) = Accept v.
Proof.
  destruct v as [x|]; [done|].
  unfold validate_prices, validator_kwargs.
  destruct pydantic; simplify_map_eq; done.
Qed.

Lemma validate_field_outcome {A} name (to_py : A -> pyobj) default validator
    (f : A -> validated A) inp values errors :
  (forall a, validator a values = f a) ->
  validate_field name to_py default validator inp (values, errors)
  = (outcome_value (outcome default f inp),
     (outcome_values name to_py (outcome default f inp) values,
      (errors ++ outcome_errors name (outcome default f inp))%list)).
Proof.
  intros Hf. destruct inp as [| |a]; cbn.
  - destruct default; cbn; by rewrite ?app_nil_r.
  - done.
  - rewrite Hf. destruct (f a); cbn; by rewrite ?app_nil_r.
Qed.

Lemma TradingViewAlert_init_outcomes kw :
  TradingViewAlert_init kw =
  match errors_of kw, alert_of kw with
  | [], Some alert => Ok alert
  | errors, _ => Raise (ValidationError errors)
  end.
Proof.
  unfold TradingViewAlert_init.
  rewrite (validate_field_outcome "symbol" _ _ _
             (fun v => Accept (validate_symbol v))) by done.
  cbv beta iota.
  rewrite (validate_field_outcome "side" _ _ _ Accept) by done.
  cbv beta iota.
  rewrite (validate_field_outcome "order_type" _ _ _ Accept) by done.
  cbv beta iota.
  rewrite (validate_field_outcome "volume" _ _ _ validate_volume) by done.
  cbv beta iota.
  rewrite (validate_field_outcome "price" _ _ _ Accept)
    by (intros; apply validate_prices_accepts).
  cbv beta iota.
  rewrite (validate_field_outcome "leverage" _ _ _ Accept) by done.
  cbv beta iota.
  rewrite (validate_field_outcome "stop_price" _ _ _ Accept)
    by (intros; apply validate_prices_accepts).
  cbv beta iota.
  rewrite (validate_field_outcome "strategy_name" _ _ _ Accept) by done.
  cbv beta iota.
  rewrite (validate_field_outcome "alert_message" _ _ _ Accept) by done.
  cbv beta iota.
  rewrite (validate_field_outcome "custom_fields" _ _ _ Accept) by done.
  cbv beta iota. unfold snd.
  rewrite app_nil_l, <- !app_assoc. reflexivity.
Qed.

Lemma init_ok kw alert :
  TradingViewAlert_init kw = Ok alert -> alert_of kw = Some alert.
Proof.
  rewrite TradingViewAlert_init_outcomes.
  destruct (errors_of kw), (alert_of kw); congruence.
Qed.

Lemma init_raise kw e :
  TradingViewAlert_init kw = Raise e -> e = ValidationError (errors_of kw).
Proof.
  rewrite TradingViewAlert_init_outcomes.
  destruct (errors_of kw), (alert_of kw); congruence.
Qed.

Lemma init_rejects kw x :
  x ∈ errors_of kw ->
  TradingViewAlert_init kw = Raise (ValidationError (errors_of kw)).
Proof.
  rewrite TradingViewAlert_init_outcomes.
  destruct (errors_of kw); [by intros ?%elem_of_nil | done].
Qed.

Lemma elem_of_outcome_errors {A} name (o : error_kind + A) n e :
  (n, e) ∈ outcome_errors name o <-> n = name /\ o = inl e.
Proof.
  destruct o; cbn.
  - rewrite list_elem_of_singleton.
    split; [by intros [= -> ->] | by intros [-> [= ->]]].
  - rewrite elem_of_nil. split; [done | by intros [_ [=]]].
Qed.

Lemma elem_of_errors_of kw n e :
  (n, e) ∈ errors_of kw <->
  (n = "symbol" /\ o_symbol kw = inl e)
  \/ (n = "side" /\ o_side kw = inl e)
  \/ (n = "order_type" /\ o_order_type kw = inl e)
  \/ (n = "volume" /\ o_volume kw = inl e)
  \/ (n = "price" /\ o_price kw = inl e)
  \/ (n = "leverage" /\ o_leverage kw = inl e)
  \/ (n = "stop_price" /\ o_stop_price kw = inl e)
  \/ (n = "strategy_name" /\ o_strategy_name kw = inl e)
  \/ (n = "alert_message" /\ o_alert_message kw = inl e)
  \/ (n = "custom_fields" /\ o_custom_fields kw = inl e).
Proof.
  unfold errors_of. rewrite !elem_of_app, !elem_of_outcome_errors. reflexivity.
Qed.
End SchemaFacts.

(** ** Order translation *)

Section TranslationFacts.
Context `{lib : PyLib}.

(** The request that [from_tradingview_alert] builds, slot by slot. *)
Lemma from_tradingview_alert_eq alert :
  from_tradingview_alert alert =
  Ok {| TradeRequest.pair := TradingViewAlert.symbol alert;
        TradeRequest.type := TradingViewAlert.side alert;
        TradeRequest.ordertype := OrderType_value (TradingViewAlert.order_type alert);
        TradeRequest.volume := float_str <$> TradingViewAlert.volume alert;
        TradeRequest.price :=
          match TradingViewAlert.stop_price alert with
          | Some stop_price =>
              if is_limit_stop (TradingViewAlert.order_type alert)
              then float_str <$> TradingViewAlert.price alert
              else Some (float_str stop_price)
          | None => float_str <$> TradingViewAlert.price alert
          end;
        TradeRequest.price2 :=
          match TradingViewAlert.stop_price alert with
          | Some stop_price =>
              if is_limit_stop (TradingViewAlert.order_type alert)
              then Some (float_str stop_price)
              else None
          | None => None
          end;
        TradeRequest.leverage := int_str <$> TradingViewAlert.leverage alert;
        TradeRequest.starttm := None;
        TradeRequest.expiretm := None;
        TradeRequest.validate := None;
        TradeRequest.oflags := None;
        TradeRequest.userref := None |}.
Proof.
  destruct alert as [symbol side order_type volume price leverage stop_price ? ? ?].
  unfold from_tradingview_alert.
  cbn [TradingViewAlert.symbol TradingViewAlert.side TradingViewAlert.order_type
       TradingViewAlert.volume TradingViewAlert.price TradingViewAlert.leverage
       TradingViewAlert.stop_price].
  destruct order_type, side, volume, price, stop_price, leverage;
    vm_compute; reflexivity.
Qed.

(** C6.  Order translation is total: for every alert, hence for every
    alert that passed schema validation, [from_tradingview_alert] returns
    a request and does not raise; the order-type mapping has an entry for
    each of the six order types, and [pair], [type] and [ordertype] are
    those of the alert. *)
Theorem from_tradingview_alert_total alert :
  (forall t, ordertype_mapping !! t = Some (OrderType_value t))
  /\ exists request,
       from_tradingview_alert alert = Ok request
       /\ TradeRequest.pair request = TradingViewAlert.symbol alert
       /\ TradeRequest.type request = TradingViewAlert.side alert
       /\ TradeRequest.ordertype request
          = OrderType_value (TradingViewAlert.order_type alert).
Proof.
  split.
  - intros []; reflexivity.
  - rewrite from_tradingview_alert_eq. eexists; split; [reflexivity|]. done.
Qed.

(** C3.  A stop price that is present goes to the secondary price slot
    [price2] when the order type is stop-loss-limit or take-profit-limit
    (the primary slot then holds the price of the alert), and to the
    primary slot when the order type is stop-loss or take-profit (the
    secondary slot is then empty). *)
Theorem stop_price_routing alert stop_price :
  TradingViewAlert.stop_price alert = Some stop_price ->
  exists request,
    from_tradingview_alert alert = Ok request
    /\ (TradingViewAlert.order_type alert ∈ [STOP_LOSS_LIMIT; TAKE_PROFIT_LIMIT] ->
        TradeRequest.price2 request = Some (float_str stop_price)
        /\ TradeRequest.price request = float_str <$> TradingViewAlert.price alert)
    /\ (TradingViewAlert.order_type alert ∈ [STOP_LOSS; TAKE_PROFIT] ->
        TradeRequest.price request = Some (float_str stop_price)
        /\ TradeRequest.price2 request = None).
Proof.
  intros Hstop. rewrite from_tradingview_alert_eq.
  eexists; split; [reflexivity|]. cbn. rewrite Hstop.
  split; intros Hin; unfold is_limit_stop.
  - by rewrite bool_decide_eq_true_2.
  - rewrite bool_decide_eq_false_2; [done|].
    destruct (TradingViewAlert.order_type alert); set_solver.
Qed.

(** Assigning twice to the key [price] keeps the second value only: the
    dictionary built for an alert with a price and a simple stop price is
    the one built for the same alert without the price. *)
Lemma price_is_overwritten alert price stop_price :
  is_limit_stop (TradingViewAlert.order_type alert) = false ->
  TradingViewAlert.price alert = Some price ->
  TradingViewAlert.stop_price alert = Some stop_price ->
  from_tradingview_alert alert = from_tradingview_alert (without_price alert).
Proof.
  unfold is_limit_stop, from_tradingview_alert, without_price.
  cbn [TradingViewAlert.symbol TradingViewAlert.side TradingViewAlert.order_type
       TradingViewAlert.volume TradingViewAlert.price TradingViewAlert.leverage
       TradingViewAlert.stop_price].
  intros -> -> ->.
  destruct (dict_getitem ordertype_mapping _) as [ordertype|e]; [|done].
  cbn. by rewrite insert_insert_eq.
Qed.

(** C10.  When the order type is not one of the two limit-stop types and
    the alert has both a price and a stop price, the primary price slot
    of the request holds the string form of the stop price: the second
    assignment to [price] overwrites the first, and the request is the
    one the alert would give without its price. *)
Theorem stop_price_overwrites_price alert price stop_price :
  TradingViewAlert.order_type alert ∉ [STOP_LOSS_LIMIT; TAKE_PROFIT_LIMIT] ->
  TradingViewAlert.price alert = Some price ->
  TradingViewAlert.stop_price alert = Some stop_price ->
  exists request,
    from_tradingview_alert alert = Ok request
    /\ TradeRequest.price request = Some (float_str stop_price)
    /\ TradeRequest.price2 request = None
    /\ from_tradingview_alert (without_price alert) = Ok request.
Proof.
  intros Hnot Hprice Hstop.
  assert (is_limit_stop (TradingViewAlert.order_type alert) = false) as Hsimple
    by by apply bool_decide_eq_false_2.
  rewrite <- (price_is_overwritten alert price stop_price) by done.
  rewrite from_tradingview_alert_eq.
  eexists; split; [reflexivity|]. cbn. by rewrite Hstop, Hsimple.
Qed.
End TranslationFacts.

(** ** Symbol normalization *)

Section Normalization.
Context `{laws : PyLibLaws}.

Lemma symbol_mappings_values k v :
  symbol_mappings !! k = Some v -> v = "XBTUSD" \/ v = "ETHUSD".
Proof.
  unfold symbol_mappings.
  rewrite !lookup_insert_Some, lookup_singleton_Some. naive_solver.
Qed.

Lemma validate_symbol_fixed v :
  v = "XBTUSD" \/ v = "ETHUSD" -> validate_symbol v = v.
Proof.
  unfold validate_symbol.
  intros [-> | ->]; rewrite str_upper_ascii by reflexivity; reflexivity.
Qed.

(** C7.  Symbol normalization, the validator [validate_symbol], is
    idempotent, and it sends both [btcusd] and [BTC/USD] to [XBTUSD]. *)
Theorem validate_symbol_idempotent :
  (forall s, validate_symbol (validate_symbol s) = validate_symbol s)
  /\ validate_symbol "btcusd" = "XBTUSD"
  /\ validate_symbol "BTC/USD" = "XBTUSD".
Proof.
  split; [|split].
  - intros s. unfold validate_symbol at 2 3.
    destruct (symbol_mappings !! str_upper s) as [v|] eqn:Hv; cbn.
    + apply validate_symbol_fixed. by eapply symbol_mappings_values.
    + unfold validate_symbol. by rewrite str_upper_idempotent, Hv.
  - unfold validate_symbol. by rewrite str_upper_ascii.
  - unfold validate_symbol. by rewrite str_upper_ascii.
Qed.
End Normalization.

(** The reference instance satisfies the laws. *)

Lemma ascii_upper_char_idempotent c :
  ascii_upper_char (ascii_upper_char c) = ascii_upper_char c.
Proof. destruct c as [[] [] [] [] [] [] [] []]; reflexivity. Qed.

Lemma ascii_upper_idempotent s : ascii_upper (ascii_upper s) = ascii_upper s.
Proof.
  induction s as [|c s IH]; cbn; [done|].
  by rewrite ascii_upper_char_idempotent, IH.
Qed.

#[export] Instance Reference_laws : PyLibLaws Reference.lib.
Proof.
  split.
  - done.
  - apply ascii_upper_idempotent.
  - intros key msg. change (length (Reference.keyed_checksum key msg) = 32%nat).
    unfold Reference.keyed_checksum. by rewrite length_map, length_seq.
Qed.

Lemma validate_symbol_idempotent_witness :
  validate_symbol (lib := Reference.lib) (validate_symbol (lib := Reference.lib) "eth/usd")
  = validate_symbol (lib := Reference.lib) "eth/usd"
  /\ validate_symbol (lib := Reference.lib) "btcusd" = "XBTUSD"
  /\ validate_symbol (lib := Reference.lib) "BTC/USD" = "XBTUSD".
Proof.
  destruct (validate_symbol_idempotent (laws := Reference_laws)) as (Hidem & Hb & Hs).
  split; [apply Hidem | split; [apply Hb | apply Hs]].
Defined.

(** ** The alert schema *)

(** From [alert_of kw = Some alert] to the value of each field. *)
Ltac invert_alert_of H :=
  repeat match type of H with
         | (outcome_value ?o ≫= _) = Some _ => destruct (outcome_value o); cbn in H
         end;
  simplify_eq.

Section SchemaClaims.
Context `{lib : PyLib}.

(** C4, as the code has it.  Schema validation requires the symbol to be
    supplied, as a string; the symbol of an accepted alert is the given
    one in upper case, replaced by its alias when the table has one; and
    no symbol that is supplied as a string is rejected, the empty one
    included. *)
Theorem symbol_required_and_normalized kw :
  match in_symbol kw with
  | Absent =>
      exists errors, TradingViewAlert_init kw = Raise (ValidationError errors)
                     /\ ("symbol", missing) ∈ errors
  | Malformed =>
      exists errors, TradingViewAlert_init kw = Raise (ValidationError errors)
                     /\ ("symbol", type_error) ∈ errors
  | Given s =>
      (forall alert, TradingViewAlert_init kw = Ok alert ->
         TradingViewAlert.symbol alert
         = default (str_upper s) (symbol_mappings !! str_upper s))
      /\ (forall errors e, TradingViewAlert_init kw = Raise (ValidationError errors) ->
            ("symbol", e) ∉ errors)
  end.
Proof.
  destruct (in_symbol kw) as [| |s] eqn:Hs.
  - exists (errors_of kw).
    assert (("symbol", missing) ∈ errors_of kw) as Hin.
    { apply elem_of_errors_of. left. unfold o_symbol. by rewrite Hs. }
    split; [by eapply init_rejects | done].
  - exists (errors_of kw).
    assert (("symbol", type_error) ∈ errors_of kw) as Hin.
    { apply elem_of_errors_of. left. unfold o_symbol. by rewrite Hs. }
    split; [by eapply init_rejects | done].
  - split.
    + intros alert Hok%init_ok. unfold alert_of, o_symbol in Hok.
      rewrite Hs in Hok. cbn in Hok. by invert_alert_of Hok.
    + intros errors e [= ->]%init_raise Hin%elem_of_errors_of.
      unfold o_symbol in Hin. rewrite Hs in Hin. cbn in Hin.
      naive_solver.
Qed.

(** C2, what the code does.  An order of any type that supplies neither
    [price] nor [stop_price], or supplies them as [null], passes schema
    validation and is translated into a request without a price:
    [validate_prices] does not run for a field that is not supplied, and
    when it runs it never sees the name of the field. *)
Theorem prices_are_not_required s t :
  let alert :=
    {| TradingViewAlert.symbol := validate_symbol s;
       TradingViewAlert.side := BUY;
       TradingViewAlert.order_type := t;
       TradingViewAlert.volume := None;
       TradingViewAlert.price := None;
       TradingViewAlert.leverage := None;
       TradingViewAlert.stop_price := None;
       TradingViewAlert.strategy_name := None;
       TradingViewAlert.alert_message := None;
       TradingViewAlert.custom_fields := Some [] |} in
  TradingViewAlert_init (Reference.order s t Absent Absent Absent) = Ok alert
  /\ TradingViewAlert_init (Reference.order s t Absent (Given None) (Given None))
     = Ok alert
  /\ from_tradingview_alert alert
     = Ok {| TradeRequest.pair := validate_symbol s;
             TradeRequest.type := BUY;
             TradeRequest.ordertype := OrderType_value t;
             TradeRequest.volume := None;
             TradeRequest.price := None;
             TradeRequest.price2 := None;
             TradeRequest.leverage := None;
             TradeRequest.starttm := None;
             TradeRequest.expiretm := None;
             TradeRequest.validate := None;
             TradeRequest.oflags := None;
             TradeRequest.userref := None |}.
Proof.
  cbn zeta. split; [reflexivity | split].
  - by rewrite TradingViewAlert_init_outcomes.
  - by rewrite from_tradingview_alert_eq.
Qed.

Lemma no_volume_error kw errors e :
  (forall msg, o_volume kw <> inl msg) ->
  TradingViewAlert_init kw = Raise (ValidationError errors) ->
  ("volume", e) ∉ errors.
Proof.
  intros Hv [= ->]%init_raise Hin%elem_of_errors_of. naive_solver.
Qed.

Lemma float_gt_zero_not_le v : float_gt_zero v = true -> float_le_zero v = false.
Proof. by destruct v as [[]|[]| |[] m e]. Qed.

(** An optional field that is not malformed has its value, or its
    default. *)
Lemma outcome_optional {A} (d : A) (inp : field_input A) :
  inp <> Malformed ->
  outcome (Some d) Accept inp
  = inr match inp with
        | Given a => a
        | _ => d
        end.
Proof. by destruct inp. Qed.

(** A body that the other rules permit and whose volume passes is
    accepted. *)
Lemma init_accepts kw volume :
  other_rules_permit kw -> o_volume kw = inr volume ->
  exists alert, TradingViewAlert_init kw = Ok alert.
Proof.
  intros ([symbol Hsymbol] & [side Hside] & Horder_type & Hprice & Hleverage
          & Hstop_price & Hstrategy_name & Halert_message & Hcustom_fields) Hvolume.
  rewrite TradingViewAlert_init_outcomes. unfold errors_of, alert_of.
  rewrite Hvolume.
  unfold o_symbol, o_side, o_order_type, o_price, o_leverage, o_stop_price,
    o_strategy_name, o_alert_message, o_custom_fields.
  rewrite Hsymbol, Hside, !outcome_optional by done.
  cbn -[validate_symbol]. eauto.
Qed.

(** C8.  A volume that is present and at most zero is rejected, the
    error citing [volume].  When the volume is absent no error cites it,
    the body is accepted if the other rules permit it, and the request of
    the accepted alert has no volume.  When the volume is present and
    positive no error cites it, the body is accepted if the other rules
    permit it, and the volume of the request of the accepted alert is its
    string form. *)
Theorem volume_rule kw :
  (forall v, in_volume kw = Given (Some v) -> float_le_zero v = true ->
     exists errors, TradingViewAlert_init kw = Raise (ValidationError errors)
                    /\ ("volume", value_error "Volume must be positive") ∈ errors)
  /\ (in_volume kw = Absent ->
      (forall errors e, TradingViewAlert_init kw = Raise (ValidationError errors) ->
         ("volume", e) ∉ errors)
      /\ (other_rules_permit kw ->
          exists alert request,
            TradingViewAlert_init kw = Ok alert
            /\ from_tradingview_alert alert = Ok request
            /\ TradeRequest.volume request = None)
      /\ (forall alert, TradingViewAlert_init kw = Ok alert ->
            exists request, from_tradingview_alert alert = Ok request
                            /\ TradeRequest.volume request = None))
  /\ (forall v, in_volume kw = Given (Some v) -> float_gt_zero v = true ->
      (forall errors e, TradingViewAlert_init kw = Raise (ValidationError errors) ->
         ("volume", e) ∉ errors)
      /\ (other_rules_permit kw ->
          exists alert request,
            TradingViewAlert_init kw = Ok alert
            /\ from_tradingview_alert alert = Ok request
            /\ TradeRequest.volume request = Some (float_str v))
      /\ (forall alert, TradingViewAlert_init kw = Ok alert ->
            exists request, from_tradingview_alert alert = Ok request
                            /\ TradeRequest.volume request = Some (float_str v))).
Proof.
  assert (forall alert vol, o_volume kw = inr vol ->
            TradingViewAlert_init kw = Ok alert ->
            TradingViewAlert.volume alert = vol) as Hvol.
  { intros alert vol Hv Hok%init_ok. unfold alert_of in Hok. rewrite Hv in Hok.
    by invert_alert_of Hok. }
  assert (forall vol, o_volume kw = inr vol ->
            forall alert, TradingViewAlert_init kw = Ok alert ->
            exists request, from_tradingview_alert alert = Ok request
                            /\ TradeRequest.volume request = float_str <$> vol)
    as Hrequest.
  { intros vol Ho alert Hok. rewrite from_tradingview_alert_eq.
    eexists; split; [reflexivity|]. cbn. by rewrite (Hvol _ _ Ho Hok). }
  assert (forall vol, o_volume kw = inr vol -> other_rules_permit kw ->
            exists alert request,
              TradingViewAlert_init kw = Ok alert
              /\ from_tradingview_alert alert = Ok request
              /\ TradeRequest.volume request = float_str <$> vol) as Haccepted.
  { intros vol Ho Hpermit.
    destruct (init_accepts kw vol Hpermit Ho) as [alert Hok].
    destruct (Hrequest vol Ho alert Hok) as (request & Htranslated & Hvolume).
    by exists alert, request. }
  split; [|split].
  - intros v Hv Hle. exists (errors_of kw).
    assert (("volume", value_error "Volume must be positive") ∈ errors_of kw) as Hin.
    { apply elem_of_errors_of. do 3 right; left.
      unfold o_volume. rewrite Hv. cbn. by rewrite Hle. }
    split; [by eapply init_rejects | done].
  - intros Hv.
    assert (o_volume kw = inr None) as Ho by (unfold o_volume; by rewrite Hv).
    split; [|split].
    + intros errors e. apply no_volume_error. by rewrite Ho.
    + apply (Haccepted None Ho).
    + apply (Hrequest None Ho).
  - intros v Hv Hgt.
    assert (o_volume kw = inr (Some v)) as Ho.
    { unfold o_volume. rewrite Hv. cbn. by rewrite float_gt_zero_not_le. }
    split; [|split].
    + intros errors e. apply no_volume_error. by rewrite Ho.
    + apply (Haccepted (Some v) Ho).
    + apply (Hrequest (Some v) Ho).
Qed.
End SchemaClaims.

(** ** Signature verification *)



Section SignatureClaims.
Context `{laws : PyLibLaws}.
Variables getenv cloud : string -> option string.


End SignatureClaims.

(** ** The endpoints *)

Section EndpointClaims.
Context `{lib : PyLib}.
Variables getenv cloud : string -> option string.

Lemma signature_failure self request e :
  fst (_validate_signature getenv cloud self request) = Raise e ->
  (exists detail, e = HTTPException 401 detail)
  \/ e = TypeError "comparing strings with non-ASCII characters is not supported".
Proof.
  unfold _validate_signature.
  destruct (_get_webhook_secret getenv cloud self) as [[[|c key]|] self']; cbn [fst]; [done| |done].
  destruct (headers_get (headers request) "X-Signature") as [[|c0 s0]|]; cbn [fst].
  - intros [= <-]. eauto.
  - unfold compare_digest.
    destruct (isascii _ && isascii _); cbn; [|intros [= <-]; by right].
    destruct (negb _); intros [= <-]. eauto.
  - intros [= <-]. eauto.
Qed.

Lemma process_request_unsigned self request e :
  fst (_validate_signature getenv cloud self request) = Raise e ->
  fst (process_request getenv cloud self request) = Raise e.
Proof.
  unfold process_request.
  destruct (_validate_signature getenv cloud self request) as [checked self'].
  cbn. by intros ->.
Qed.

Lemma process_request_invalid self request kw e :
  json_loads (body request) = Ok (Mapping kw) ->
  TradingViewAlert_init kw = Raise e ->
  (exists e', fst (_validate_signature getenv cloud self request) = Raise e'
              /\ fst (process_request getenv cloud self request) = Raise e')
  \/ (exists detail, fst (process_request getenv cloud self request)
                     = Raise (HTTPException 400 detail)).
Proof.
  intros Hjson Hinit.
  destruct (fst (_validate_signature getenv cloud self request)) as [[]|e'] eqn:Hsig.
  - right. unfold process_request.
    destruct (_validate_signature getenv cloud self request) as [checked self'].
    cbn in Hsig. subst checked. cbn. rewrite Hjson. cbn.
    rewrite Hinit, (init_raise _ _ Hinit). cbn. eauto.
  - left. exists e'. split; [done|]. by apply process_request_unsigned.
Qed.

Lemma process_request_ok self request alert trade_request :
  fst (process_request getenv cloud self request) = Ok (alert, trade_request) ->
  fst (_validate_signature getenv cloud self request) = Ok tt
  /\ exists kw, json_loads (body request) = Ok (Mapping kw)
                /\ TradingViewAlert_init kw = Ok alert
                /\ from_tradingview_alert alert = Ok trade_request.
Proof.
  unfold process_request.
  destruct (_validate_signature getenv cloud self request) as [[[]|e] self']; cbn; [|done].
  destruct (json_loads (body request)) as [payload_|e]; cbn; [|by destruct e].
  destruct (_log_payload payload_) as [[]|e] eqn:Hlog; cbn; [|done].
  destruct payload_ as [kw| | | | | |]; cbn; try done.
  destruct (TradingViewAlert_init kw) as [alert'|e] eqn:Hinit; cbn; [|by destruct e].
  destruct (from_tradingview_alert alert') as [trade_request'|e] eqn:Htr; cbn; [|done].
  intros [= <- <-]. eauto.
Qed.

(** The response to a fault whose message can be encoded can be built:
    an endpoint answers the fault with a 500 whose [error] is [str(e)]. *)
Lemma except_clauses_fault e :
  (forall status_code detail, e <> HTTPException status_code detail) ->
  utf8_encodable (exn_str e) = true ->
  except_clauses (Raise e)
  = Ok {| JSONResponse.content :=
            [("success", JBool false);
             ("message", JStr "Internal server error");
             ("error", JStr (exn_str e))];
          JSONResponse.status_code := 500 |}.
Proof.
  intros He Hencodable.
  assert (JSONResponse_init
            [("success", JBool false);
             ("message", JStr "Internal server error");
             ("error", JStr (exn_str e))] HTTP_500_INTERNAL_SERVER_ERROR
          = Ok {| JSONResponse.content :=
                    [("success", JBool false);
                     ("message", JStr "Internal server error");
                     ("error", JStr (exn_str e))];
                  JSONResponse.status_code := 500 |}) as Hbuilt.
  { unfold JSONResponse_init.
    change (json_compliant _) with true.
    change (json_encodable _)
      with (utf8_encodable "success"
            && (utf8_encodable "message" && utf8_encodable "Internal server error"
                && (utf8_encodable "error" && utf8_encodable (exn_str e) && true))).
    by rewrite Hencodable. }
  destruct e; try exact Hbuilt. by destruct (He status_code detail).
Qed.

Lemma except_clauses_rejects e :
  (exists detail, e = HTTPException 401 detail)
  \/ (exists detail, e = HTTPException 400 detail)
  \/ ((forall status_code detail, e <> HTTPException status_code detail)
      /\ utf8_encodable (exn_str e) = true) ->
  rejection (except_clauses (Raise e)) = true.
Proof.
  intros [[d ->]|[[d ->]|[Hother Hencodable]]]; [done|done|].
  by rewrite except_clauses_fault.
Qed.

(** An endpoint whose request does not process makes no call. *)
Lemma endpoints_raise self request gateway e :
  fst (process_request getenv cloud self request) = Raise e ->
  run gateway (tradingview_webhook getenv cloud self request)
  = ((except_clauses (Raise e), snd (process_request getenv cloud self request)), [])
  /\ run gateway (validate_tradingview_webhook getenv cloud self request)
     = ((except_clauses (Raise e), snd (process_request getenv cloud self request)), []).
Proof.
  unfold tradingview_webhook, validate_tradingview_webhook.
  destruct (process_request getenv cloud self request) as [processed self'].
  cbn [fst snd]. by intros ->.
Qed.

(** An endpoint whose request processes makes one call, with the trade
    request that came out of the processing. *)
Lemma endpoints_call self request gateway alert trade_request :
  fst (process_request getenv cloud self request) = Ok (alert, trade_request) ->
  snd (run gateway (tradingview_webhook getenv cloud self request))
  = [execute_trade trade_request]
  /\ snd (run gateway (validate_tradingview_webhook getenv cloud self request))
     = [validate_trade trade_request].
Proof.
  unfold tradingview_webhook, validate_tradingview_webhook.
  destruct (process_request getenv cloud self request) as [processed self'].
  cbn [fst snd]. by intros ->.
Qed.

(** C5.  When signature verification fails, or when the body is a JSON
    object that fails schema validation, both endpoints reject the
    request and make no call to the gateway; and a call that is made is
    the only one and carries the trade request translated from the alert
    that the body, with a verified signature, validated to. *)
Theorem gateway_called_only_after_validation self request gateway :
  let checked := fst (_validate_signature getenv cloud self request) in
  let served := run gateway (tradingview_webhook getenv cloud self request) in
  let dry_run := run gateway (validate_tradingview_webhook getenv cloud self request) in
  (forall e, checked = Raise e ->
     snd served = [] /\ rejection (fst (fst served)) = true
     /\ snd dry_run = [] /\ rejection (fst (fst dry_run)) = true)
  /\ (forall kw e, json_loads (body request) = Ok (Mapping kw) ->
        TradingViewAlert_init kw = Raise e ->
        snd served = [] /\ rejection (fst (fst served)) = true
        /\ snd dry_run = [] /\ rejection (fst (fst dry_run)) = true)
  /\ (forall c, c ∈ snd served \/ c ∈ snd dry_run ->
        exists kw alert trade_request,
          checked = Ok tt
          /\ json_loads (body request) = Ok (Mapping kw)
          /\ TradingViewAlert_init kw = Ok alert
          /\ from_tradingview_alert alert = Ok trade_request
          /\ snd served = [execute_trade trade_request]
          /\ snd dry_run = [validate_trade trade_request]).
Proof.
  cbn zeta.
  assert (forall e, fst (process_request getenv cloud self request) = Raise e ->
            rejection (except_clauses (Raise e)) = true ->
            snd (run gateway (tradingview_webhook getenv cloud self request)) = []
            /\ rejection (fst (fst (run gateway
                   (tradingview_webhook getenv cloud self request)))) = true
            /\ snd (run gateway (validate_tradingview_webhook getenv cloud self request)) = []
            /\ rejection (fst (fst (run gateway
                   (validate_tradingview_webhook getenv cloud self request)))) = true)
    as Hrejected.
  { intros e Hraise Hrej.
    destruct (endpoints_raise self request gateway e Hraise) as [-> ->]. done. }
  split; [|split].
  - intros e Hsig. apply (Hrejected e); [by apply process_request_unsigned|].
    apply except_clauses_rejects.
    destruct (signature_failure self request e Hsig) as [?| ->]; [by left|].
    right; right. done.
  - intros kw e Hjson Hinit.
    destruct (process_request_invalid self request kw e Hjson Hinit)
      as [(e' & Hsig & Hraise)|[detail Hraise]].
    + apply (Hrejected e' Hraise). apply except_clauses_rejects.
      destruct (signature_failure self request e' Hsig) as [?| ->]; [by left|].
      right; right. done.
    + apply (Hrejected _ Hraise). apply except_clauses_rejects. right; left. eauto.
  - intros c Hc.
    destruct (fst (process_request getenv cloud self request)) as [[alert trade_request]|e]
      eqn:Hprocessed.
    + destruct (process_request_ok self request alert trade_request Hprocessed)
        as (Hsig & kw & Hjson & Hinit & Htr).
      destruct (endpoints_call self request gateway alert trade_request Hprocessed)
        as [Hserved Hdry].
      exists kw, alert, trade_request. done.
    + destruct (endpoints_raise self request gateway e Hprocessed) as [Hserved Hdry].
      rewrite Hserved, Hdry in Hc. cbn in Hc.
      destruct Hc as [Hc|Hc]; by apply elem_of_nil in Hc.
Qed.

(** A fault that an endpoint catches is answered with a 500 whose
    [error] is [str(e)], whatever the configuration. *)
Lemma except_clauses_expose_detail config e :
  (forall status_code detail, e <> HTTPException status_code detail) ->
  utf8_encodable (exn_str e) = true ->
  respond config (except_clauses (Raise e))
  = {| JSONResponse.content :=
         [("success", JBool false);
          ("message", JStr "Internal server error");
          ("error", JStr (exn_str e))];
       JSONResponse.status_code := 500 |}.
Proof.
  intros He Hencodable. by rewrite except_clauses_fault.
Qed.

(** C9, what the code does.  In a valid production configuration, a
    request whose [X-Signature] is not ASCII makes [compare_digest] raise
    a [TypeError]; the endpoint answers 500 and puts the message of the
    error in the body, where [global_exception_handler] would have
    hidden it. *)
Theorem endpoint_fault_detail_not_hidden gateway :
  let config := Reference.production in
  let request := Reference.request Reference.market_order_text (Some Reference.garbled) in
  let fault :=
    TypeError "comparing strings with non-ASCII characters is not supported" in
  Config.is_development config = false
  /\ Config._validate_config config = Ok tt
  /\ app_tradingview_webhook
       (Reference.environ (Config.webhook_secret config)) Reference.no_cloud
       config PayloadProcessor.init request gateway
     = ({| JSONResponse.content :=
             [("success", JBool false);
              ("message", JStr "Internal server error");
              ("error", JStr (exn_str fault))];
           JSONResponse.status_code := 500 |}, [])
  /\ global_exception_handler config fault
     = {| JSONResponse.status_code := 500;
          JSONResponse.content :=
            [("success", JBool false);
             ("message", JStr "Internal server error");
             ("error", JStr "An unexpected error occurred")] |}.
Proof. done. Qed.
End EndpointClaims.

(** ** The claims on the reference instance *)



(** C3 at a stop-loss-limit alert and at a stop-loss alert. *)
Lemma stop_price_routing_witness :
  (exists request,
     from_tradingview_alert (lib := Reference.lib) (Reference.stop_alert STOP_LOSS_LIMIT)
     = Ok request
     /\ TradeRequest.price2 request = Some "29000.0"
     /\ TradeRequest.price request = Some "30000.0")
  /\ (exists request,
        from_tradingview_alert (lib := Reference.lib) (Reference.stop_alert STOP_LOSS)
        = Ok request
        /\ TradeRequest.price request = Some "29000.0"
        /\ TradeRequest.price2 request = None).
Proof.
  split.
  - destruct (stop_price_routing (lib := Reference.lib)
                (Reference.stop_alert STOP_LOSS_LIMIT) Reference.twenty_nine_thousand
                eq_refl) as (request & Hok & Hlimit & _).
    exists request. split; [exact Hok|]. apply Hlimit. cbn. apply list_elem_of_here.
  - destruct (stop_price_routing (lib := Reference.lib)
                (Reference.stop_alert STOP_LOSS) Reference.twenty_nine_thousand
                eq_refl) as (request & Hok & _ & Hsimple).
    exists request. split; [exact Hok|]. apply Hsimple. cbn. apply list_elem_of_here.
Defined.

(** C10 at a stop-loss alert with price 30000.0 and stop price 29000.0. *)
Lemma stop_price_overwrites_price_witness :
  exists request,
    from_tradingview_alert (lib := Reference.lib) (Reference.stop_alert STOP_LOSS)
    = Ok request
    /\ TradeRequest.price request = Some "29000.0"
    /\ TradeRequest.price2 request = None
    /\ from_tradingview_alert (lib := Reference.lib)
         (without_price (Reference.stop_alert STOP_LOSS))
       = Ok request.
Proof.
  apply (stop_price_overwrites_price (lib := Reference.lib)
           (Reference.stop_alert STOP_LOSS)
           Reference.thirty_thousand Reference.twenty_nine_thousand).
  - cbn. by apply (bool_decide_unpack _).
  - reflexivity.
  - reflexivity.
Defined.

(** C4 as the specification states it fails at the empty symbol: the
    alert is accepted, and its symbol is empty. *)
Lemma empty_symbol_counterexample :
  TradingViewAlert_init (lib := Reference.lib)
    (Reference.order "" MARKET Absent Absent Absent)
  = Ok {| TradingViewAlert.symbol := "";
          TradingViewAlert.side := BUY;
          TradingViewAlert.order_type := MARKET;
          TradingViewAlert.volume := None;
          TradingViewAlert.price := None;
          TradingViewAlert.leverage := None;
          TradingViewAlert.stop_price := None;
          TradingViewAlert.strategy_name := None;
          TradingViewAlert.alert_message := None;
          TradingViewAlert.custom_fields := Some [] |}.
Proof. reflexivity. Qed.

(** C4 at a lower-case symbol with an alias, and at a body without a
    symbol. *)
Lemma symbol_required_and_normalized_witness :
  (forall alert,
     TradingViewAlert_init (lib := Reference.lib)
       (Reference.order "btc/usd" MARKET Absent Absent Absent) = Ok alert ->
     TradingViewAlert.symbol alert = "XBTUSD")
  /\ (exists errors,
        TradingViewAlert_init (lib := Reference.lib) Reference.no_symbol
        = Raise (ValidationError errors)
        /\ ("symbol", missing) ∈ errors).
Proof.
  split.
  - apply (symbol_required_and_normalized (lib := Reference.lib)
             (Reference.order "btc/usd" MARKET Absent Absent Absent)).
  - apply (symbol_required_and_normalized (lib := Reference.lib) Reference.no_symbol).
Defined.

(** C8 at the volumes -1.0, none and 0.5: the first body is rejected,
    the other two are accepted and translated. *)
Lemma volume_rule_witness :
  (exists errors,
     TradingViewAlert_init (lib := Reference.lib)
       (Reference.order "XBTUSD" MARKET (Given (Some Reference.minus_one)) Absent Absent)
     = Raise (ValidationError errors)
     /\ ("volume", value_error "Volume must be positive") ∈ errors)
  /\ (exists alert request,
        TradingViewAlert_init (lib := Reference.lib)
          (Reference.order "XBTUSD" MARKET Absent Absent Absent) = Ok alert
        /\ from_tradingview_alert (lib := Reference.lib) alert = Ok request
        /\ TradeRequest.volume request = None)
  /\ (exists alert request,
        TradingViewAlert_init (lib := Reference.lib)
          (Reference.order "XBTUSD" MARKET (Given (Some Reference.half)) Absent Absent)
        = Ok alert
        /\ from_tradingview_alert (lib := Reference.lib) alert = Ok request
        /\ TradeRequest.volume request = Some "0.5").
Proof.
  assert (forall volume,
            other_rules_permit (Reference.order "XBTUSD" MARKET volume Absent Absent))
    as Hpermit.
  { intros volume. split; [by eexists|]. split; [by eexists|].
    repeat split; discriminate. }
  split; [|split].
  - destruct (volume_rule (lib := Reference.lib)
                (Reference.order "XBTUSD" MARKET (Given (Some Reference.minus_one))
                   Absent Absent)) as (Hnegative & _ & _).
    apply (Hnegative Reference.minus_one); reflexivity.
  - destruct (volume_rule (lib := Reference.lib)
                (Reference.order "XBTUSD" MARKET Absent Absent Absent))
      as (_ & Habsent & _).
    destruct (Habsent eq_refl) as (_ & Haccepted & _).
    apply Haccepted, Hpermit.
  - destruct (volume_rule (lib := Reference.lib)
                (Reference.order "XBTUSD" MARKET (Given (Some Reference.half))
                   Absent Absent)) as (_ & _ & Hpositive).
    destruct (Hpositive Reference.half eq_refl eq_refl) as (_ & Haccepted & _).
    apply Haccepted, Hpermit.
Defined.

(** C5 at a forged signature, at a body without a symbol, and at a market
    order that is served. *)
Lemma gateway_called_only_after_validation_witness :
  snd (run Reference.gateway
         (tradingview_webhook (lib := Reference.lib)
            (Reference.environ (Some Reference.secret)) Reference.no_cloud
            PayloadProcessor.init
            (Reference.request Reference.market_order_text (Some "deadbeef"))))
  = []
  /\ snd (run Reference.gateway
            (tradingview_webhook (lib := Reference.lib)
            (Reference.environ None) Reference.no_cloud PayloadProcessor.init
               (Reference.request Reference.no_symbol_text None)))
     = []
  /\ exists trade_request,
       snd (run Reference.gateway
              (tradingview_webhook (lib := Reference.lib)
            (Reference.environ None) Reference.no_cloud PayloadProcessor.init
                 (Reference.request Reference.market_order_text None)))
       = [execute_trade trade_request]
       /\ TradeRequest.pair trade_request = "XBTUSD"
       /\ TradeRequest.volume trade_request = Some "0.5".
Proof.
  pose proof (fun webhook_secret request =>
    gateway_called_only_after_validation (lib := Reference.lib)
      (Reference.environ webhook_secret) Reference.no_cloud
      PayloadProcessor.init request Reference.gateway) as Hspec.
  cbn zeta in Hspec.
  split; [|split].
  - destruct (Hspec (Some Reference.secret)
                (Reference.request Reference.market_order_text (Some "deadbeef")))
      as (Hunsigned & _ & _).
    by destruct (Hunsigned (HTTPException 401 "Invalid signature") eq_refl) as (? & _).
  - destruct (Hspec None (Reference.request Reference.no_symbol_text None))
      as (_ & Hinvalid & _).
    by destruct (Hinvalid Reference.no_symbol
                   (ValidationError [("symbol", missing)]) eq_refl eq_refl) as (? & _).
  - destruct (Hspec None (Reference.request Reference.market_order_text None))
      as (_ & _ & Hcalled).
    destruct (Hcalled
                (execute_trade
                   {| TradeRequest.pair := "XBTUSD";
                      TradeRequest.type := BUY;
                      TradeRequest.ordertype := "market";
                      TradeRequest.volume := Some "0.5";
                      TradeRequest.price := None;
                      TradeRequest.price2 := None;
                      TradeRequest.leverage := None;
                      TradeRequest.starttm := None;
                      TradeRequest.expiretm := None;
                      TradeRequest.validate := None;
                      TradeRequest.oflags := None;
                      TradeRequest.userref := None |}))
      as (kw & alert & trade_request & _ & _ & _ & _ & Hserved & _).
    { left. vm_compute. apply list_elem_of_here. }
    exists trade_request. split; [exact Hserved|].
    vm_compute in Hserved. by injection Hserved as <-.
Defined.

(** ** End-to-end scenarios on the reference instance *)

(** A market order, no secret configured: 200 with the order id, after one
    call to the gateway. *)
Example scenario_market_order :
  app_tradingview_webhook (lib := Reference.lib) (Reference.environ None)
    Reference.no_cloud Reference.staging PayloadProcessor.init
    (Reference.request Reference.market_order_text None) Reference.gateway
  = ({| JSONResponse.content :=
          [("success", JBool true);
           ("message", JStr "Order executed");
           ("order_id", JStr "OQCLML-BW3P3-BUCMWZ");
           ("error", JNull);
           ("trade_details",
            JDict [("symbol", JStr "XBTUSD");
                   ("side", JStr "buy");
                   ("order_type", JStr "market");
                   ("volume", JFloat Reference.half);
                   ("price", JNull)])];
        JSONResponse.status_code := 200 |},
     [execute_trade
        {| TradeRequest.pair := "XBTUSD";
           TradeRequest.type := BUY;
           TradeRequest.ordertype := "market";
           TradeRequest.volume := Some "0.5";
           TradeRequest.price := None;
           TradeRequest.price2 := None;
           TradeRequest.leverage := None;
           TradeRequest.starttm := None;
           TradeRequest.expiretm := None;
           TradeRequest.validate := None;
           TradeRequest.oflags := None;
           TradeRequest.userref := None |}]).
Proof. vm_compute. reflexivity. Qed.

(** A body without a symbol: 400, the detail names [symbol]; no call. *)
Example scenario_missing_symbol :
  app_validate_tradingview_webhook (lib := Reference.lib) (Reference.environ None)
    Reference.no_cloud Reference.staging PayloadProcessor.init
    (Reference.request Reference.no_symbol_text None) Reference.gateway
  = ({| JSONResponse.content :=
          [("detail", JStr "Invalid payload format: symbol: field required; ")];
        JSONResponse.status_code := 400 |}, []).
Proof. vm_compute. reflexivity. Qed.

(** A side that is neither buy nor sell: 400, the detail names [side]. *)
Example scenario_invalid_side :
  app_validate_tradingview_webhook (lib := Reference.lib) (Reference.environ None)
    Reference.no_cloud Reference.staging PayloadProcessor.init
    (Reference.request Reference.bogus_side_text None) Reference.gateway
  = ({| JSONResponse.content :=
          [("detail", JStr "Invalid payload format: side: value is not valid; ")];
        JSONResponse.status_code := 400 |}, []).
Proof. vm_compute. reflexivity. Qed.

(** A valid alert with a wrong signature while a secret is configured:
    401; no call. *)
Example scenario_wrong_signature :
  app_tradingview_webhook (lib := Reference.lib)
    (Reference.environ (Some Reference.secret)) Reference.no_cloud
    Reference.production PayloadProcessor.init
    (Reference.request Reference.market_order_text (Some "deadbeef"))
    Reference.gateway
  = ({| JSONResponse.content := [("detail", JStr "Invalid signature")];
        JSONResponse.status_code := 401 |}, []).
Proof. vm_compute. reflexivity. Qed.

(** A limit order without a price goes through to the gateway as a limit
    order without a price. *)
Example scenario_limit_order_without_price :
  snd (app_tradingview_webhook (lib := Reference.lib) (Reference.environ None)
         Reference.no_cloud Reference.staging PayloadProcessor.init
         (Reference.request Reference.limit_order_text None) Reference.gateway)
  = [execute_trade
       {| TradeRequest.pair := "XBTUSD";
          TradeRequest.type := BUY;
          TradeRequest.ordertype := "limit";
          TradeRequest.volume := None;
          TradeRequest.price := None;
          TradeRequest.price2 := None;
          TradeRequest.leverage := None;
          TradeRequest.starttm := None;
          TradeRequest.expiretm := None;
          TradeRequest.validate := None;
          TradeRequest.oflags := None;
          TradeRequest.userref := None |}].
Proof. vm_compute. reflexivity. Qed.

(** A JSON array as body, in staging: 500, and the body of the response
    carries the message of the internal error. *)
Example scenario_array_body :
  app_tradingview_webhook (lib := Reference.lib) (Reference.environ None)
    Reference.no_cloud Reference.staging PayloadProcessor.init
    (Reference.request "[]" None) Reference.gateway
  = ({| JSONResponse.content :=
          [("success", JBool false);
           ("message", JStr "Internal server error");
           ("error",
            JStr ("src.utils.models.TradingViewAlert() argument after ** "
                    ++ "must be a mapping, not list"))];
        JSONResponse.status_code := 500 |}, []).
Proof. vm_compute. reflexivity. Qed.

(** * Further properties of the code *)

(** ** The alert schema as a whole *)

Section SchemaWhole.
Context `{lib : PyLib}.

Lemma init_is_ok kw :
  is_ok (TradingViewAlert_init kw)
  = valid (o_symbol kw) && valid (o_side kw) && valid (o_order_type kw)
    && valid (o_volume kw) && valid (o_price kw) && valid (o_leverage kw)
    && valid (o_stop_price kw) && valid (o_strategy_name kw)
    && valid (o_alert_message kw) && valid (o_custom_fields kw).
Proof.
  rewrite TradingViewAlert_init_outcomes. unfold errors_of, alert_of.
  destruct (o_symbol kw), (o_side kw), (o_order_type kw), (o_volume kw),
    (o_price kw), (o_leverage kw), (o_stop_price kw), (o_strategy_name kw),
    (o_alert_message kw), (o_custom_fields kw); reflexivity.
Qed.

(** X1. [TradingViewAlert] accepts a body exactly when the symbol and
    the side are given and parse, no other field is malformed, and the
    volume, if a number is given, is not zero or negative.  Nothing else
    is checked: not the price, and not that the symbol is not empty. *)
Theorem schema_accepts_iff kw :
  is_ok (TradingViewAlert_init kw) = true <->
  (exists s, in_symbol kw = Given s)
  /\ (exists sd, in_side kw = Given sd)
  /\ in_order_type kw <> Malformed
  /\ in_volume kw <> Malformed
  /\ (forall v, in_volume kw = Given (Some v) -> float_le_zero v = false)
  /\ in_price kw <> Malformed
  /\ in_leverage kw <> Malformed
  /\ in_stop_price kw <> Malformed
  /\ in_strategy_name kw <> Malformed
  /\ in_alert_message kw <> Malformed
  /\ in_custom_fields kw <> Malformed.
Proof.
  rewrite init_is_ok, !andb_true_iff.
  unfold o_symbol, o_side, o_order_type, o_volume, o_price, o_leverage,
    o_stop_price, o_strategy_name, o_alert_message, o_custom_fields.
  assert (forall A (d : A) (inp : field_input A),
            valid (outcome (Some d) Accept inp) = true <-> inp <> Malformed) as Hopt.
  { intros A d [| |a]; cbn; split; congruence. }
  rewrite !Hopt.
  assert (valid (outcome None (fun v => Accept (validate_symbol v)) (in_symbol kw)) = true
          <-> exists s, in_symbol kw = Given s) as ->.
  { destruct (in_symbol kw) as [| |s]; cbn.
    - split; [done | intros [? ?]; congruence].
    - split; [done | intros [? ?]; congruence].
    - split; eauto. }
  assert (valid (outcome None Accept (in_side kw)) = true
          <-> exists sd, in_side kw = Given sd) as ->.
  { destruct (in_side kw) as [| |sd]; cbn.
    - split; [done | intros [? ?]; congruence].
    - split; [done | intros [? ?]; congruence].
    - split; eauto. }
  assert (valid (outcome (Some None) validate_volume (in_volume kw)) = true
          <-> in_volume kw <> Malformed
              /\ forall v, in_volume kw = Given (Some v) -> float_le_zero v = false)
    as ->.
  { destruct (in_volume kw) as [| |[v|]]; cbn.
    - split; [split; congruence | done].
    - split; [done | by intros [? _]].
    - destruct (float_le_zero v) eqn:Hv; cbn.
      + split; [done|]. intros [_ H]. specialize (H v eq_refl). congruence.
      + split; [|done]. intros _. split; [done|]. by intros ? [= <-].
    - split; [split; congruence | done]. }
  tauto.
Qed.

Lemma outcome_error_required {A} (f : A -> A) (inp : field_input A) e :
  outcome None (fun v => Accept (f v)) inp = inl e <-> input_error true inp = Some e.
Proof. destruct inp; cbn; split; congruence. Qed.

Lemma outcome_error_optional {A} (d : A) (inp : field_input A) e :
  outcome (Some d) Accept inp = inl e <-> input_error false inp = Some e.
Proof. destruct inp; cbn; split; congruence. Qed.

Lemma outcome_error_volume kw e :
  o_volume kw = inl e <-> field_error kw "volume" = Some e.
Proof.
  unfold o_volume, field_error. cbn.
  destruct (in_volume kw) as [| |[v|]]; cbn; try (split; congruence).
  destruct (float_le_zero v); split; congruence.
Qed.

Lemma init_raise_nonempty kw errors :
  TradingViewAlert_init kw = Raise (ValidationError errors) -> errors <> [].
Proof.
  rewrite TradingViewAlert_init_outcomes. unfold errors_of, alert_of.
  destruct (o_symbol kw), (o_side kw), (o_order_type kw), (o_volume kw),
    (o_price kw), (o_leverage kw), (o_stop_price kw), (o_strategy_name kw),
    (o_alert_message kw), (o_custom_fields kw); cbn; congruence.
Qed.

Lemma outcome_errors_sublist {A} name (o : error_kind + A) :
  (outcome_errors name o).*1 `sublist_of` [name].
Proof. destruct o; cbn; [done | apply sublist_nil_l]. Qed.

(** X2. When [TradingViewAlert] rejects a body, the error lists every
    field that fails and no other: a required field that is missing, a
    value that does not parse, a volume that is not positive.  The list is
    not empty and keeps the order in which the fields are declared. *)
Theorem schema_reports_every_failure kw errors :
  TradingViewAlert_init kw = Raise (ValidationError errors) ->
  errors <> []
  /\ (forall name e, (name, e) ∈ errors <-> field_error kw name = Some e)
  /\ errors.*1 `sublist_of` field_names.
Proof.
  intros Hraise. split; [by eapply init_raise_nonempty|].
  apply init_raise in Hraise. injection Hraise as ->. split.
  - intros name e. rewrite elem_of_errors_of.
    rewrite outcome_error_volume.
    unfold o_symbol, o_side, o_order_type, o_price, o_leverage, o_stop_price,
      o_strategy_name, o_alert_message, o_custom_fields.
    rewrite (outcome_error_required validate_symbol).
    rewrite (outcome_error_required (fun sd => sd)).
    rewrite !outcome_error_optional.
    unfold field_error.
    repeat match goal with
           | |- context [String.eqb name ?s] =>
               destruct (String.eqb_spec name s) as [->|?]; [cbn; naive_solver|]
           end.
    naive_solver.
  - unfold errors_of. rewrite !fmap_app.
    change field_names with
      (["symbol"] ++ ["side"] ++ ["order_type"] ++ ["volume"] ++ ["price"]
         ++ ["leverage"] ++ ["stop_price"] ++ ["strategy_name"]
         ++ ["alert_message"] ++ ["custom_fields"])%list.
    repeat (apply sublist_app; [apply outcome_errors_sublist|]).
    apply outcome_errors_sublist.
Qed.

Lemma outcome_given {A} (d : A) (inp : field_input A) a :
  outcome (Some d) Accept inp = inr a -> a = given d inp.
Proof. destruct inp; cbn; congruence. Qed.

Lemma outcome_given_volume inp a :
  outcome (Some None) validate_volume inp = inr a -> a = given None inp.
Proof.
  destruct inp as [| |[v|]]; cbn; try congruence.
  destruct (float_le_zero v); congruence.
Qed.

(** X3. An alert that is accepted carries the values of the body: the
    side as given, and every other field but the symbol as given or, when
    absent, at its default ([MARKET], [None], the empty dictionary); only
    the symbol is rewritten. *)
Theorem accepted_alert_carries_input kw alert :
  TradingViewAlert_init kw = Ok alert ->
  in_side kw = Given (TradingViewAlert.side alert)
  /\ TradingViewAlert.order_type alert = given MARKET (in_order_type kw)
  /\ TradingViewAlert.volume alert = given None (in_volume kw)
  /\ TradingViewAlert.price alert = given None (in_price kw)
  /\ TradingViewAlert.leverage alert = given None (in_leverage kw)
  /\ TradingViewAlert.stop_price alert = given None (in_stop_price kw)
  /\ TradingViewAlert.strategy_name alert = given None (in_strategy_name kw)
  /\ TradingViewAlert.alert_message alert = given None (in_alert_message kw)
  /\ TradingViewAlert.custom_fields alert = given (Some []) (in_custom_fields kw).
Proof.
  intros H%init_ok. unfold alert_of in H.
  destruct (o_symbol kw) as [|symbol] eqn:Hsymbol; [done|].
  destruct (o_side kw) as [|side] eqn:Hside; [done|].
  destruct (o_order_type kw) as [|order_type] eqn:Horder_type; [done|].
  destruct (o_volume kw) as [|volume] eqn:Hvolume; [done|].
  destruct (o_price kw) as [|price] eqn:Hprice; [done|].
  destruct (o_leverage kw) as [|leverage] eqn:Hleverage; [done|].
  destruct (o_stop_price kw) as [|stop_price] eqn:Hstop_price; [done|].
  destruct (o_strategy_name kw) as [|strategy_name] eqn:Hstrategy_name; [done|].
  destruct (o_alert_message kw) as [|alert_message] eqn:Halert_message; [done|].
  destruct (o_custom_fields kw) as [|custom_fields] eqn:Hcustom_fields; [done|].
  cbn in H. injection H as <-. cbn.
  repeat split;
    try (by eapply outcome_given); try (by eapply outcome_given_volume).
  unfold o_side in Hside. destruct (in_side kw); cbn in Hside; congruence.
Qed.
End SchemaWhole.

(** ** More on symbol normalization and on translation *)

Section NormalizationMore.
Context `{laws : PyLibLaws}.

(** X4. [validate_symbol] does not depend on the case of its input, its
    result is in upper case, and it is never one of the three spellings
    that [symbol_mappings] rewrites. *)
Theorem validate_symbol_canonical s :
  validate_symbol (str_upper s) = validate_symbol s
  /\ str_upper (validate_symbol s) = validate_symbol s
  /\ validate_symbol s ∉ ["BTCUSD"; "BTC/USD"; "ETH/USD"].
Proof.
  split; [|split].
  - unfold validate_symbol. by rewrite str_upper_idempotent.
  - unfold validate_symbol.
    destruct (symbol_mappings !! str_upper s) as [v|] eqn:Hv; cbn.
    + apply symbol_mappings_values in Hv as [-> | ->];
        by rewrite str_upper_ascii.
    + apply str_upper_idempotent.
  - unfold validate_symbol.
    destruct (symbol_mappings !! str_upper s) as [v|] eqn:Hv; cbn.
    + apply symbol_mappings_values in Hv as [-> | ->];
        by apply (bool_decide_unpack _).
    + intros Hin. rewrite !elem_of_cons, elem_of_nil in Hin.
      destruct Hin as [Heq|[Heq|[Heq|[]]]]; rewrite Heq in Hv; done.
Qed.
End NormalizationMore.

Section TranslationMore.
Context `{lib : PyLib}.

(** X5. [from_tradingview_alert] formats volume and leverage when and
    only when the alert has them; without a stop price the price is that
    of the alert and [price2] is empty; [price2] is only ever set for the
    two limit orders with a stop; and the request never has a start or
    expiry time, a validate flag, order flags or a user reference. *)
Theorem translation_fills_only_supplied_slots alert :
  exists request,
    from_tradingview_alert alert = Ok request
    /\ TradeRequest.volume request = float_str <$> TradingViewAlert.volume alert
    /\ TradeRequest.leverage request = int_str <$> TradingViewAlert.leverage alert
    /\ (TradingViewAlert.stop_price alert = None ->
        TradeRequest.price request = float_str <$> TradingViewAlert.price alert
        /\ TradeRequest.price2 request = None)
    /\ (is_Some (TradeRequest.price2 request) ->
        is_limit_stop (TradingViewAlert.order_type alert) = true)
    /\ TradeRequest.starttm request = None
    /\ TradeRequest.expiretm request = None
    /\ TradeRequest.validate request = None
    /\ TradeRequest.oflags request = None
    /\ TradeRequest.userref request = None.
Proof.
  rewrite from_tradingview_alert_eq. eexists; split; [reflexivity|]. cbn.
  split; [done | split; [done | split; [|split; [|done]]]].
  - by intros ->.
  - destruct (TradingViewAlert.stop_price alert); [|by intros [? [=]]].
    destruct (is_limit_stop _); [done | by intros [? [=]]].
Qed.
End TranslationMore.

(** ** Request processing and the responses *)

Section ProcessingMore.
Context `{lib : PyLib}.
Variables getenv cloud : string -> option string.

(** X6. [process_request] checks the signature before it decodes the
    body: a request whose signature check fails is answered with that
    failure whatever its body; once the signature is accepted, a body
    that is not JSON is a 400 "Invalid JSON payload", and any other error
    of the decoder is passed on as it is. *)
Theorem process_request_order_of_checks self request :
  let checked := fst (_validate_signature getenv cloud self request) in
  let processed := fst (process_request getenv cloud self request) in
  (forall e, checked = Raise e -> processed = Raise e)
  /\ (checked = Ok tt ->
      (forall msg, json_loads (body request) = Raise (JSONDecodeError msg) ->
         processed = Raise (HTTPException 400 "Invalid JSON payload"))
      /\ (forall e, json_loads (body request) = Raise e ->
            (forall msg, e <> JSONDecodeError msg) -> processed = Raise e)).
Proof.
  cbn zeta. unfold process_request.
  destruct (_validate_signature getenv cloud self request) as [checked self'].
  cbn [fst]. split; [by intros e -> |].
  intros ->. split.
  - intros msg ->. reflexivity.
  - intros e -> He. destruct e; try reflexivity. by destruct (He msg).
Qed.



(** An endpoint whose request processes answers with its
    [response_data], after one call. *)
Lemma endpoints_answer self request gateway alert trade_request :
  fst (process_request getenv cloud self request) = Ok (alert, trade_request) ->
  run gateway (tradingview_webhook getenv cloud self request)
  = (except_clauses
       (JSONResponse_init
          (webhook_content alert (gateway (execute_trade trade_request)))
          (status_of (gateway (execute_trade trade_request)))),
     snd (process_request getenv cloud self request),
     [execute_trade trade_request])
  /\ run gateway (validate_tradingview_webhook getenv cloud self request)
     = (except_clauses
          (JSONResponse_init
             (validation_content alert (gateway (validate_trade trade_request)))
             (status_of (gateway (validate_trade trade_request)))),
        snd (process_request getenv cloud self request),
        [validate_trade trade_request]).
Proof.
  unfold tradingview_webhook, validate_tradingview_webhook.
  destruct (process_request getenv cloud self request) as [processed self'].
  cbn [fst snd]. by intros ->.
Qed.

(** What the [try] of an endpoint returns for a content: the response,
    or a 500 when the content cannot be rendered. *)
Lemma endpoint_answer content status_code :
  (forall c, utf8_encodable (encode_error_str c) = true) ->
  exists response,
    except_clauses (JSONResponse_init content status_code) = Ok response
    /\ JSONResponse.status_code response
       = (if json_compliant (JDict content) && json_encodable (JDict content)
          then status_code else 500)
    /\ (json_compliant (JDict content) && json_encodable (JDict content) = true ->
        JSONResponse.content response = content).
Proof.
  intros Hlib. unfold JSONResponse_init.
  destruct (json_compliant (JDict content)); cbn [negb andb].
  - destruct (json_encodable (JDict content)); cbn [negb].
    + eexists. split; [reflexivity|]. split; [reflexivity | done].
    + rewrite except_clauses_fault; [|done|apply Hlib].
      eexists. split; [reflexivity|]. split; [reflexivity | done].
  - rewrite except_clauses_fault; [|done|reflexivity].
    eexists. split; [reflexivity|]. split; [reflexivity | done].
Qed.

(** The texts of a response that do not come from the request or from
    the executor are plain. *)
Ltac encode_literals :=
  repeat match goal with
         | |- context [utf8_encodable ?s] =>
             let b := eval vm_compute in (utf8_encodable s) in
             match b with
             | true => change (utf8_encodable s) with true
             end
         end.

Lemma trade_details_renders alert :
  json_compliant (trade_details alert) && json_encodable (trade_details alert)
  = alert_renders alert.
Proof.
  destruct alert as [symbol side order_type volume price ? ? ? ? ?].
  unfold alert_renders, trade_details.
  destruct side, order_type, volume as [v|], price as [p|];
    cbn -[utf8_encodable]; encode_literals;
    try destruct (float_is_finite v); try destruct (float_is_finite p);
    destruct (utf8_encodable symbol); reflexivity.
Qed.

Lemma webhook_content_renders alert trade_response :
  json_compliant (JDict (webhook_content alert trade_response))
  && json_encodable (JDict (webhook_content alert trade_response))
  = alert_renders alert
    && text_encodable (TradeResponse.order_id trade_response)
    && text_encodable (TradeResponse.error trade_response).
Proof.
  rewrite <- trade_details_renders.
  destruct trade_response as [success order_id error details].
  unfold webhook_content.
  generalize (trade_details alert). intros details_.
  destruct success, order_id as [order_id|], error as [error|];
    cbn -[utf8_encodable]; encode_literals;
    destruct (json_compliant details_), (json_encodable details_);
    cbn [andb]; rewrite ?andb_true_r, ?andb_false_r; try reflexivity;
    try destruct (utf8_encodable order_id); try destruct (utf8_encodable error);
    reflexivity.
Qed.

Lemma validation_content_renders alert trade_response :
  json_compliant (JDict (validation_content alert trade_response))
  && json_encodable (JDict (validation_content alert trade_response))
  = alert_renders alert && text_encodable (TradeResponse.error trade_response).
Proof.
  rewrite <- trade_details_renders.
  destruct trade_response as [success order_id error details].
  unfold validation_content.
  generalize (trade_details alert). intros details_.
  destruct success, error as [error|];
    cbn -[utf8_encodable]; encode_literals;
    destruct (json_compliant details_), (json_encodable details_);
    cbn [andb]; rewrite ?andb_true_r, ?andb_false_r; try reflexivity;
    try destruct (utf8_encodable error); reflexivity.
Qed.

(** X8. Once a request is processed, each endpoint calls the executor
    exactly once, the one to execute and the other to validate, and
    answers 200 when the executor reports success and 400 when it does
    not; but when the response cannot be rendered, because the volume
    or the price of the alert is not a finite number or because the
    symbol, the order id or the error of the executor holds a lone
    surrogate, the answer is 500, after the executor has been called.
    (The message of the encoding error is itself text that can be
    encoded.) *)
Theorem response_after_processing self request gateway alert trade_request :
  (forall content, utf8_encodable (encode_error_str content) = true) ->
  fst (process_request getenv cloud self request) = Ok (alert, trade_request) ->
  let served := run gateway (tradingview_webhook getenv cloud self request) in
  let dry_run := run gateway (validate_tradingview_webhook getenv cloud self request) in
  let executed := gateway (execute_trade trade_request) in
  let validated := gateway (validate_trade trade_request) in
  snd served = [execute_trade trade_request]
  /\ snd dry_run = [validate_trade trade_request]
  /\ (exists response,
        fst (fst served) = Ok response
        /\ JSONResponse.status_code response
           = if alert_renders alert
                && text_encodable (TradeResponse.order_id executed)
                && text_encodable (TradeResponse.error executed)
             then if TradeResponse.success executed then 200 else 400
             else 500)
  /\ (exists response,
        fst (fst dry_run) = Ok response
        /\ JSONResponse.status_code response
           = if alert_renders alert && text_encodable (TradeResponse.error validated)
             then if TradeResponse.success validated then 200 else 400
             else 500).
Proof.
  intros Hlib Hok. cbn zeta.
  destruct (endpoints_answer self request gateway alert trade_request Hok) as [-> ->].
  cbn [fst snd]. split; [done | split; [done|]].
  split.
  - destruct (endpoint_answer
                (webhook_content alert (gateway (execute_trade trade_request)))
                (status_of (gateway (execute_trade trade_request))) Hlib)
      as (response & -> & Hstatus & _).
    rewrite webhook_content_renders in Hstatus. by exists response.
  - destruct (endpoint_answer
                (validation_content alert (gateway (validate_trade trade_request)))
                (status_of (gateway (validate_trade trade_request))) Hlib)
      as (response & -> & Hstatus & _).
    rewrite validation_content_renders in Hstatus. by exists response.
Qed.

Lemma log_payload_raises p e :
  _log_payload p = Raise e -> forall s d, e <> HTTPException s d.
Proof.
  unfold _log_payload. destruct p as [kw|l| | | | |]; try congruence.
  destruct (existsb _ sensitive_fields); congruence.
Qed.

Lemma process_request_http_status self request status_code detail :
  (forall b s d, json_loads b <> Raise (HTTPException s d)) ->
  fst (process_request getenv cloud self request)
  = Raise (HTTPException status_code detail) ->
  status_code = 400 \/ status_code = 401.
Proof.
  intros Hlib.
  destruct (fst (_validate_signature getenv cloud self request)) as [[]|e] eqn:Hsig.
  - unfold process_request.
    destruct (_validate_signature getenv cloud self request) as [checked self'].
    cbn in Hsig. subst checked. cbn.
    destruct (json_loads (body request)) as [p|e] eqn:Hjson; cbn.
    + destruct (_log_payload p) as [[]|e] eqn:Hlog; cbn.
      * destruct p as [kw| | | | | |]; cbn; try congruence.
        destruct (TradingViewAlert_init kw) as [alert|e] eqn:Hinit; cbn.
        -- rewrite from_tradingview_alert_eq. cbn. congruence.
        -- rewrite (init_raise _ _ Hinit). cbn. intros [= <- _]. by left.
      * intros [= ->]. by destruct (log_payload_raises _ _ Hlog status_code detail).
    + destruct e; cbn; try congruence.
      * by destruct (Hlib (body request) status_code0 detail0).
      * intros [= <- _]. by left.
  - rewrite (process_request_unsigned getenv cloud self request e Hsig).
    destruct (signature_failure getenv cloud self request e Hsig) as [[d ->]| ->].
    + intros [= <- _]. by right.
    + congruence.
Qed.

Lemma app_endpoints_status config self request gateway :
  fst (app_tradingview_webhook getenv cloud config self request gateway)
  = respond config (fst (fst (run gateway (tradingview_webhook getenv cloud self request))))
  /\ fst (app_validate_tradingview_webhook getenv cloud config self request gateway)
     = respond config
         (fst (fst (run gateway (validate_tradingview_webhook getenv cloud self request)))).
Proof.
  unfold app_tradingview_webhook, app_validate_tradingview_webhook.
  destruct (run gateway (tradingview_webhook getenv cloud self request)) as [[r ?] ?].
  by destruct (run gateway (validate_tradingview_webhook getenv cloud self request))
    as [[r' ?] ?].
Qed.

(** A fault that an endpoint catches, or that escapes it, is answered
    with a 500. *)
Lemma respond_fault_status config e :
  (forall status_code detail, e <> HTTPException status_code detail) ->
  JSONResponse.status_code (respond config (except_clauses (Raise e))) = 500.
Proof.
  intros He.
  assert (forall content,
            JSONResponse.status_code
              (respond config (JSONResponse_init content HTTP_500_INTERNAL_SERVER_ERROR))
            = 500) as Hbuilt.
  { intros content. unfold JSONResponse_init.
    destruct (negb (json_compliant _)); [done|].
    by destruct (negb (json_encodable _)). }
  destruct e; cbn [except_clauses]; try apply Hbuilt.
  by destruct (He status_code detail).
Qed.

Lemma respond_answer_status config content status_code :
  JSONResponse.status_code
    (respond config (except_clauses (JSONResponse_init content status_code)))
  = status_code
  \/ JSONResponse.status_code
       (respond config (except_clauses (JSONResponse_init content status_code)))
     = 500.
Proof.
  unfold JSONResponse_init.
  destruct (negb (json_compliant _)); [right; by apply respond_fault_status|].
  destruct (negb (json_encodable _)); [right; by apply respond_fault_status|].
  by left.
Qed.

Lemma status_code_listed (status_code : Z) :
  status_code = 200 \/ status_code = 400 \/ status_code = 401 \/ status_code = 500 ->
  status_code ∈ [200; 400; 401; 500].
Proof.
  intros [->|[->|[->| ->]]];
    repeat first [apply list_elem_of_here | apply list_elem_of_further].
Qed.

(** X9. Whatever the request, the configuration and the executor, the
    two endpoints answer with one of the status codes 200, 400, 401 and
    500 (given that [json.loads] does not raise an [HTTPException]). *)
Theorem webhook_status_codes config self request gateway :
  (forall b s d, json_loads b <> Raise (HTTPException s d)) ->
  JSONResponse.status_code
    (fst (app_tradingview_webhook getenv cloud config self request gateway))
  ∈ [200; 400; 401; 500]
  /\ JSONResponse.status_code
       (fst (app_validate_tradingview_webhook getenv cloud config self request gateway))
     ∈ [200; 400; 401; 500].
Proof.
  intros Hlib.
  destruct (app_endpoints_status config self request gateway) as [-> ->].
  destruct (fst (process_request getenv cloud self request))
    as [[alert trade_request]|e] eqn:Hprocessed.
  - destruct (endpoints_answer self request gateway alert trade_request Hprocessed)
      as [-> ->].
    cbn [fst].
    assert (forall content trade_response,
              JSONResponse.status_code
                (respond config
                   (except_clauses
                      (JSONResponse_init content (status_of trade_response))))
              ∈ [200; 400; 401; 500]) as Hin.
    { intros content trade_response. apply status_code_listed.
      destruct (respond_answer_status config content (status_of trade_response))
        as [-> | ->]; [|by do 3 right].
      unfold status_of. destruct (TradeResponse.success trade_response); auto. }
    split; apply Hin.
  - destruct (endpoints_raise getenv cloud self request gateway e Hprocessed) as [-> ->].
    cbn [fst].
    assert (JSONResponse.status_code (respond config (except_clauses (Raise e)))
            ∈ [200; 400; 401; 500]) as Hin.
    { apply status_code_listed.
      destruct e; try (do 3 right; by apply respond_fault_status).
      cbn.
      destruct (process_request_http_status self request _ _ Hlib Hprocessed)
        as [-> | ->]; auto. }
    done.
Qed.

(** X10. The processor reads the webhook secret once: when it has found
    one, later requests are checked against it whatever the environment
    and Secret Manager then hold; when it has found none, every request
    looks it up again. *)
Theorem webhook_secret_is_cached self request :
  let self' := snd (process_request getenv cloud self request) in
  (forall key, fst (_get_webhook_secret getenv cloud self) = Some key ->
     forall getenv' cloud',
       fst (_get_webhook_secret getenv' cloud' self') = Some key)
  /\ (fst (_get_webhook_secret getenv cloud self) = None ->
      forall getenv' cloud',
        fst (_get_webhook_secret getenv' cloud' self')
        = get_webhook_secret getenv' cloud').
Proof.
  cbn zeta.
  assert (snd (process_request getenv cloud self request)
          = snd (_get_webhook_secret getenv cloud self)) as ->.
  { unfold process_request, _validate_signature.
    destruct (_get_webhook_secret getenv cloud self) as [[[|c key]|] self'];
      cbn; try done.
    by destruct (headers_get (headers request) "X-Signature") as [[|c0 s0]|]. }
  unfold _get_webhook_secret.
  destruct self as [[cached|]]; cbn.
  - split; [by intros key [= <-] | done].
  - split.
    + by intros key ->.
    + by intros ->.
Qed.
End ProcessingMore.

(** ** Configuration and secrets *)

Section ConfigurationFacts.
Context `{lib : PyLib}.
Variable str_lower : string -> string.
Variable getenv : string -> option string.

(** X11. A configuration that loads in production has the two Kraken
    credentials and the webhook secret in its environment, and a fresh
    processor in that environment refuses every request without an
    [X-Signature] header with 401. *)
Theorem production_requires_signatures config :
  Config_init str_lower getenv = Ok config ->
  Config.is_production config = true ->
  truthy (getenv "KRAKEN_API_KEY") = true
  /\ truthy (getenv "KRAKEN_API_SECRET") = true
  /\ truthy (getenv "WEBHOOK_SECRET") = true
  /\ forall cloud request,
       truthy (headers_get (headers request) "X-Signature") = false ->
       fst (_validate_signature getenv cloud PayloadProcessor.init request)
       = Raise (HTTPException 401 "Missing signature header").
Proof.
  unfold Config_init.
  destruct (Environment_of_value _) as [environment|e]; cbn; [|done].
  destruct (Config._validate_config _) as [[]|e] eqn:Hvalid; cbn; [|done].
  intros [= <-] Hproduction.
  unfold Config.is_production in Hproduction. cbn in Hproduction.
  apply bool_decide_eq_true in Hproduction. subst environment.
  unfold Config._validate_config in Hvalid. cbn in Hvalid.
  destruct (truthy (getenv "KRAKEN_API_KEY")) eqn:Hkey; [|done].
  destruct (truthy (getenv "KRAKEN_API_SECRET")) eqn:Hsecret; [|done].
  destruct (truthy (getenv "WEBHOOK_SECRET")) eqn:Hwebhook; [|done].
  repeat split.
  intros cloud request Hheader.
  unfold _validate_signature, _get_webhook_secret, get_webhook_secret, get_secret.
  cbn. rewrite Hwebhook.
  destruct (getenv "WEBHOOK_SECRET") as [[|c key]|]; try done. cbn.
  by destruct (headers_get (headers request) "X-Signature") as [[|c0 s0]|].
Qed.
End ConfigurationFacts.

(** X12. [SecretManager.get_secret] returns the environment variable
    when it is set and not empty; otherwise the default when there is no
    project, no library or no client; otherwise what Secret Manager holds
    under [projects/<id>/secrets/<name>/versions/latest], and the default
    when that lookup raises.  It agrees with the function [get_secret]
    over what Secret Manager holds. *)
Theorem secret_lookup_order getenv config available new_client secret_name default :
  let self := SecretManager.init available config new_client in
  let found := SecretManager.get_secret getenv config self secret_name default in
  (truthy (getenv secret_name) = true -> found = getenv secret_name)
  /\ (truthy (getenv secret_name) = false ->
      truthy (Config.gcp_project_id config) = false \/ available = false
      \/ (exists e, new_client = Raise e) ->
      found = default)
  /\ (truthy (getenv secret_name) = false ->
      forall client project,
        available = true -> new_client = Ok client ->
        Config.gcp_project_id config = Some project -> project <> "" ->
        found = match client (SecretManager.secret_path project secret_name) with
                | Ok secret_value => Some secret_value
                | Raise _ => default
                end)
  /\ found = get_secret getenv (SecretManager.cloud config self) secret_name default.
Proof.
  cbn zeta. unfold SecretManager.get_secret, SecretManager.init, get_secret,
    SecretManager.cloud.
  destruct (truthy (getenv secret_name)) eqn:Henv.
  - repeat split; done.
  - split; [done | split; [|split]].
    + intros _ [Hproject | [-> | [e ->]]].
      * rewrite Hproject, andb_false_r. cbn.
        by destruct (Config.gcp_project_id config) as [[|c p]|].
      * done.
      * by destruct (available && _).
    + intros _ client project -> -> -> Hproject.
      destruct project as [|c p]; [done|]. reflexivity.
    + destruct (available && _); [destruct new_client as [client|e]|]; cbn; try done.
      destruct (Config.gcp_project_id config) as [[|c p]|]; try done.
      by destruct (client _).
Qed.

(** X13. [Config.as_dict] shows of each secret only whether it is set:
    two configurations that differ in the values of their secrets alone
    have the same dictionary. *)
Theorem as_dict_hides_secrets c1 c2 log_level :
  Config.environment c1 = Config.environment c2 ->
  Config.gcp_project_id c1 = Config.gcp_project_id c2 ->
  truthy (Config.kraken_api_key c1) = truthy (Config.kraken_api_key c2) ->
  truthy (Config.kraken_api_secret c1) = truthy (Config.kraken_api_secret c2) ->
  truthy (Config.webhook_secret c1) = truthy (Config.webhook_secret c2) ->
  as_dict c1 log_level = as_dict c2 log_level.
Proof.
  unfold as_dict, mask. by intros -> -> -> -> ->.
Qed.

(** ** The payload that is logged *)

Lemma mask_fields_lookup (fields : list string) (payload_ : gmap string json) k :
  foldl (fun masked field =>
           if bool_decide (is_Some (masked !! field))
           then <[field := JStr "***"]> masked
           else masked) payload_ fields !! k
  = if bool_decide (k ∈ fields) then (fun _ => JStr "***") <$> payload_ !! k
    else payload_ !! k.
Proof.
  revert payload_. induction fields as [|field fields IH]; intros payload_; [done|].
  cbn [foldl]. rewrite IH. clear IH.
  destruct (decide (k = field)) as [->|Hne].
  - rewrite (bool_decide_eq_true_2 (field ∈ field :: fields)) by apply list_elem_of_here.
    destruct (payload_ !! field) as [v|] eqn:Hv.
    + rewrite (bool_decide_eq_true_2 (is_Some (Some v))) by by eexists.
      rewrite lookup_insert_eq. by case_bool_decide.
    + rewrite (bool_decide_eq_false_2 (is_Some None)) by by intros [? [=]].
      rewrite Hv. by case_bool_decide.
  - assert ((if bool_decide (is_Some (payload_ !! field))
             then <[field := JStr "***"]> payload_ else payload_) !! k
            = payload_ !! k) as ->.
    { case_bool_decide; [by rewrite lookup_insert_ne | done]. }
    destruct (decide (k ∈ fields)) as [Hin|Hnin].
    + rewrite bool_decide_eq_true_2 by done.
      by rewrite bool_decide_eq_true_2 by (by apply list_elem_of_further).
    + rewrite bool_decide_eq_false_2 by done.
      rewrite bool_decide_eq_false_2; [done|].
      by intros [?|?]%elem_of_cons.
Qed.

(** X14. The payload that is logged has the keys of the payload; under a
    sensitive key it has ["***"], under any other key the value of the
    payload; and masking it again changes nothing. *)
Theorem masked_payload_lookup (payload_ : gmap string json) k :
  masked_payload payload_ !! k
  = (if bool_decide (k ∈ sensitive_fields) then (fun _ => JStr "***") <$> payload_ !! k
     else payload_ !! k)
  /\ dom (masked_payload payload_) = dom payload_
  /\ masked_payload (masked_payload payload_) = masked_payload payload_.
Proof.
  assert (forall p k', masked_payload p !! k'
            = if bool_decide (k' ∈ sensitive_fields)
              then (fun _ => JStr "***") <$> p !! k' else p !! k') as Hlookup.
  { intros p k'. apply mask_fields_lookup. }
  split; [apply Hlookup | split].
  - apply set_eq. intros k'. rewrite !elem_of_dom, Hlookup.
    case_bool_decide; [|done]. by rewrite fmap_is_Some.
  - apply map_eq. intros k'. rewrite !Hlookup.
    case_bool_decide; [|done]. by destruct (payload_ !! k').
Qed.

(** ** The executor *)

Section ExecutorFacts.
Context `{lib : PyLib}.

(** Within the cooldown an executor that is not initialized is not ready,
    unchanged, and has made no query. *)
Lemma ready_in_cooldown kraken now credentials self :
  KrakenExecutor._initialized self = false ->
  in_cooldown self now = true ->
  KrakenExecutor._initialize kraken now credentials self = (false, self, [])
  /\ KrakenExecutor.ready kraken now credentials self = (false, self, []).
Proof.
  unfold in_cooldown. intros Hinit Hcool.
  unfold KrakenExecutor.ready, KrakenExecutor._initialize.
  by rewrite Hcool, Hinit.
Qed.

(** X15. Within the cooldown after an attempt, an executor that is not
    initialized makes no query: [_initialize] fails, trades are answered
    "Failed to initialize Kraken API" with [retry_after], open orders are
    empty, and the executor is unchanged, so the cooldown is not
    extended. *)
Theorem cooldown_skips_initialization kraken now credentials self trade_request :
  KrakenExecutor._initialized self = false ->
  in_cooldown self now = true ->
  KrakenExecutor._initialize kraken now credentials self = (false, self, [])
  /\ KrakenExecutor.execute_trade kraken now credentials self trade_request
     = (not_ready self, self, [])
  /\ KrakenExecutor.validate_trade kraken now credentials self trade_request
     = (not_ready self, self, [])
  /\ KrakenExecutor.get_open_orders kraken now credentials self = ([], self, []).
Proof.
  intros Hinit Hcool.
  destruct (ready_in_cooldown kraken now credentials self Hinit Hcool)
    as [Hskip Hready].
  unfold KrakenExecutor.validate_trade, KrakenExecutor.execute_trade,
    KrakenExecutor.get_open_orders.
  by rewrite Hskip, Hready.
Qed.

(** What an attempt to initialize outside the cooldown leaves behind. *)
Lemma initialize_attempt kraken now credentials self :
  in_cooldown self now && negb (KrakenExecutor._initialized self) = false ->
  match KrakenExecutor._initialize kraken now credentials self with
  | (ok, self', calls) =>
      KrakenExecutor._last_init_attempt self' = now
      /\ KrakenExecutor._init_cooldown self' = KrakenExecutor._init_cooldown self
      /\ (calls = [] \/ calls = [CallTime])
      /\ (ok = true ->
          KrakenExecutor._initialized self' = true /\ KrakenExecutor._k self' = true)
      /\ (ok = false -> KrakenExecutor._initialized self = false ->
          KrakenExecutor._initialized self' = false)
      /\ (KrakenExecutor._k self = true -> KrakenExecutor._k self' = true)
  end.
Proof.
  unfold in_cooldown, KrakenExecutor._initialize. intros ->.
  destruct credentials as [[[|c1 k1]|] [[|c2 k2]|]];
    try (cbn; repeat split; try done; by left).
  destruct (krakenex_API kraken _ _);
    [|cbn; repeat split; try done; by left].
  destruct (KrakenAPI kraken);
    [|cbn; repeat split; try done; by left].
  destruct (query_public_Time kraken) as [server_time|];
    [|cbn; repeat split; try done; by right].
  destruct (has_error server_time); cbn; repeat split; try done; by right.
Qed.

(** X16. A failed attempt to initialize outside the cooldown records
    its time, and a trade less than the cooldown later is refused without
    a query, whatever the exchange and the credentials are by then. *)
Theorem failed_initialization_starts_cooldown
    kraken now credentials self kraken' later credentials' trade_request :
  let self' := snd (fst (KrakenExecutor._initialize kraken now credentials self)) in
  KrakenExecutor._initialized self = false ->
  in_cooldown self now = false ->
  fst (fst (KrakenExecutor._initialize kraken now credentials self)) = false ->
  float_lt_int (float_sub later now) (KrakenExecutor._init_cooldown self) = true ->
  KrakenExecutor._initialized self' = false
  /\ KrakenExecutor._last_init_attempt self' = now
  /\ KrakenExecutor.execute_trade kraken' later credentials' self' trade_request
     = (not_ready self', self', []).
Proof.
  intros self' Hinit Hcool Hfailed Hlater.
  pose proof (initialize_attempt kraken now credentials self) as Hattempt.
  rewrite Hcool in Hattempt. specialize (Hattempt eq_refl).
  subst self'.
  destruct (KrakenExecutor._initialize kraken now credentials self)
    as [[ok self'] calls].
  cbn in *. subst ok.
  destruct Hattempt as (Hlast & Hcooldown & _ & _ & Hstill & _).
  specialize (Hstill eq_refl Hinit).
  split; [done | split; [done|]].
  assert (in_cooldown self' later = true) as Hcool'.
  { unfold in_cooldown. by rewrite Hlast, Hcooldown. }
  unfold KrakenExecutor.execute_trade.
  by rewrite (proj2 (ready_in_cooldown kraken' later credentials' self' Hstill Hcool')).
Qed.

(** The executor is ready without a query when it is initialized, and
    otherwise after an attempt to initialize. *)
Lemma ready_cases kraken now credentials self :
  executor_ok self ->
  match KrakenExecutor.ready kraken now credentials self with
  | (ok, self', calls) =>
      executor_ok self'
      /\ (calls = [] \/ calls = [CallTime])
      /\ (ok = true -> KrakenExecutor._k self' = true)
      /\ (KrakenExecutor._initialized self = true ->
          ok = true /\ self' = self /\ calls = [])
  end.
Proof.
  intros [Hk Hcooldown]. unfold KrakenExecutor.ready.
  destruct (KrakenExecutor._initialized self) eqn:Hinit.
  { repeat split; auto. }
  unfold KrakenExecutor._initialize. rewrite Hinit.
  destruct (float_lt_int _ _); cbn [andb negb].
  { repeat split; auto; congruence. }
  unfold executor_ok.
  destruct credentials as [[[|c1 k1]|] [[|c2 k2]|]];
    try (cbn; repeat split; auto; congruence).
  destruct (krakenex_API kraken _ _);
    [|cbn; repeat split; auto; congruence].
  destruct (KrakenAPI kraken);
    [|cbn; repeat split; auto; congruence].
  destruct (query_public_Time kraken) as [server_time|];
    [|cbn; repeat split; auto; congruence].
  destruct (has_error server_time); cbn; repeat split; auto; congruence.
Qed.

(** X17. [execute_trade] asks the exchange for the time at most once
    and places at most one order, with the parameters of the request
    without its empty fields; it places none only when it answers that
    the API failed to initialize; an executor that is initialized places
    the order without asking the time and is left unchanged. *)
Theorem execute_trade_queries kraken now credentials self trade_request :
  executor_ok self ->
  let params := dict_exclude_none trade_request in
  match KrakenExecutor.execute_trade kraken now credentials self trade_request with
  | (trade_response, self', calls) =>
      executor_ok self'
      /\ (calls = [] \/ calls = [CallTime] \/ calls = [CallAddOrder params]
          \/ calls = [CallTime; CallAddOrder params])
      /\ (CallAddOrder params ∈ calls \/ trade_response = not_ready self')
      /\ (KrakenExecutor._initialized self = true ->
          calls = [CallAddOrder params] /\ self' = self)
  end.
Proof.
  intros Hok. cbn zeta. unfold KrakenExecutor.execute_trade.
  pose proof (ready_cases kraken now credentials self Hok) as Hready.
  destruct (KrakenExecutor.ready kraken now credentials self) as [[ok self'] calls].
  destruct Hready as (Hok' & Hcalls & Hk & Hinit).
  destruct ok; cbn [negb].
  - rewrite (Hk eq_refl). split; [done|]. split; [|split].
    + destruct Hcalls as [-> | ->]; cbn; auto.
    + left. apply elem_of_app. right. apply list_elem_of_here.
    + intros Hi. destruct (Hinit Hi) as (_ & -> & ->). done.
  - split; [done|]. split; [|split].
    + destruct Hcalls as [-> | ->]; auto.
    + by right.
    + intros Hi. by destruct (Hinit Hi).
Qed.

(** What holds of an error response: a failure, with an error and no
    order id. *)
Ltac error_response_case :=
  cbn; split; [split; [done | by intros [? [=]]] |];
  split; [split; [eauto | done] | done].

(** X18. A response of [execute_trade] is a success exactly when it has
    an order id, and a failure exactly when it has an error; it is a
    success only when the exchange answered the order without errors and
    with transaction ids, and the order id is the first of them. *)
Theorem execute_trade_success kraken now credentials self trade_request :
  let trade_response :=
    fst (fst (KrakenExecutor.execute_trade kraken now credentials self trade_request)) in
  (TradeResponse.success trade_response = true
   <-> is_Some (TradeResponse.order_id trade_response))
  /\ (TradeResponse.success trade_response = false
      <-> is_Some (TradeResponse.error trade_response))
  /\ (TradeResponse.success trade_response = true ->
      exists result order_id order_ids result_json,
        query_private_AddOrder kraken (dict_exclude_none trade_request) = Ok result
        /\ has_error result = false
        /\ result_ result = Some (Some (order_id :: order_ids), result_json)
        /\ TradeResponse.order_id trade_response = Some order_id).
Proof.
  cbn zeta. unfold KrakenExecutor.execute_trade.
  destruct (KrakenExecutor.ready kraken now credentials self) as [[ok self'] calls].
  destruct ok; cbn [negb]; [|error_response_case].
  destruct (KrakenExecutor._k self'); cbn [fst]; [|error_response_case].
  destruct (query_private_AddOrder kraken _) as [result|e] eqn:Hquery;
    [|error_response_case].
  destruct (has_error result) eqn:Herror; [error_response_case|].
  destruct (result_ result) as [[[[|order_id order_ids]|] result_json]|] eqn:Hresult;
    try error_response_case.
  cbn. split; [|split].
  - split; eauto.
  - split; [done | by intros [? [=]]].
  - intros _. by exists result, order_id, order_ids, result_json.
Qed.

(** X19. [get_open_orders] returns no order, or one order for each open
    order of the reply, in order, each with the data of the exchange and
    its id under [order_id] (which replaces a key [order_id] of the
    data). *)
Theorem open_orders_listing kraken now credentials self :
  let orders := fst (fst (KrakenExecutor.get_open_orders kraken now credentials self)) in
  orders = []
  \/ exists result open result_json,
       query_private_OpenOrders kraken = Ok result
       /\ has_error result = false
       /\ result_ result = Some (Some open, result_json)
       /\ length orders = length open
       /\ forall i order_id order_data,
            open !! i = Some (order_id, order_data) ->
            exists order,
              orders !! i = Some order
              /\ order !! "order_id" = Some (JStr order_id)
              /\ forall k, k <> "order_id" -> order !! k = order_data !! k.
Proof.
  cbn zeta. unfold KrakenExecutor.get_open_orders.
  destruct (KrakenExecutor.ready kraken now credentials self) as [[ok self'] calls].
  destruct ok; cbn [negb fst]; [|by left].
  destruct (KrakenExecutor._k self'); cbn [fst]; [|by left].
  destruct (query_private_OpenOrders kraken) as [result|e] eqn:Hquery; [|by left].
  destruct (has_error result) eqn:Herror; [by left|].
  destruct (result_ result) as [[[open|] result_json]|] eqn:Hresult; try by left.
  right. exists result, open, result_json.
  repeat split; try done.
  - by rewrite length_map.
  - intros i order_id order_data Hi.
    exists (<["order_id" := JStr order_id]> order_data).
    rewrite list_lookup_fmap, Hi. cbn.
    split; [done|]. split; [apply lookup_insert_eq|].
    intros k Hk. by rewrite lookup_insert_ne.
Qed.

Lemma dict_exclude_none_validate r :
  dict_exclude_none r !! "validate" = ParamBool <$> TradeRequest.validate r.
Proof.
  destruct r as [pair_ type_ ordertype volume price price2 leverage starttm expiretm
                   validate oflags userref].
  unfold dict_exclude_none.
  cbn [TradeRequest.pair TradeRequest.type TradeRequest.ordertype
       TradeRequest.volume TradeRequest.price TradeRequest.price2
       TradeRequest.leverage TradeRequest.starttm TradeRequest.expiretm
       TradeRequest.validate TradeRequest.oflags TradeRequest.userref].
  destruct volume, price, price2, leverage, starttm, expiretm, validate, oflags,
    userref; vm_compute; reflexivity.
Qed.

Lemma ready_only_asks_the_time kraken now credentials self c :
  c ∈ snd (KrakenExecutor.ready kraken now credentials self) -> c = CallTime.
Proof.
  unfold KrakenExecutor.ready, KrakenExecutor._initialize.
  destruct (KrakenExecutor._initialized self); [by intros ?%elem_of_nil|].
  destruct (float_lt_int _ _ && _); [by intros ?%elem_of_nil|].
  destruct credentials as [[[|c1 k1]|] [[|c2 k2]|]];
    try by intros ?%elem_of_nil.
  destruct (krakenex_API kraken _ _); [|by intros ?%elem_of_nil].
  destruct (KrakenAPI kraken); [|by intros ?%elem_of_nil].
  destruct (query_public_Time kraken) as [server_time|];
    [destruct (has_error server_time)|]; cbn;
    by intros ->%list_elem_of_singleton.
Qed.

Lemma execute_trade_orders kraken now credentials self trade_request params :
  CallAddOrder params
  ∈ snd (KrakenExecutor.execute_trade kraken now credentials self trade_request) ->
  params = dict_exclude_none trade_request.
Proof.
  unfold KrakenExecutor.execute_trade.
  pose proof (ready_only_asks_the_time kraken now credentials self (CallAddOrder params))
    as Htime.
  destruct (KrakenExecutor.ready kraken now credentials self) as [[ok self'] calls].
  cbn in Htime.
  destruct ok; cbn [negb]; [|cbn; intros Hin; by specialize (Htime Hin)].
  destruct (KrakenExecutor._k self'); cbn [snd];
    rewrite elem_of_app; intros [Hin|Hin]; try by specialize (Htime Hin).
  - apply list_elem_of_singleton in Hin. congruence.
  - by apply elem_of_nil in Hin.
Qed.

(** X20. Every order that the validate endpoint sends to the exchange
    has [validate] set, every order that the webhook endpoint sends has
    no [validate] parameter, and a request that is not processed sends
    nothing to the exchange, not even the query of the time. *)
Theorem dry_run_never_places_an_order
    getenv cloud kraken now credentials self executor request :
  let live := run_executor kraken now credentials executor
                (tradingview_webhook getenv cloud self request) in
  let dry_run := run_executor kraken now credentials executor
                   (validate_tradingview_webhook getenv cloud self request) in
  (forall params, CallAddOrder params ∈ snd dry_run ->
     params !! "validate" = Some (ParamBool true))
  /\ (forall params, CallAddOrder params ∈ snd live -> params !! "validate" = None)
  /\ (forall e, fst (process_request getenv cloud self request) = Raise e ->
        snd live = [] /\ snd dry_run = []).
Proof.
  cbn zeta. unfold tradingview_webhook, validate_tradingview_webhook.
  pose proof (process_request_ok getenv cloud self request) as Hprocessed.
  destruct (process_request getenv cloud self request)
    as [[[alert trade_request]|e] self'].
  - destruct (Hprocessed alert trade_request eq_refl)
      as (_ & kw & _ & _ & Htranslated).
    assert (TradeRequest.validate trade_request = None) as Hflag.
    { rewrite from_tradingview_alert_eq in Htranslated. by injection Htranslated as <-. }
    cbn [run_executor]. split; [|split; [|done]].
    + intros params.
      unfold KrakenExecutor.validate_trade.
      destruct (KrakenExecutor.execute_trade _ _ _ _ _) as [[r ex] made] eqn:Hmade.
      cbn. rewrite app_nil_r. intros Hin.
      rewrite (execute_trade_orders kraken now credentials executor
                 (set_validate trade_request (Some true)) params)
        by by rewrite Hmade.
      by rewrite dict_exclude_none_validate.
    + intros params.
      destruct (KrakenExecutor.execute_trade _ _ _ _ _) as [[r ex] made] eqn:Hmade.
      cbn. rewrite app_nil_r. intros Hin.
      rewrite (execute_trade_orders kraken now credentials executor
                 trade_request params) by by rewrite Hmade.
      by rewrite dict_exclude_none_validate, Hflag.
  - cbn. split; [|split]; try done; by intros ? ?%elem_of_nil.
Qed.
End ExecutorFacts.

(** ** The test client *)

Lemma list_ascii_of_string_app s t :
  list_ascii_of_string (s ++ t) = (list_ascii_of_string s ++ list_ascii_of_string t)%list.
Proof.
  induction s as [|c s IH]; [done|].
  change (c :: list_ascii_of_string (s ++ t)
          = c :: (list_ascii_of_string s ++ list_ascii_of_string t)%list).
  by rewrite IH.
Qed.

Lemma endswith_app s suffix : endswith (s ++ suffix) suffix = true.
Proof.
  unfold endswith. apply bool_decide_eq_true.
  rewrite list_ascii_of_string_app. by apply suffix_app_r.
Qed.

Section ScriptFacts.
Context `{laws : PyLibLaws}.
Variable json_dumps : json -> string.
Variable requests_allow_nan : bool.



(** X23. With [validate_only], the test client posts to a URL that ends
    in [/validate], appending it only when the URL does not end in it
    already; without, to the URL it was given. *)
Theorem validate_url_suffix url payload_ secret validate_only url' request :
  send_webhook json_dumps requests_allow_nan url payload_ secret validate_only
  = Some (url', request) ->
  (validate_only = false -> url' = url)
  /\ (validate_only = true ->
      endswith url' "/validate" = true
      /\ (endswith url "/validate" = true -> url' = url)
      /\ (endswith url "/validate" = false -> url' = url ++ "/validate")).
Proof.
  unfold send_webhook.
  destruct (requests_allow_nan || json_compliant payload_); [|done].
  intros [= <- _]. split.
  - by intros ->.
  - intros ->. destruct (endswith url "/validate") eqn:Hends; cbn.
    + by rewrite Hends.
    + by rewrite endswith_app.
Qed.
End ScriptFacts.

(** ** The executor, its credentials and the endpoints *)

Section ExecutorMore.
Context `{lib : PyLib}.

(** Within the cooldown a trade is refused without a query. *)
Lemma execute_trade_in_cooldown kraken now credentials self trade_request :
  KrakenExecutor._initialized self = false ->
  in_cooldown self now = true ->
  KrakenExecutor.execute_trade kraken now credentials self trade_request
  = (not_ready self, self, []).
Proof.
  intros Hinit Hcool. unfold KrakenExecutor.execute_trade.
  by rewrite (proj2 (ready_in_cooldown kraken now credentials self Hinit Hcool)).
Qed.

(** X24. Without a key or without a secret for the exchange (an empty one
    counts as none), an executor that is not initialized never contacts
    the exchange: a trade is answered "Failed to initialize Kraken API"
    and the executor stays uninitialized; outside the cooldown the
    attempt still counts, and starts a new cooldown. *)
Theorem missing_credentials_make_no_query
    kraken now getenv config manager self trade_request :
  let credentials := SecretManager.get_kraken_credentials getenv config manager in
  let outcome :=
    KrakenExecutor.execute_trade kraken now credentials self trade_request in
  truthy (SecretManager.get_secret getenv config manager "KRAKEN_API_KEY" None)
  && truthy (SecretManager.get_secret getenv config manager "KRAKEN_API_SECRET" None)
  = false ->
  KrakenExecutor._initialized self = false ->
  snd outcome = []
  /\ fst (fst outcome) = not_ready self
  /\ KrakenExecutor._initialized (snd (fst outcome)) = false
  /\ KrakenExecutor._last_init_attempt (snd (fst outcome))
     = if in_cooldown self now then KrakenExecutor._last_init_attempt self else now.
Proof.
  cbn zeta. unfold SecretManager.get_kraken_credentials.
  intros Hmissing Hinit.
  unfold KrakenExecutor.execute_trade, KrakenExecutor.ready,
    KrakenExecutor._initialize, in_cooldown, not_ready.
  rewrite Hinit. cbn [negb]. rewrite andb_true_r.
  destruct (float_lt_int _ _); [done|].
  destruct (SecretManager.get_secret getenv config manager "KRAKEN_API_KEY" None)
    as [[|c1 k1]|];
    destruct (SecretManager.get_secret getenv config manager "KRAKEN_API_SECRET" None)
      as [[|c2 k2]|]; done.
Qed.

(** What [parse_balance] returns holds what it was given and the amounts
    parsed, and has a key for every item. *)
Lemma parse_balance_ok float_of_str items balance parsed :
  KrakenExecutor.parse_balance float_of_str items balance = Ok parsed ->
  (forall k amount, parsed !! k = Some amount ->
     balance !! k = Some amount
     \/ exists v, (k, v) ∈ items /\ float_of_str v = Ok amount)
  /\ (forall k v, (k, v) ∈ items -> is_Some (parsed !! k))
  /\ (forall k, is_Some (balance !! k) -> is_Some (parsed !! k)).
Proof.
  revert balance. induction items as [|[k0 v0] items IH]; intros balance; cbn.
  - intros [= <-]. split; [by left | split; [by intros ? ? ?%elem_of_nil | done]].
  - destruct (float_of_str v0) as [amount0|e] eqn:Hparse; cbn; [|done].
    intros Hrest. destruct (IH _ Hrest) as (Hvalues & Hitems & Hkept).
    split; [|split].
    + intros k amount Hk. destruct (Hvalues k amount Hk) as [Hbalance | (v & Hin & Hv)].
      * destruct (decide (k = k0)) as [->|Hne].
        -- rewrite lookup_insert_eq in Hbalance. injection Hbalance as <-.
           right. exists v0. split; [apply list_elem_of_here | done].
        -- rewrite lookup_insert_ne in Hbalance by done. by left.
      * right. exists v. split; [by apply list_elem_of_further | done].
    + intros k v [[= -> ->]|Hin]%elem_of_cons.
      * apply Hkept. rewrite lookup_insert_eq. by eexists.
      * by eapply Hitems.
    + intros k Hk. apply Hkept.
      destruct (decide (k = k0)) as [->|Hne].
      * rewrite lookup_insert_eq. by eexists.
      * by rewrite lookup_insert_ne.
Qed.

Lemma parse_balance_raise float_of_str items balance k v e :
  (k, v) ∈ items -> float_of_str v = Raise e ->
  exists e', KrakenExecutor.parse_balance float_of_str items balance = Raise e'.
Proof.
  revert balance. induction items as [|[k0 v0] items IH]; intros balance.
  - by intros ?%elem_of_nil.
  - intros [[= <- <-]|Hin]%elem_of_cons Hraise; cbn.
    + rewrite Hraise. by eexists.
    + destruct (float_of_str v0); cbn; [by apply IH | by eexists].
Qed.

(** X25. Every balance that [get_account_balance] returns is an amount
    of the reply of the exchange, parsed; one amount that does not parse
    makes the whole balance empty; and an initialized executor whose
    reply has no errors and only amounts that parse returns a balance for
    every asset of the reply. *)
Theorem account_balance_all_or_nothing kraken now credentials float_of_str self :
  let balance :=
    fst (fst (KrakenExecutor.get_account_balance kraken now credentials
                float_of_str self)) in
  (forall k amount, balance !! k = Some amount ->
     exists result items result_json v,
       query_private_Balance kraken = Ok result
       /\ has_error result = false
       /\ result_ result = Some (items, result_json)
       /\ (k, v) ∈ items /\ float_of_str v = Ok amount)
  /\ (forall result items result_json k v e,
        query_private_Balance kraken = Ok result ->
        result_ result = Some (items, result_json) ->
        (k, v) ∈ items -> float_of_str v = Raise e ->
        balance = ∅)
  /\ (forall result items result_json,
        executor_ok self -> KrakenExecutor._initialized self = true ->
        query_private_Balance kraken = Ok result ->
        has_error result = false ->
        result_ result = Some (items, result_json) ->
        (forall k v, (k, v) ∈ items -> is_ok (float_of_str v) = true) ->
        forall k v, (k, v) ∈ items -> is_Some (balance !! k)).
Proof.
  cbn zeta. unfold KrakenExecutor.get_account_balance, KrakenExecutor.ready.
  split; [|split].
  - intros k amount.
    destruct (if KrakenExecutor._initialized self then _ else _) as [[ok self'] calls].
    destruct ok; cbn [negb fst]; [|by rewrite lookup_empty].
    destruct (KrakenExecutor._k self'); cbn [fst]; [|by rewrite lookup_empty].
    destruct (query_private_Balance kraken) as [result|e]; [|by rewrite lookup_empty].
    destruct (has_error result) eqn:Herror; [by rewrite lookup_empty|].
    destruct (result_ result) as [[items result_json]|] eqn:Hresult;
      [|by rewrite lookup_empty].
    destruct (KrakenExecutor.parse_balance float_of_str items ∅) as [parsed|e]
      eqn:Hparsed; [|by rewrite lookup_empty].
    intros Hk. destruct (parse_balance_ok _ _ _ _ Hparsed) as (Hvalues & _ & _).
    destruct (Hvalues k amount Hk) as [Hempty | (v & Hin & Hv)];
      [by rewrite lookup_empty in Hempty|].
    by exists result, items, result_json, v.
  - intros result items result_json k v e Hquery Hresult Hin Hraise.
    destruct (if KrakenExecutor._initialized self then _ else _) as [[ok self'] calls].
    destruct ok; cbn [negb fst]; [|done].
    destruct (KrakenExecutor._k self'); cbn [fst]; [|done].
    rewrite Hquery, Hresult.
    destruct (has_error result); [done|].
    by destruct (parse_balance_raise float_of_str items ∅ k v e Hin Hraise) as [e' ->].
  - intros result items result_json [Hk _] Hinit Hquery Herror Hresult Hparse k v Hin.
    rewrite Hinit. cbn [negb fst]. rewrite (Hk Hinit). cbn [fst].
    rewrite Hquery, Herror, Hresult.
    destruct (KrakenExecutor.parse_balance float_of_str items ∅) as [parsed|e]
      eqn:Hparsed.
    + destruct (parse_balance_ok _ _ _ _ Hparsed) as (_ & Hitems & _).
      by eapply Hitems.
    + exfalso. clear k v Hin.
      assert (forall balance,
                KrakenExecutor.parse_balance float_of_str items balance <> Raise e)
        as Hnever; [|by destruct (Hnever ∅)].
      clear Hparsed Hresult. induction items as [|[k0 v0] items IH]; intros balance.
      * done.
      * cbn. specialize (Hparse k0 v0 ltac:(apply list_elem_of_here)) as Hv0.
        destruct (float_of_str v0); [|done]. cbn. apply IH.
        intros k v Hin. apply (Hparse k v). by apply list_elem_of_further.
Qed.

(** X26. When a request is processed but the executor is not
    initialized and within its cooldown, nothing is sent to the exchange
    and the executor is unchanged.  Both endpoints answer 400 with the
    error "Failed to initialize Kraken API" when what the response shows
    of the alert can be rendered (a finite volume and price, a symbol
    without a lone surrogate), and 500 when it cannot.  (The message of
    the encoding error is itself text that can be encoded.) *)
Theorem unready_executor_sends_nothing
    getenv cloud kraken now credentials self executor request alert trade_request :
  (forall content, utf8_encodable (encode_error_str content) = true) ->
  fst (process_request getenv cloud self request) = Ok (alert, trade_request) ->
  KrakenExecutor._initialized executor = false ->
  in_cooldown executor now = true ->
  forall endpoint,
    endpoint = tradingview_webhook getenv cloud self request
    \/ endpoint = validate_tradingview_webhook getenv cloud self request ->
    exists response,
      run_executor kraken now credentials executor endpoint
      = (Ok response, snd (process_request getenv cloud self request), executor, [])
      /\ JSONResponse.status_code response = (if alert_renders alert then 400 else 500)
      /\ (alert_renders alert = true ->
          ("success", JBool false) ∈ JSONResponse.content response
          /\ ("error", JStr "Failed to initialize Kraken API")
             ∈ JSONResponse.content response).
Proof.
  intros Hlib Hok Hinit Hcool endpoint Hendpoint.
  assert (forall r, KrakenExecutor.execute_trade kraken now credentials executor r
                    = (not_ready executor, executor, [])) as Hrefused
    by (intros r; by apply execute_trade_in_cooldown).
  assert (run_executor kraken now credentials executor
            (tradingview_webhook getenv cloud self request)
          = (except_clauses
               (JSONResponse_init (webhook_content alert (not_ready executor)) 400),
             snd (process_request getenv cloud self request), executor, [])
          /\ run_executor kraken now credentials executor
               (validate_tradingview_webhook getenv cloud self request)
             = (except_clauses
                  (JSONResponse_init (validation_content alert (not_ready executor)) 400),
                snd (process_request getenv cloud self request), executor, []))
    as [Hserved Hdry].
  { unfold tradingview_webhook, validate_tradingview_webhook.
    destruct (process_request getenv cloud self request) as [processed self'].
    cbn [fst] in Hok. subst processed. cbn [run_executor snd].
    unfold KrakenExecutor.validate_trade. by rewrite !Hrefused. }
  destruct Hendpoint as [-> | ->].
  - rewrite Hserved.
    destruct (endpoint_answer (webhook_content alert (not_ready executor)) 400 Hlib)
      as (response & -> & Hstatus & Hcontent).
    rewrite webhook_content_renders in Hstatus, Hcontent.
    change (text_encodable (TradeResponse.order_id (not_ready executor))) with true
      in Hstatus, Hcontent.
    change (text_encodable (TradeResponse.error (not_ready executor))) with true
      in Hstatus, Hcontent.
    rewrite !andb_true_r in Hstatus, Hcontent.
    exists response. split; [done | split; [done|]].
    intros Hrenders. rewrite (Hcontent Hrenders). split.
    + apply list_elem_of_here.
    + do 3 apply list_elem_of_further. apply list_elem_of_here.
  - rewrite Hdry.
    destruct (endpoint_answer (validation_content alert (not_ready executor)) 400 Hlib)
      as (response & -> & Hstatus & Hcontent).
    rewrite validation_content_renders in Hstatus, Hcontent.
    change (text_encodable (TradeResponse.error (not_ready executor))) with true
      in Hstatus, Hcontent.
    rewrite !andb_true_r in Hstatus, Hcontent.
    exists response. split; [done | split; [done|]].
    intros Hrenders. rewrite (Hcontent Hrenders). split.
    + apply list_elem_of_here.
    + do 2 apply list_elem_of_further. apply list_elem_of_here.
Qed.
End ExecutorMore.

(** ** The further properties on sample data *)

(** X1 at a market order with leverage, and at a body with three faults. *)
Lemma schema_accepts_iff_witness :
  is_ok (TradingViewAlert_init (lib := Reference.lib) Samples.leveraged) = true
  /\ is_ok (TradingViewAlert_init (lib := Reference.lib) Samples.broken) <> true.
Proof.
  split.
  - apply (schema_accepts_iff (lib := Reference.lib)). cbn.
    split; [by eexists|]. split; [by eexists|].
    repeat split; try done.
    intros v [= <-]. reflexivity.
  - intros H. apply (schema_accepts_iff (lib := Reference.lib)) in H.
    destruct H as [[s Hs] _]. discriminate Hs.
Defined.

(** X2 at a body without a symbol, with a side that is not one and a
    negative volume. *)
Lemma schema_reports_every_failure_witness :
  let errors := [("symbol", missing); ("side", type_error);
                 ("volume", value_error "Volume must be positive")] in
  TradingViewAlert_init (lib := Reference.lib) Samples.broken
  = Raise (ValidationError errors)
  /\ (forall name e,
        (name, e) ∈ errors <-> field_error Samples.broken name = Some e)
  /\ errors.*1 `sublist_of` field_names.
Proof.
  cbn zeta.
  assert (TradingViewAlert_init (lib := Reference.lib) Samples.broken
          = Raise (ValidationError
                     [("symbol", missing); ("side", type_error);
                      ("volume", value_error "Volume must be positive")])) as H
    by reflexivity.
  split; [exact H|].
  exact (proj2 (schema_reports_every_failure (lib := Reference.lib) _ _ H)).
Defined.

(** X3 at a market order with leverage. *)
Lemma accepted_alert_carries_input_witness :
  TradingViewAlert_init (lib := Reference.lib) Samples.leveraged
  = Ok Samples.leveraged_alert
  /\ TradingViewAlert.order_type Samples.leveraged_alert = MARKET
  /\ TradingViewAlert.leverage Samples.leveraged_alert = Some 3
  /\ TradingViewAlert.custom_fields Samples.leveraged_alert = Some [].
Proof.
  assert (TradingViewAlert_init (lib := Reference.lib) Samples.leveraged
          = Ok Samples.leveraged_alert) as H by reflexivity.
  destruct (accepted_alert_carries_input (lib := Reference.lib) _ _ H)
    as (_ & Horder_type & _ & _ & Hleverage & _ & _ & _ & Hcustom_fields).
  split; [exact H|].
  split; [exact Horder_type | split; [exact Hleverage | exact Hcustom_fields]].
Defined.

(** X4 on the reference instance. *)
Lemma validate_symbol_canonical_witness :
  validate_symbol (lib := Reference.lib) (str_upper (PyLib := Reference.lib) "eth/usd")
  = validate_symbol (lib := Reference.lib) "eth/usd"
  /\ validate_symbol (lib := Reference.lib) "eth/usd"
     ∉ ["BTCUSD"; "BTC/USD"; "ETH/USD"].
Proof.
  destruct (validate_symbol_canonical (laws := Reference_laws) "eth/usd")
    as (Hcase & _ & Hnot).
  split; [exact Hcase | exact Hnot].
Defined.

(** X5 at a market order with leverage. *)
Lemma translation_fills_only_supplied_slots_witness :
  exists request,
    from_tradingview_alert (lib := Reference.lib) Samples.leveraged_alert = Ok request
    /\ TradeRequest.leverage request = Some "3"
    /\ TradeRequest.price request = None
    /\ TradeRequest.price2 request = None
    /\ TradeRequest.validate request = None.
Proof.
  destruct (translation_fills_only_supplied_slots (lib := Reference.lib)
              Samples.leveraged_alert)
    as (request & Hok & _ & Hleverage & Hstop & _ & _ & _ & Hvalidate & _).
  destruct (Hstop eq_refl) as [Hprice Hprice2].
  exists request.
  split; [exact Hok|]. split; [exact Hleverage|]. split; [exact Hprice|].
  split; [exact Hprice2 | exact Hvalidate].
Defined.

(** X6 at a body that is not JSON, with a forged signature and without a
    secret. *)
Lemma process_request_order_of_checks_witness :
  fst (process_request (lib := Reference.lib)
         (Reference.environ (Some Reference.secret)) Reference.no_cloud
         PayloadProcessor.init (Reference.request "not json" (Some "deadbeef")))
  = Raise (HTTPException 401 "Invalid signature")
  /\ fst (process_request (lib := Reference.lib)
            (Reference.environ None) Reference.no_cloud
            PayloadProcessor.init (Reference.request "not json" None))
     = Raise (HTTPException 400 "Invalid JSON payload").
Proof.
  pose proof (fun webhook_secret request =>
    process_request_order_of_checks (lib := Reference.lib)
      (Reference.environ webhook_secret) Reference.no_cloud
      PayloadProcessor.init request) as Hspec.
  cbn zeta in Hspec.
  split.
  - destruct (Hspec (Some Reference.secret)
                (Reference.request "not json" (Some "deadbeef"))) as [Hsig _].
    apply Hsig. reflexivity.
  - destruct (Hspec None (Reference.request "not json" None)) as [_ Hbody].
    destruct (Hbody eq_refl) as [Hjson _].
    apply (Hjson "Expecting value: line 1 column 1 (char 0)"). reflexivity.
Defined.


(** X8 at a market order, at one whose volume is NaN, and at a market
    order that the executor answers with an error holding a lone
    surrogate. *)
Lemma response_after_processing_witness :
  (exists trade_request response,
     run Reference.gateway
       (tradingview_webhook (lib := Reference.lib) (Reference.environ None)
          Reference.no_cloud PayloadProcessor.init
          (Reference.request Reference.market_order_text None))
     = (Ok response, PayloadProcessor.init, [execute_trade trade_request])
     /\ JSONResponse.status_code response = 200)
  /\ (exists trade_request response,
        run Reference.gateway
          (tradingview_webhook (lib := Samples.lib_with_nan) (Reference.environ None)
             Reference.no_cloud PayloadProcessor.init
             (Reference.request Samples.nan_order_text None))
        = (Ok response, PayloadProcessor.init, [execute_trade trade_request])
        /\ JSONResponse.status_code response = 500)
  /\ (exists trade_request response,
        run Samples.garbled_gateway
          (tradingview_webhook (lib := Reference.lib) (Reference.environ None)
             Reference.no_cloud PayloadProcessor.init
             (Reference.request Reference.market_order_text None))
        = (Ok response, PayloadProcessor.init, [execute_trade trade_request])
        /\ JSONResponse.status_code response = 500).
Proof.
  assert (forall content : list (string * json),
            utf8_encodable Reference.encode_error = true) as Hlib
    by (intros content; vm_compute; reflexivity).
  split; [|split].
  - pose proof (response_after_processing (lib := Reference.lib)
                  (Reference.environ None) Reference.no_cloud PayloadProcessor.init
                  (Reference.request Reference.market_order_text None)
                  Reference.gateway _ _ Hlib eq_refl) as Hspec.
    cbn zeta in Hspec.
    destruct Hspec as (Hcalls & _ & (response & Hresponse & Hstatus) & _).
    eexists _, response.
    split; [|exact Hstatus].
    destruct (run Reference.gateway _) as [[r self'] calls] eqn:Hrun.
    cbn [fst snd] in Hcalls, Hresponse. subst r calls.
    vm_compute in Hrun. by injection Hrun as _ <-.
  - pose proof (response_after_processing (lib := Samples.lib_with_nan)
                  (Reference.environ None) Reference.no_cloud PayloadProcessor.init
                  (Reference.request Samples.nan_order_text None)
                  Reference.gateway _ _ Hlib eq_refl) as Hspec.
    cbn zeta in Hspec.
    destruct Hspec as (Hcalls & _ & (response & Hresponse & Hstatus) & _).
    eexists _, response.
    split; [|exact Hstatus].
    destruct (run Reference.gateway _) as [[r self'] calls] eqn:Hrun.
    cbn [fst snd] in Hcalls, Hresponse. subst r calls.
    vm_compute in Hrun. by injection Hrun as _ <-.
  - pose proof (response_after_processing (lib := Reference.lib)
                  (Reference.environ None) Reference.no_cloud PayloadProcessor.init
                  (Reference.request Reference.market_order_text None)
                  Samples.garbled_gateway _ _ Hlib eq_refl) as Hspec.
    cbn zeta in Hspec.
    destruct Hspec as (Hcalls & _ & (response & Hresponse & Hstatus) & _).
    eexists _, response.
    split; [|exact Hstatus].
    destruct (run Samples.garbled_gateway _) as [[r self'] calls] eqn:Hrun.
    cbn [fst snd] in Hcalls, Hresponse. subst r calls.
    vm_compute in Hrun. by injection Hrun as _ <-.
Defined.

(** The decoder of the reference instance raises nothing but
    [JSONDecodeError]. *)
Lemma example_json_loads_raises b s d :
  Reference.example_json_loads b <> Raise (HTTPException s d).
Proof.
  unfold Reference.example_json_loads.
  repeat (destruct (String.eqb _ _); [done|]). done.
Qed.

(** X9 at a forged signature in production. *)
Lemma webhook_status_codes_witness :
  JSONResponse.status_code
    (fst (app_tradingview_webhook (lib := Reference.lib)
            (Reference.environ (Some Reference.secret)) Reference.no_cloud
            Reference.production PayloadProcessor.init
            (Reference.request Reference.market_order_text (Some "deadbeef"))
            Reference.gateway))
  ∈ [200; 400; 401; 500].
Proof.
  apply (webhook_status_codes (lib := Reference.lib)).
  exact example_json_loads_raises.
Defined.

(** X10: a processor that served a request when the secret was set still
    has it when the environment no longer does. *)
Lemma webhook_secret_is_cached_witness :
  fst (_get_webhook_secret (Reference.environ None) Reference.no_cloud
         (snd (process_request (lib := Reference.lib)
                 (Reference.environ (Some Reference.secret)) Reference.no_cloud
                 PayloadProcessor.init
                 (Reference.request Reference.market_order_text None))))
  = Some Reference.secret.
Proof.
  pose proof (webhook_secret_is_cached (lib := Reference.lib)
                (Reference.environ (Some Reference.secret)) Reference.no_cloud
                PayloadProcessor.init
                (Reference.request Reference.market_order_text None)) as Hspec.
  cbn zeta in Hspec. destruct Hspec as [Hcached _].
  apply Hcached. reflexivity.
Defined.

(** X11 at a production environment. *)
Lemma production_requires_signatures_witness :
  Config_init Samples.ascii_lower Samples.production_environ = Ok Reference.production
  /\ fst (_validate_signature (lib := Reference.lib) Samples.production_environ
            Reference.no_cloud PayloadProcessor.init
            (Reference.request Reference.market_order_text None))
     = Raise (HTTPException 401 "Missing signature header").
Proof.
  assert (Config_init Samples.ascii_lower Samples.production_environ
          = Ok Reference.production) as H by reflexivity.
  split; [exact H|].
  destruct (production_requires_signatures (lib := Reference.lib) _ _ _ H eq_refl)
    as (_ & _ & _ & Hsignature).
  apply Hsignature. reflexivity.
Defined.

(** X12 at a secret that only Secret Manager holds, and at one that
    nobody holds. *)
Lemma secret_lookup_order_witness :
  let self := SecretManager.init true Samples.with_project (Ok Samples.client) in
  SecretManager.get_secret (Reference.environ None) Samples.with_project self
    "WEBHOOK_SECRET" None = Some "hunter2"
  /\ SecretManager.get_secret (Reference.environ None) Samples.with_project self
       "KRAKEN_API_KEY" (Some "fallback") = Some "fallback"
  /\ SecretManager.get_secret (Reference.environ (Some Reference.secret))
       Samples.with_project self "WEBHOOK_SECRET" None = Some Reference.secret.
Proof.
  cbn zeta.
  pose proof (fun getenv => secret_lookup_order getenv Samples.with_project true
                              (Ok Samples.client)) as Hspec.
  cbn zeta in Hspec.
  split; [|split].
  - destruct (Hspec (Reference.environ None) "WEBHOOK_SECRET" None)
      as (_ & _ & Hcloud & _).
    apply (Hcloud eq_refl Samples.client "my-project"); done.
  - destruct (Hspec (Reference.environ None) "KRAKEN_API_KEY" (Some "fallback"))
      as (_ & _ & Hcloud & _).
    apply (Hcloud eq_refl Samples.client "my-project"); done.
  - destruct (Hspec (Reference.environ (Some Reference.secret)) "WEBHOOK_SECRET" None)
      as (Henv & _).
    apply Henv. reflexivity.
Defined.

(** X13 at two production configurations with different secrets. *)
Lemma as_dict_hides_secrets_witness :
  Config.webhook_secret Reference.production <> Config.webhook_secret Samples.rotated
  /\ as_dict Reference.production "INFO" = as_dict Samples.rotated "INFO".
Proof.
  split; [discriminate|].
  apply as_dict_hides_secrets; reflexivity.
Defined.

(** X15: thirty seconds after a failed attempt. *)
Lemma cooldown_skips_initialization_witness :
  KrakenExecutor.execute_trade (lib := Reference.lib) Samples.kraken Samples.later
    Samples.credentials Samples.failed_executor Samples.trade_request
  = (not_ready Samples.failed_executor, Samples.failed_executor, [])
  /\ KrakenExecutor.get_open_orders Samples.kraken Samples.later
       Samples.credentials Samples.failed_executor
     = ([], Samples.failed_executor, []).
Proof.
  destruct (cooldown_skips_initialization (lib := Reference.lib) Samples.kraken
              Samples.later Samples.credentials Samples.failed_executor
              Samples.trade_request)
    as (_ & Htrade & _ & Horders); [reflexivity | vm_compute; reflexivity |].
  split; [exact Htrade | exact Horders].
Defined.

(** X16: the exchange cannot be reached at the first trade, and can
    thirty seconds later. *)
Lemma failed_initialization_starts_cooldown_witness :
  let self' :=
    snd (fst (KrakenExecutor._initialize Samples.unreachable
                Samples.now Samples.credentials KrakenExecutor.init)) in
  KrakenExecutor._last_init_attempt self' = Samples.now
  /\ KrakenExecutor.execute_trade (lib := Reference.lib) Samples.kraken Samples.later
       Samples.credentials self' Samples.trade_request
     = (not_ready self', self', []).
Proof.
  cbn zeta.
  pose proof (failed_initialization_starts_cooldown (lib := Reference.lib)
                Samples.unreachable Samples.now Samples.credentials
                KrakenExecutor.init Samples.kraken Samples.later Samples.credentials
                Samples.trade_request) as Hspec.
  cbn zeta in Hspec.
  destruct Hspec as (_ & Hlast & Hrefused);
    [reflexivity | vm_compute; reflexivity | reflexivity | vm_compute; reflexivity |].
  split; [exact Hlast | exact Hrefused].
Defined.

(** X17 at the first trade of an executor. *)
Lemma execute_trade_queries_witness :
  executor_ok KrakenExecutor.init
  /\ executor_ok
       (snd (fst (KrakenExecutor.execute_trade (lib := Reference.lib) Samples.kraken
                    Samples.now Samples.credentials KrakenExecutor.init
                    Samples.trade_request)))
  /\ snd (KrakenExecutor.execute_trade (lib := Reference.lib) Samples.kraken
            Samples.now Samples.credentials KrakenExecutor.init
            Samples.trade_request)
     = [CallTime; CallAddOrder (dict_exclude_none Samples.trade_request)].
Proof.
  assert (executor_ok KrakenExecutor.init) as Hok by (split; [discriminate | reflexivity]).
  split; [exact Hok|].
  pose proof (execute_trade_queries (lib := Reference.lib) Samples.kraken Samples.now
                Samples.credentials KrakenExecutor.init Samples.trade_request Hok)
    as Hspec.
  cbn zeta in Hspec.
  destruct (KrakenExecutor.execute_trade _ _ _ _ _) as [[trade_response self'] calls]
    eqn:Hrun.
  destruct Hspec as (Hok' & _ & _ & _).
  split; [exact Hok'|].
  cbn [snd]. apply (f_equal snd) in Hrun. cbn [snd] in Hrun. rewrite <- Hrun.
  reflexivity.
Defined.

(** X18 at an order that the exchange places. *)
Lemma execute_trade_success_witness :
  exists order_id,
    TradeResponse.order_id
      (fst (fst (KrakenExecutor.execute_trade (lib := Reference.lib) Samples.kraken
                   Samples.now Samples.credentials KrakenExecutor.init
                   Samples.trade_request)))
    = Some order_id.
Proof.
  pose proof (execute_trade_success (lib := Reference.lib) Samples.kraken Samples.now
                Samples.credentials KrakenExecutor.init Samples.trade_request)
    as Hspec.
  cbn zeta in Hspec. destruct Hspec as (_ & _ & Hplaced).
  destruct Hplaced as (_ & order_id & _ & _ & _ & _ & _ & Hid);
    [vm_compute; reflexivity|].
  exists order_id. exact Hid.
Defined.

(** X19 at an exchange with one open order. *)
Lemma open_orders_listing_witness :
  exists order,
    fst (fst (KrakenExecutor.get_open_orders Samples.kraken
                Samples.now Samples.credentials KrakenExecutor.init)) !! 0%nat
    = Some order
    /\ order !! "order_id" = Some (JStr "OQCLML-BW3P3-BUCMWZ")
    /\ order !! "status" = Some (JStr "open").
Proof.
  pose proof (open_orders_listing Samples.kraken Samples.now
                Samples.credentials KrakenExecutor.init) as Hspec.
  cbn zeta in Hspec.
  destruct Hspec as [Hnone | (result & open & result_json & Hquery & _ & Hresult
                               & _ & Horders)].
  - apply (f_equal length) in Hnone. vm_compute in Hnone. discriminate Hnone.
  - injection Hquery as <-. injection Hresult as <- _.
    destruct (Horders 0%nat _ _ eq_refl) as (order & Hlookup & Hid & Hdata).
    exists order. split; [exact Hlookup|]. split; [exact Hid|].
    rewrite Hdata by discriminate. reflexivity.
Defined.

(** X20 at a market order: the order of the validate endpoint has
    [validate] set, that of the webhook endpoint has no such parameter. *)
Lemma dry_run_never_places_an_order_witness :
  let served endpoint :=
    snd (run_executor (lib := Reference.lib) Samples.kraken Samples.now
           Samples.credentials KrakenExecutor.init
           (endpoint (Reference.environ None) Reference.no_cloud PayloadProcessor.init
              (Reference.request Reference.market_order_text None))) in
  served (validate_tradingview_webhook (lib := Reference.lib))
  = [CallTime;
     CallAddOrder (dict_exclude_none (set_validate Samples.trade_request (Some true)))]
  /\ dict_exclude_none (set_validate Samples.trade_request (Some true)) !! "validate"
     = Some (ParamBool true)
  /\ served (tradingview_webhook (lib := Reference.lib))
     = [CallTime; CallAddOrder (dict_exclude_none Samples.trade_request)]
  /\ dict_exclude_none Samples.trade_request !! "validate" = None.
Proof.
  cbn zeta.
  pose proof (dry_run_never_places_an_order (lib := Reference.lib)
                (Reference.environ None) Reference.no_cloud Samples.kraken Samples.now
                Samples.credentials PayloadProcessor.init KrakenExecutor.init
                (Reference.request Reference.market_order_text None)) as Hspec.
  cbn zeta in Hspec. destruct Hspec as (Hdry & Hlive & _).
  assert (snd (run_executor (lib := Reference.lib) Samples.kraken Samples.now
                 Samples.credentials KrakenExecutor.init
                 (validate_tradingview_webhook (lib := Reference.lib)
                    (Reference.environ None) Reference.no_cloud PayloadProcessor.init
                    (Reference.request Reference.market_order_text None)))
          = [CallTime;
             CallAddOrder
               (dict_exclude_none (set_validate Samples.trade_request (Some true)))])
    as Hdry_calls by (vm_compute; reflexivity).
  assert (snd (run_executor (lib := Reference.lib) Samples.kraken Samples.now
                 Samples.credentials KrakenExecutor.init
                 (tradingview_webhook (lib := Reference.lib)
                    (Reference.environ None) Reference.no_cloud PayloadProcessor.init
                    (Reference.request Reference.market_order_text None)))
          = [CallTime; CallAddOrder (dict_exclude_none Samples.trade_request)])
    as Hlive_calls by (vm_compute; reflexivity).
  split; [exact Hdry_calls|]. split.
  { apply Hdry. rewrite Hdry_calls.
    apply list_elem_of_further, list_elem_of_here. }
  split; [exact Hlive_calls|].
  apply Hlive. rewrite Hlive_calls.
  apply list_elem_of_further, list_elem_of_here.
Defined.



(** X23 at the URL of the webhook and at that of the validate endpoint. *)
Lemma validate_url_suffix_witness :
  (exists request,
     send_webhook (lib := Reference.lib) Samples.json_dumps false
       "http://localhost:8080/webhook/tradingview" Samples.payload_ None true
     = Some ("http://localhost:8080/webhook/tradingview/validate", request))
  /\ (exists request,
        send_webhook (lib := Reference.lib) Samples.json_dumps false
          "http://localhost:8080/webhook/tradingview/validate" Samples.payload_ None true
        = Some ("http://localhost:8080/webhook/tradingview/validate", request)).
Proof.
  split.
  - destruct (send_webhook (lib := Reference.lib) Samples.json_dumps false
                "http://localhost:8080/webhook/tradingview" Samples.payload_ None true)
      as [[url' request]|] eqn:Hsent; [|discriminate Hsent].
    destruct (validate_url_suffix (lib := Reference.lib) _ _ _ _ _ _ _ _ Hsent)
      as [_ Hvalidate].
    destruct (Hvalidate eq_refl) as (_ & _ & Happended).
    exists request. rewrite (Happended ltac:(vm_compute; reflexivity)). reflexivity.
  - destruct (send_webhook (lib := Reference.lib) Samples.json_dumps false
                "http://localhost:8080/webhook/tradingview/validate" Samples.payload_
                None true)
      as [[url' request]|] eqn:Hsent; [|discriminate Hsent].
    destruct (validate_url_suffix (lib := Reference.lib) _ _ _ _ _ _ _ _ Hsent)
      as [_ Hvalidate].
    destruct (Hvalidate eq_refl) as (_ & Hkept & _).
    exists request. rewrite (Hkept ltac:(vm_compute; reflexivity)). reflexivity.
Defined.

(** X24: no credentials for the exchange anywhere. *)
Lemma missing_credentials_make_no_query_witness :
  let manager := SecretManager.init false Reference.staging (Ok Samples.client) in
  let credentials :=
    SecretManager.get_kraken_credentials (Reference.environ None) Reference.staging
      manager in
  let outcome :=
    KrakenExecutor.execute_trade (lib := Reference.lib) Samples.kraken Samples.now
      credentials KrakenExecutor.init Samples.trade_request in
  snd outcome = []
  /\ fst (fst outcome) = not_ready KrakenExecutor.init
  /\ KrakenExecutor._last_init_attempt (snd (fst outcome)) = Samples.now.
Proof.
  cbn zeta.
  pose proof (missing_credentials_make_no_query (lib := Reference.lib) Samples.kraken
                Samples.now (Reference.environ None) Reference.staging
                (SecretManager.init false Reference.staging (Ok Samples.client))
                KrakenExecutor.init Samples.trade_request) as Hspec.
  cbn zeta in Hspec.
  destruct Hspec as (Hcalls & Hresponse & _ & Hlast); [reflexivity | reflexivity |].
  split; [exact Hcalls | split; [exact Hresponse | exact Hlast]].
Defined.

(** X25 at an initialized executor and an account with two assets. *)
Lemma account_balance_all_or_nothing_witness :
  is_Some (fst (fst (KrakenExecutor.get_account_balance Samples.kraken Samples.later
                       Samples.credentials Samples.float_of_str
                       Samples.running_executor)) !! "XXBT")
  /\ is_Some (fst (fst (KrakenExecutor.get_account_balance Samples.kraken Samples.later
                          Samples.credentials Samples.float_of_str
                          Samples.running_executor)) !! "ZUSD").
Proof.
  pose proof (account_balance_all_or_nothing Samples.kraken Samples.later
                Samples.credentials Samples.float_of_str Samples.running_executor)
    as Hspec.
  cbn zeta in Hspec. destruct Hspec as (_ & _ & Hassets).
  specialize (Hassets _ _ _ ltac:(split; [reflexivity | reflexivity]) eq_refl
                eq_refl eq_refl eq_refl).
  assert (forall k v,
            (k, v) ∈ [("XXBT", "0.5"); ("ZUSD", "30000.0")] ->
            is_ok (Samples.float_of_str v) = true) as Hparse.
  { intros k v Hin. apply elem_of_cons in Hin as [[= -> ->]|Hin]; [reflexivity|].
    apply elem_of_cons in Hin as [[= -> ->]|Hin]; [reflexivity|].
    by apply elem_of_nil in Hin. }
  specialize (Hassets Hparse).
  split.
  - apply (Hassets "XXBT" "0.5"). apply list_elem_of_here.
  - apply (Hassets "ZUSD" "30000.0"). apply list_elem_of_further, list_elem_of_here.
Defined.

(** X26 at a market order, thirty seconds after a failed attempt. *)
Lemma unready_executor_sends_nothing_witness :
  exists response,
    run_executor (lib := Reference.lib) Samples.kraken Samples.later
      Samples.credentials Samples.failed_executor
      (tradingview_webhook (lib := Reference.lib) (Reference.environ None)
         Reference.no_cloud PayloadProcessor.init
         (Reference.request Reference.market_order_text None))
    = (Ok response, PayloadProcessor.init, Samples.failed_executor, [])
    /\ JSONResponse.status_code response = 400
    /\ ("error", JStr "Failed to initialize Kraken API")
       ∈ JSONResponse.content response.
Proof.
  assert (forall content : list (string * json),
            utf8_encodable Reference.encode_error = true) as Hlib
    by (intros content; vm_compute; reflexivity).
  destruct (unready_executor_sends_nothing (lib := Reference.lib)
              (Reference.environ None) Reference.no_cloud Samples.kraken
              Samples.later Samples.credentials PayloadProcessor.init
              Samples.failed_executor
              (Reference.request Reference.market_order_text None) _ _
              Hlib eq_refl eq_refl ltac:(vm_compute; reflexivity) _
              (or_introl eq_refl))
    as (response & Hrun & Hstatus & Hcontent).
  exists response. split; [exact Hrun|]. split; [exact Hstatus|].
  apply Hcontent. vm_compute. reflexivity.
Defined.
